(** * ARTHAX: the MCP context aggregator and the tolerant JSON extractor

    A shallow embedding of
      - [tools/home_loan_affordability.py]: [fetch_data_from_mcp],
        [get_full_financial_context_from_mcp_shared] and the parsing half of
        [_call_gemini_and_parse_json];
      - [tools/analyse_spending_patterns.py]: the parsing half of
        [analyze_financial_data].

    Python values are a small inductive type, dictionaries are insertion
    ordered association lists, exceptions are an explicit [Raise] result and
    the network is a function from requests to outcomes whose calls are
    logged.  Text is a [string] of characters with code points below 256. *)

From Stdlib Require Import ZArith String List Ascii Bool Lia Arith.
From Stdlib Require Import PrimFloat DecimalString Finite.
Import ListNotations.

Set Warnings "-register-all".

Local Open Scope list_scope.
Local Open Scope string_scope.

(** ** Python values *)

Inductive value : Type :=
| PNone
| PBool (b : bool)
| PInt (z : Z)
| PFloat (f : float)
| PStr (s : string)
| PList (l : list value)
| PDict (d : list (string * value)).

Definition dict := list (string * value).

(** [k in d], [d.get(k)] and [d[k] = v] on a dictionary. *)
Fixpoint dict_get (k : string) (d : dict) : option value :=
  match d with
  | [] => None
  | (k', v) :: d' => if String.eqb k k' then Some v else dict_get k d'
  end.

Definition dict_has (k : string) (d : dict) : bool :=
  match dict_get k d with Some _ => true | None => false end.

Fixpoint dict_set (k : string) (v : value) (d : dict) : dict :=
  match d with
  | [] => [(k, v)]
  | (k', v') :: d' =>
      if String.eqb k k' then (k', v) :: d' else (k', v') :: dict_set k v d'
  end.

(** Python truthiness, [bool(v)]. *)
Definition truthy (v : value) : bool :=
  match v with
  | PNone => false
  | PBool b => b
  | PInt z => negb (Z.eqb z 0)
  | PFloat f => negb (PrimFloat.eqb f PrimFloat.zero)
  | PStr s => negb (String.eqb s "")
  | PList l => match l with [] => false | _ => true end
  | PDict d => match d with [] => false | _ => true end
  end.

(** [v == "s"] for a string literal: only an equal [str] compares equal. *)
Definition eq_str (v : value) (s : string) : bool :=
  match v with
  | PStr s' => String.eqb s' s
  | _ => false
  end.

Definition is_list (v : value) : bool :=
  match v with PList _ => true | _ => false end.

(** ** Text helpers *)

Fixpoint prefixb (p s : string) : bool :=
  match p, s with
  | EmptyString, _ => true
  | String a p', String b s' => Ascii.eqb a b && prefixb p' s'
  | String _ _, EmptyString => false
  end.

(** [needle in hay] on two [str]. *)
Fixpoint contains (needle hay : string) : bool :=
  prefixb needle hay ||
  match hay with
  | EmptyString => false
  | String _ hay' => contains needle hay'
  end.

(** [sep.join(parts)]. *)
Fixpoint join (sep : string) (parts : list string) : string :=
  match parts with
  | [] => ""
  | [p] => p
  | p :: rest => p ++ sep ++ join sep rest
  end.

(** [str(n)] for an [int]. *)
Definition str_of_Z (z : Z) : string := NilZero.string_of_int (Z.to_int z).

(** ** Exceptions *)

Inductive exn : Type :=
| Timeout
| ConnectionError
| HTTPError (status_code : Z) (text : string)
| JSONDecodeError (msg : string)
| ValueError (msg : string)
| KeyError (k : string)
| TypeError (msg : string)
| AttributeError (msg : string)
| OtherException (msg : string).

Inductive result (A : Type) : Type :=
| Ret (a : A)
| Raise (e : exn).
Arguments Ret {A} a.
Arguments Raise {A} e.

Definition bind {A B} (r : result A) (f : A -> result B) : result B :=
  match r with
  | Ret a => f a
  | Raise e => Raise e
  end.

Notation "x <- r ;; k" := (bind r (fun x => k))
  (at level 61, r at next level, right associativity).

(** [type(v).__name__], as it appears in the interpreter's messages. *)
Definition type_name (v : value) : string :=
  match v with
  | PNone => "NoneType"
  | PBool _ => "bool"
  | PInt _ => "int"
  | PFloat _ => "float"
  | PStr _ => "str"
  | PList _ => "list"
  | PDict _ => "dict"
  end.

(** Operators that raise on the wrong type of operand. *)

(** ["k" in v]. *)
Definition py_in (k : string) (v : value) : result bool :=
  match v with
  | PDict d => Ret (dict_has k d)
  | PList l => Ret (existsb (fun x => eq_str x k) l)
  | PStr s => Ret (contains k s)
  | _ => Raise (TypeError ("argument of type '" ++ type_name v ++ "' is not iterable"))
  end.

(** [v["k"]]. *)
Definition py_getitem (v : value) (k : string) : result value :=
  match v with
  | PDict d =>
      match dict_get k d with
      | Some x => Ret x
      | None => Raise (KeyError k)
      end
  | PList _ => Raise (TypeError "list indices must be integers or slices, not str")
  | PStr _ => Raise (TypeError "string indices must be integers, not 'str'")
  | _ => Raise (TypeError ("'" ++ type_name v ++ "' object is not subscriptable"))
  end.

(** [v[0]]. *)
Definition py_first (v : value) : result value :=
  match v with
  | PList (x :: _) => Ret x
  | PList [] => Raise (OtherException "IndexError")
  | PDict _ => Raise (KeyError "0")
  | PStr s =>
      match s with
      | String c _ => Ret (PStr (String c ""))
      | EmptyString => Raise (OtherException "IndexError")
      end
  | _ => Raise (TypeError ("'" ++ type_name v ++ "' object is not subscriptable"))
  end.

(** [v.get("k")] and [v.get("k", dflt)]: only a [dict] has the method. *)
Definition py_get (v : value) (k : string) (dflt : value) : result value :=
  match v with
  | PDict d =>
      match dict_get k d with
      | Some x => Ret x
      | None => Ret dflt
      end
  | _ => Raise (AttributeError ("'" ++ type_name v ++ "' object has no attribute 'get'"))
  end.

(** [len(v)]. *)
Definition py_len (v : value) : result Z :=
  match v with
  | PList l => Ret (Z.of_nat (List.length l))
  | PDict d => Ret (Z.of_nat (List.length d))
  | PStr s => Ret (Z.of_nat (String.length s))
  | _ => Raise (TypeError ("object of type '" ++ type_name v ++ "' has no len()"))
  end.

(** [v["k"] = x]. *)
Definition py_setitem (v : value) (k : string) (x : value) : result value :=
  match v with
  | PDict d => Ret (PDict (dict_set k x d))
  | _ => Raise (TypeError ("'" ++ type_name v ++ "' object does not support item assignment"))
  end.

(** [str(e)] for a caught exception.  The text of an exception of
    [requests] is the library's own and is only named here; none of them is
    raised by the code modelled below that reads [str(e)]. *)
Definition str_exn (e : exn) : string :=
  match e with
  | Timeout => "timed out"
  | ConnectionError => "connection error"
  | HTTPError c t => str_of_Z c ++ " Error"
  | JSONDecodeError m => m
  | ValueError m => m
  | KeyError k => "'" ++ k ++ "'"
  | TypeError m => m
  | AttributeError m => m
  | OtherException m => m
  end.

(** ** Regular expressions: the fragment of [re] the two patterns use

    A backtracking matcher in continuation-passing style: alternatives are
    tried left to right, [Star] is greedy, [Lazy] is the reluctant [*?], and
    [re_search] returns the match with the leftmost start. *)

Inductive regex : Type :=
| Eps
| Chr (c : ascii)
| Cls (p : ascii -> bool)
| Cat (r1 r2 : regex)
| Alt (r1 r2 : regex)
| Star (r : regex)
| Lazy (r : regex)
| Group (r : regex).

Section Matcher.
Context {R : Type}.

(** One matcher: from the text and group 1, with a continuation. *)
Definition matcher : Type :=
  string -> option string -> (string -> option string -> option R) -> option R.

(** An iteration of a repetition goes on only if it consumed something. *)
Definition progress (loop : string -> option string -> option R)
    (s s' : string) (g' : option string) : option R :=
  if Nat.ltb (String.length s') (String.length s) then loop s' g' else None.

(** Greedy repetition: one more iteration first, the rest of the pattern
    when that fails. *)
Fixpoint star_loop (step : matcher) (k : string -> option string -> option R)
    (fuel : nat) (s : string) (g : option string) : option R :=
  match fuel with
  | O => k s g
  | S fuel' =>
      match step s g (progress (star_loop step k fuel') s) with
      | Some x => Some x
      | None => k s g
      end
  end.

(** Reluctant repetition: the rest of the pattern first. *)
Fixpoint lazy_loop (step : matcher) (k : string -> option string -> option R)
    (fuel : nat) (s : string) (g : option string) : option R :=
  match fuel with
  | O => k s g
  | S fuel' =>
      match k s g with
      | Some x => Some x
      | None => step s g (progress (lazy_loop step k fuel') s)
      end
  end.

Fixpoint rmatch (r : regex) : matcher :=
  fun s g k =>
  match r with
  | Eps => k s g
  | Chr c =>
      match s with
      | String a s' => if Ascii.eqb a c then k s' g else None
      | EmptyString => None
      end
  | Cls p =>
      match s with
      | String a s' => if p a then k s' g else None
      | EmptyString => None
      end
  | Cat r1 r2 => rmatch r1 s g (fun s' g' => rmatch r2 s' g' k)
  | Alt r1 r2 =>
      match rmatch r1 s g k with
      | Some x => Some x
      | None => rmatch r2 s g k
      end
  | Star r1 => star_loop (rmatch r1) k (String.length s) s g
  | Lazy r1 => lazy_loop (rmatch r1) k (String.length s) s g
  | Group r1 =>
      rmatch r1 s g (fun s' g' =>
        k s' (Some (substring 0 (String.length s - String.length s') s)))
  end.
End Matcher.

(** A match object: where it starts, [group(0)] and [group(1)]. *)
Record re_match : Type := mk_match {
  m_start : nat;
  group0 : string;
  group1 : option string
}.

(** [re.search(r, s)], trying the start positions from the left. *)
Fixpoint re_search_from (r : regex) (pos : nat) (s : string) : option re_match :=
  match rmatch r s None (fun rest g => Some (rest, g)) with
  | Some (rest, g) =>
      Some (mk_match pos (substring 0 (String.length s - String.length rest) s) g)
  | None =>
      match s with
      | EmptyString => None
      | String _ s' => re_search_from r (S pos) s'
      end
  end.

Definition re_search (r : regex) (s : string) : option re_match :=
  re_search_from r 0 s.

(** A literal string as a pattern. *)
Fixpoint lit (s : string) : regex :=
  match s with
  | EmptyString => Eps
  | String c s' => Cat (Chr c) (lit s')
  end.

Definition lbrace : ascii := "{"%char.
Definition rbrace : ascii := "}"%char.
Definition dquote : ascii := Ascii false true false false false true false false.

(** [[^{}]] *)
Definition not_brace (c : ascii) : bool :=
  negb (Ascii.eqb c lbrace || Ascii.eqb c rbrace).

(** [\s] on a [str] pattern: the characters for which [str.isspace] holds,
    among the code points below 256. *)
Definition is_space (c : ascii) : bool :=
  let n := nat_of_ascii c in
  (Nat.leb 9 n && Nat.leb n 13) || (Nat.leb 28 n && Nat.leb n 32)
  || Nat.eqb n 133 || Nat.eqb n 160.

(** [.] without [re.S]: everything but a line feed. *)
Definition not_newline (c : ascii) : bool :=
  negb (Nat.eqb (nat_of_ascii c) 10).

(** [r'\{(?:[^{}]|(?:\{[^{}]*\}))*\}'], the pattern both extractors search
    for ([re.S] changes only [.], which it does not use). *)
Definition brace_pattern : regex :=
  Cat (Chr lbrace)
    (Cat (Star (Alt (Cls not_brace)
                    (Cat (Chr lbrace) (Cat (Star (Cls not_brace)) (Chr rbrace)))))
         (Chr rbrace)).

(** [r'"login_url":\s*"(.*?)"'] *)
Definition login_url_pattern : regex :=
  Cat (lit (String dquote "login_url" ++ String dquote ":"))
    (Cat (Star (Cls is_space))
      (Cat (Chr dquote) (Cat (Group (Lazy (Cls not_newline))) (Chr dquote)))).

(** Source texts below are written with an apostrophe where the Python text
    has a double quote; [dq] puts the double quotes back. *)
Fixpoint dq (s : string) : string :=
  match s with
  | EmptyString => EmptyString
  | String c s' =>
      String (if Ascii.eqb c "'"%char then dquote else c) (dq s')
  end.

(** ** [json.loads]

    The functions below take the decoder as a parameter: what they do with
    its answer does not depend on how it decodes.  [Json.loads] is a decoder
    to run them with.  It follows the scanner of Python's [json.decoder] on
    objects, arrays, strings, integers and the three literals, with the
    positions and messages of its errors; a number with a fraction or an
    exponent, [NaN] and [Infinity], and [\u] escapes above code point 255
    are outside it and are reported as undecodable. *)

Inductive decoded : Type :=
| Decoded (v : value)
| Undecodable (msg : string).

Module Json.

Inductive scan (A : Type) : Type :=
| Ok (a : A) (rest : string) (pos : nat)
| Err (msg : string) (pos : nat)
| Stop (pos : nat).
Arguments Ok {A} a rest pos.
Arguments Err {A} msg pos.
Arguments Stop {A} pos.

Definition is_ws (c : ascii) : bool :=
  let n := nat_of_ascii c in
  Nat.eqb n 32 || Nat.eqb n 9 || Nat.eqb n 10 || Nat.eqb n 13.

Fixpoint skip_ws (s : string) (pos : nat) : string * nat :=
  match s with
  | String c s' => if is_ws c then skip_ws s' (S pos) else (s, pos)
  | EmptyString => (s, pos)
  end.

Definition is_digit (c : ascii) : bool :=
  let n := nat_of_ascii c in Nat.leb 48 n && Nat.leb n 57.

Definition digit_val (c : ascii) : Z := Z.of_nat (nat_of_ascii c - 48).

Definition hex_val (c : ascii) : option nat :=
  let n := nat_of_ascii c in
  if Nat.leb 48 n && Nat.leb n 57 then Some (n - 48)
  else if Nat.leb 65 n && Nat.leb n 70 then Some (n - 55)
  else if Nat.leb 97 n && Nat.leb n 102 then Some (n - 87)
  else None.

Fixpoint digits (s : string) (pos : nat) (acc : Z) : Z * string * nat :=
  match s with
  | String c s' =>
      if is_digit c then digits s' (S pos) (10 * acc + digit_val c)%Z
      else (acc, s, pos)
  | EmptyString => (acc, s, pos)
  end.

(** The integer part of [NUMBER_RE] at the head of [s]: an optional minus
    sign, then a zero or a digit string with no leading zero.  [None] is
    no match. *)
Definition integer_part (s : string) (pos : nat) : option (Z * string * nat) :=
  let '(neg, s1, p1) :=
    match s with
    | String "-" s' => (true, s', S pos)
    | _ => (false, s, pos)
    end in
  match s1 with
  | String c s2 =>
      if Ascii.eqb c "0"%char then Some (0%Z, s2, S p1)
      else if is_digit c then
        let '(n, s3, p3) := digits s2 (S p1) (digit_val c) in
        Some ((if neg then - n else n)%Z, s3, p3)
      else None
  | EmptyString => None
  end.

Definition starts_float (s : string) : bool :=
  match s with
  | String "." (String c _) => is_digit c
  | String e (String c s') =>
      (Ascii.eqb e "e"%char || Ascii.eqb e "E"%char) &&
      (is_digit c ||
       ((Ascii.eqb c "+"%char || Ascii.eqb c "-"%char) &&
        match s' with String d _ => is_digit d | EmptyString => false end))
  | _ => false
  end.

(** [scanstring]: [s] is the text after the opening quote, at [pos];
    [start] is the position of that quote. *)
Fixpoint scanstring (s : string) (pos start : nat) (acc : string)
    : scan string :=
  match s with
  | EmptyString => Err "Unterminated string starting at" start
  | String c s' =>
      if Ascii.eqb c dquote then Ok acc s' (S pos)
      else if Ascii.eqb c "\"%char then
        match s' with
        | EmptyString => Err "Unterminated string starting at" start
        | String e s'' =>
            let esc (x : nat) :=
              scanstring s'' (S (S pos)) start
                (acc ++ String (ascii_of_nat x) EmptyString) in
            if Ascii.eqb e dquote then esc 34
            else if Ascii.eqb e "\"%char then esc 92
            else if Ascii.eqb e "/"%char then esc 47
            else if Ascii.eqb e "b"%char then esc 8
            else if Ascii.eqb e "f"%char then esc 12
            else if Ascii.eqb e "n"%char then esc 10
            else if Ascii.eqb e "r"%char then esc 13
            else if Ascii.eqb e "t"%char then esc 9
            else if Ascii.eqb e "u"%char then
              match s'' with
              | String h1 (String h2 (String h3 (String h4 s4))) =>
                  match hex_val h1, hex_val h2, hex_val h3, hex_val h4 with
                  | Some a, Some b, Some c', Some d =>
                      let n := ((a * 16 + b) * 16 + c') * 16 + d in
                      if Nat.ltb n 256 then
                        scanstring s4 (pos + 6) start
                          (acc ++ String (ascii_of_nat n) EmptyString)
                      else Err "Unsupported \uXXXX escape" pos
                  | _, _, _, _ => Err "Invalid \uXXXX escape" pos
                  end
              | _ => Err "Invalid \uXXXX escape" pos
              end
            else Err "Invalid \escape" pos
        end
      else if Nat.ltb (nat_of_ascii c) 32 then
        Err "Invalid control character at" pos
      else scanstring s' (S pos) start (acc ++ String c EmptyString)
  end.

Definition expect_value {A} (r : scan A) : scan A :=
  match r with
  | Stop p => Err "Expecting value" p
  | _ => r
  end.

(** [scan_once], [JSONObject] after the first key's opening quote and
    [JSONArray] after the first value's position was found. *)
Fixpoint scan_once (fuel : nat) (s : string) (pos : nat) : scan value :=
  match fuel with
  | O => Stop pos
  | S fuel' =>
      match s with
      | EmptyString => Stop pos
      | String c s' =>
          if Ascii.eqb c dquote then
            match scanstring s' (S pos) pos EmptyString with
            | Ok str r p => Ok (PStr str) r p
            | Err m p => Err m p
            | Stop p => Stop p
            end
          else if Ascii.eqb c lbrace then
            let '(s1, p1) := skip_ws s' (S pos) in
            match s1 with
            | String c1 s2 =>
                if Ascii.eqb c1 rbrace then Ok (PDict []) s2 (S p1)
                else if Ascii.eqb c1 dquote then members fuel' s2 (S p1) []
                else Err "Expecting property name enclosed in double quotes" p1
            | EmptyString =>
                Err "Expecting property name enclosed in double quotes" p1
            end
          else if Ascii.eqb c "["%char then
            let '(s1, p1) := skip_ws s' (S pos) in
            match s1 with
            | String "]" s2 => Ok (PList []) s2 (S p1)
            | _ => elements fuel' s1 p1 []
            end
          else if prefixb "null" s then
            Ok PNone (substring 4 (String.length s) s) (pos + 4)
          else if prefixb "true" s then
            Ok (PBool true) (substring 4 (String.length s) s) (pos + 4)
          else if prefixb "false" s then
            Ok (PBool false) (substring 5 (String.length s) s) (pos + 5)
          else
            match integer_part s pos with
            | Some (n, r, p) =>
                if starts_float r then Err "Unsupported float literal" pos
                else Ok (PInt n) r p
            | None =>
                if prefixb "NaN" s || prefixb "Infinity" s
                   || prefixb "-Infinity" s
                then Err "Unsupported float literal" pos
                else Stop pos
            end
      end
  end

with members (fuel : nat) (s : string) (pos : nat) (acc : dict)
    : scan value :=
  match fuel with
  | O => Stop pos
  | S fuel' =>
      match scanstring s pos (pos - 1) EmptyString with
      | Err m p => Err m p
      | Stop p => Stop p
      | Ok key s1 p1 =>
          let '(s2, p2) := skip_ws s1 p1 in
          match s2 with
          | String ":" s3 =>
              let '(s4, p4) := skip_ws s3 (S p2) in
              match expect_value (scan_once fuel' s4 p4) with
              | Err m p => Err m p
              | Stop p => Stop p
              | Ok v s5 p5 =>
                  let acc' := dict_set key v acc in
                  let '(s6, p6) := skip_ws s5 p5 in
                  match s6 with
                  | String c s7 =>
                      if Ascii.eqb c rbrace then Ok (PDict acc') s7 (S p6)
                      else if Ascii.eqb c ","%char then
                        let '(s8, p8) := skip_ws s7 (S p6) in
                        match s8 with
                        | String c8 s9 =>
                            if Ascii.eqb c8 dquote
                            then members fuel' s9 (S p8) acc'
                            else Err "Expecting property name enclosed in double quotes" p8
                        | EmptyString =>
                            Err "Expecting property name enclosed in double quotes" p8
                        end
                      else Err "Expecting ',' delimiter" p6
                  | EmptyString => Err "Expecting ',' delimiter" p6
                  end
              end
          | _ => Err "Expecting ':' delimiter" p2
          end
      end
  end

with elements (fuel : nat) (s : string) (pos : nat) (acc : list value)
    : scan value :=
  match fuel with
  | O => Stop pos
  | S fuel' =>
      match expect_value (scan_once fuel' s pos) with
      | Err m p => Err m p
      | Stop p => Stop p
      | Ok v s1 p1 =>
          let acc' := (acc ++ [v])%list in
          let '(s2, p2) := skip_ws s1 p1 in
          match s2 with
          | String "]" s3 => Ok (PList acc') s3 (S p2)
          | String "," s3 =>
              let '(s4, p4) := skip_ws s3 (S p2) in
              elements fuel' s4 p4 acc'
          | _ => Err "Expecting ',' delimiter" p2
          end
      end
  end.

(** [lineno] and [colno] of [JSONDecodeError]. *)
Fixpoint line_col (doc : string) (pos line col : nat) : nat * nat :=
  match pos, doc with
  | S pos', String c doc' =>
      if Nat.eqb (nat_of_ascii c) 10
      then line_col doc' pos' (S line) 1
      else line_col doc' pos' line (S col)
  | _, _ => (line, col)
  end.

Definition str_of_nat (n : nat) : string := str_of_Z (Z.of_nat n).

(** [str(JSONDecodeError(msg, doc, pos))]. *)
Definition errmsg (msg doc : string) (pos : nat) : string :=
  let '(line, col) := line_col doc pos 1 1 in
  msg ++ ": line " ++ str_of_nat line ++ " column " ++ str_of_nat col
      ++ " (char " ++ str_of_nat pos ++ ")".

(** [json.loads(doc)] for a [str]. *)
Definition loads (doc : string) : decoded :=
  let '(s0, p0) := skip_ws doc 0 in
  match expect_value (scan_once (S (String.length doc)) s0 p0) with
  | Ok v rest p =>
      let '(rest', p') := skip_ws rest p in
      match rest' with
      | EmptyString => Decoded v
      | String _ _ => Undecodable (errmsg "Extra data" doc p')
      end
  | Err m p => Undecodable (errmsg m doc p)
  | Stop p => Undecodable (errmsg "Expecting value" doc p)
  end.

End Json.

(** ** The remote service *)

(** What [requests.post] is called with, and the response it returns. *)
Record request : Type := mk_request {
  req_url : string;
  req_headers : list (string * string);
  req_json : value;
  req_timeout : Z
}.

Record response : Type := mk_response {
  resp_status_code : Z;
  resp_text : string;
  resp_json : result value     (* [response.json()] *)
}.

Definition get_mcp_session_id : string :=
  "mcp-session-594e48ea-fea1-40ef-8c52-7552dd9272af".

Definition MCP_ENDPOINT : string := "http://localhost:8080/mcp/stream".

(** [response.raise_for_status()] *)
Definition raise_for_status (r : response) : result unit :=
  if (400 <=? resp_status_code r)%Z && (resp_status_code r <? 600)%Z
  then Raise (HTTPError (resp_status_code r) (resp_text r))
  else Ret tt.

(** The table of [fetch_data_from_mcp], with [.get(tool_name)]. *)
Definition expected_keys : list (string * string) :=
  [ ("fetch_bank_transactions", "bankTransactions");
    ("fetch_credit_report", "creditReport");
    ("fetch_epf_details", "epfDetails");
    ("fetch_mf_transactions", "mfTransactions");
    ("fetch_net_worth", "netWorth");
    ("fetch_stock_transactions", "stockTransactions") ].

Fixpoint assoc (k : string) (l : list (string * string)) : option string :=
  match l with
  | [] => None
  | (k', v) :: l' => if String.eqb k k' then Some v else assoc k l'
  end.

Definition expected_key (tool_name : string) : option string :=
  assoc tool_name expected_keys.

(** [a and b] on two tests that may raise. *)
Definition and_then (a b : result bool) : result bool :=
  x <- a ;; if x then b else Ret false.

(** The dictionaries [fetch_data_from_mcp] returns for a failure. *)
Definition err_dict (kind message : string) : value :=
  PDict [("error", PStr kind); ("message", PStr message)].

Definition login_message : string :=
  "MCP login required. Please complete login via browser.".

Definition login_required (login_url : value) : value :=
  PDict [("error", PStr "login_required"); ("message", PStr login_message);
         ("login_url", login_url)].

Definition no_data (tool_name : string) : value :=
  err_dict "no_data" ("MCP returned no data for " ++ tool_name ++ ".").

Definition invalid_json : value :=
  err_dict "invalid_json" "MCP returned invalid JSON.".

Definition empty_response (tool_name : string) : value :=
  err_dict "empty_response"
    ("MCP response for " ++ tool_name ++ " was empty or malformed.").

Definition timeout_error : value :=
  err_dict "timeout" "MCP request timed out.".

Definition connection_error : value :=
  err_dict "connection_error" "Could not connect to MCP server. Is it running?".

Definition http_error (code : Z) (body : string) : value :=
  err_dict "http_error" ("MCP HTTP error: " ++ str_of_Z code ++ " - " ++ body).

Definition unexpected_error : value :=
  err_dict "unexpected_error" "An unexpected error occurred during MCP fetch.".

Definition fallback_login_url : string :=
  "http://localhost:8080/mockWebPage?sessionId=" ++ get_mcp_session_id.

Section Program.

(** [json.loads] on a [str], and the remote end of [requests.post]. *)
Variable json_loads : string -> decoded.
Variable requests_post : request -> result response.

(** The body of the inner [try] and what follows it: [raw_str] is
    [response_json['result']['content'][0]['text']]. *)
Definition fetch_inner (tool_name : string) (raw_str : value) : result value :=
  match raw_str with
  | PStr raw =>
      match json_loads raw with
      | Undecodable _ =>
          if contains "login_required" raw && contains "login_url" raw then
            let login_url :=
              match re_search login_url_pattern raw with
              | Some m =>
                  match group1 m with Some u => PStr u | None => PNone end
              | None => PStr fallback_login_url
              end in
            Ret (login_required login_url)
          else Ret invalid_json
      | Decoded parsed_data =>
          status <- py_get parsed_data "status" PNone ;;
          is_login <-
            (if eq_str status "login_required"
             then (u <- py_get parsed_data "login_url" PNone ;; Ret (truthy u))
             else Ret false) ;;
          if is_login then
            u <- py_getitem parsed_data "login_url" ;;
            Ret (login_required u)
          else
            match expected_key tool_name with
            | Some key =>
                (* every key of the table is a non-empty string, so
                   [expected_key] is true where it is tested *)
                present <- py_in key parsed_data ;;
                empty <-
                  (if present
                   then (v <- py_getitem parsed_data key ;; Ret (negb (truthy v)))
                   else Ret true) ;;
                if empty then Ret (no_data tool_name)
                else py_get parsed_data key (PDict [])
            | None =>
                if negb (truthy parsed_data) then Ret (no_data tool_name)
                else Ret parsed_data
            end
      end
  | _ =>
      Raise (TypeError ("the JSON object must be str, bytes or bytearray, not "
                        ++ type_name raw_str))
  end.

(** The [try] block of [fetch_data_from_mcp], from the answer of
    [requests.post] on. *)
Definition fetch_try (tool_name : string) (posted : result response)
    : result value :=
  response <- posted ;;
  _ <- raise_for_status response ;;
  response_json <- resp_json response ;;
  well_formed <-
    and_then (py_in "result" response_json)
      (res <- py_getitem response_json "result" ;;
       and_then (py_in "content" res)
         (content <- py_getitem res "content" ;;
          and_then (Ret (is_list content))
            (and_then (n <- py_len content ;; Ret (0 <? n)%Z)
               (first <- py_first content ;; py_in "text" first)))) ;;
  if well_formed then
    res <- py_getitem response_json "result" ;;
    content <- py_getitem res "content" ;;
    first <- py_first content ;;
    raw_str <- py_getitem first "text" ;;
    fetch_inner tool_name raw_str
  else Ret (empty_response tool_name).

(** The request [fetch_data_from_mcp] sends. *)
Definition mcp_request (tool_name : string) (arguments : value) : request :=
  let arguments := match arguments with PNone => PDict [] | a => a end in
  mk_request MCP_ENDPOINT
    [("Content-Type", "application/json");
     ("Mcp-Session-Id", get_mcp_session_id)]
    (PDict [("jsonrpc", PStr "2.0"); ("id", PInt 1);
            ("method", PStr "tools/call");
            ("params", PDict [("name", PStr tool_name);
                              ("arguments", arguments)])])
    15.

(** [fetch_data_from_mcp(tool_name, arguments)].  The second component is
    the log of the requests sent so far, this one added. *)
Definition fetch_data_from_mcp (tool_name : string) (arguments : value)
    (log : list request) : result value * list request :=
  let req := mcp_request tool_name arguments in
  (match fetch_try tool_name (requests_post req) with
   | Ret v => Ret v
   | Raise Timeout => Ret timeout_error
   | Raise ConnectionError => Ret connection_error
   | Raise (HTTPError code body) => Ret (http_error code body)
   | Raise _ => Ret unexpected_error
   end,
   (log ++ [req])%list).

(** *** The aggregator *)

Definition tools_to_fetch : list (string * string) :=
  [ ("fetch_bank_transactions", "bank_txns");
    ("fetch_credit_report", "credit_rpt");
    ("fetch_epf_details", "epf");
    ("fetch_mf_transactions", "mf_txns");
    ("fetch_net_worth", "net_worth");
    ("fetch_stock_transactions", "stocks") ].

(** [{} if context_key in ["credit_rpt", "net_worth", "epf"] else []] *)
Definition default_value (context_key : string) : value :=
  if existsb (String.eqb context_key) ["credit_rpt"; "net_worth"; "epf"]
  then PDict [] else PList [].

Definition login_result (login_required_url : value) : value :=
  PDict [("status", PStr "error"); ("message", PStr login_message);
         ("login_url", login_required_url);
         ("details", PStr "Visit the provided URL and try again.")].

(** How the [for] loop ends: with a [return], or by running out of tools
    with [fetched_data] and [errors]. *)
Inductive loop_exit : Type :=
| Returned (v : value)
| Completed (fetched_data : dict) (errors : list value).

(** The test of line 243: [isinstance(data, dict) and "error" in data]. *)
Definition is_failure (data : value) : bool :=
  match data with
  | PDict d => dict_has "error" d
  | _ => false
  end.

Fixpoint fetch_loop (tools : list (string * string)) (mcp_args : value)
    (fetched_data : dict) (errors : list value) (log : list request)
    : result loop_exit * list request :=
  match tools with
  | [] => (Ret (Completed fetched_data errors), log)
  | (mcp_tool_name, context_key) :: rest =>
      match fetch_data_from_mcp mcp_tool_name mcp_args log with
      | (Raise e, log') => (Raise e, log')
      | (Ret data, log') =>
          if is_failure data then
            match py_getitem data "message" with
            | Raise e => (Raise e, log')
            | Ret message =>
                let errors := (errors ++ [message])%list in
                match py_getitem data "error" with
                | Raise e => (Raise e, log')
                | Ret kind =>
                    if eq_str kind "login_required" then
                      match py_get data "login_url" PNone with
                      | Raise e => (Raise e, log')
                      | Ret url => (Ret (Returned (login_result url)), log')
                      end
                    else
                      fetch_loop rest mcp_args
                        (dict_set context_key (default_value context_key)
                           fetched_data)
                        errors log'
                end
            end
          else
            fetch_loop rest mcp_args (dict_set context_key data fetched_data)
              errors log'
      end
  end.

(** ["; ".join(errors)]: every item has to be a [str]. *)
Fixpoint strings_of (items : list value) (i : nat) : result (list string) :=
  match items with
  | [] => Ret []
  | PStr s :: rest => l <- strings_of rest (S i) ;; Ret (s :: l)
  | v :: _ =>
      Raise (TypeError ("sequence item " ++ Json.str_of_nat i
                        ++ ": expected str instance, " ++ type_name v
                        ++ " found"))
  end.

Definition join_values (sep : string) (items : list value) : result string :=
  l <- strings_of items 0 ;; Ret (join sep l).

Definition missing_user_id : value :=
  PDict [("error", PStr "missing_user_id");
         ("message", PStr "User ID is required to fetch data from MCP.");
         ("details", PStr "Please provide a user ID (phone number).")].

Definition fetch_errors (full_error_message : string) : value :=
  PDict [("status", PStr "error"); ("message", PStr full_error_message);
         ("details",
          PStr "Some financial data could not be fetched. Check MCP logs.")].

(** [get_full_financial_context_from_mcp_shared(user_id)], from an empty
    log of requests. *)
Definition get_full_financial_context_from_mcp_shared (user_id : value)
    : result value * list request :=
  if negb (truthy user_id) then (Ret missing_user_id, [])
  else
    let mcp_args := PDict [("phone_number", user_id)] in
    match fetch_loop tools_to_fetch mcp_args [] [] [] with
    | (Raise e, log) => (Raise e, log)
    | (Ret (Returned v), log) => (Ret v, log)
    | (Ret (Completed fetched_data errors), log) =>
        match errors with
        | _ :: _ =>
            (joined <- join_values "; " errors ;;
             Ret (fetch_errors ("MCP Data Fetch Errors: " ++ joined)),
             log)
        | [] =>
            (net_worth <- py_get (PDict fetched_data) "net_worth" (PDict []) ;;
             salary <- py_get net_worth "salary" (PInt 0) ;;
             Ret (PDict (dict_set "status" (PStr "success")
                           (dict_set "salary" salary fetched_data))),
             log)
        end
    end.


(** *** The extractor *)

(** [str.lower] on code points below 256. *)
Definition lower_char (c : ascii) : ascii :=
  let n := nat_of_ascii c in
  if (Nat.leb 65 n && Nat.leb n 90)
     || (Nat.leb 192 n && Nat.leb n 222 && negb (Nat.eqb n 215))
  then ascii_of_nat (n + 32) else c.

Fixpoint lower (s : string) : string :=
  match s with
  | EmptyString => EmptyString
  | String c s' => String (lower_char c) (lower s')
  end.

(** Lines 90 to 95 of [_call_gemini_and_parse_json]: the search for the
    first brace-delimited span and its decoding. *)
Definition parse_first_object (raw_response_text : string) : result value :=
  match re_search brace_pattern raw_response_text with
  | None =>
      Raise (ValueError ("No valid JSON object found in Gemini's response. Raw: "
                         ++ raw_response_text))
  | Some m =>
      let json_string := group0 m in
      match json_loads json_string with
      | Decoded parsed_data => Ret parsed_data
      | Undecodable msg => Raise (JSONDecodeError msg)
      end
  end.

(** [_call_gemini_and_parse_json] from line 90 on, as a function of
    [raw_response_text], the stripped text of the model's answer. *)
Definition _call_gemini_and_parse_json (raw_response_text : string) : value :=
  match parse_first_object raw_response_text with
  | Ret parsed_data =>
      PDict [("status", PStr "success"); ("data", parsed_data)]
  | Raise (JSONDecodeError msg) =>
      PDict [("status", PStr "error");
             ("message", PStr "Invalid JSON from Gemini");
             ("details", PStr msg);
             ("gemini_response", PStr raw_response_text)]
  | Raise (ValueError msg) =>
      PDict [("status", PStr "error");
             ("message", PStr "JSON extraction/parsing failed");
             ("details", PStr msg);
             ("gemini_response", PStr raw_response_text)]
  | Raise e =>
      if match e with ConnectionError => true | _ => false end
         || contains "grpc" (lower (str_exn e))
      then PDict [("status", PStr "error");
                  ("message", PStr "Vertex AI communication error. Check project setup/quotas.");
                  ("details", PStr (str_exn e))]
      else PDict [("status", PStr "error");
                  ("message", PStr "An unexpected error occurred during API call.");
                  ("details", PStr (str_exn e))]
  end.

(** [analyze_financial_data] from line 158 on, as a function of [raw]. *)
Definition analyze_financial_data (raw : string) : value :=
  match
    (match re_search brace_pattern raw with
     | None =>
         Ret (PDict [("status", PStr "error");
                     ("message", PStr "Gemini returned invalid JSON for analysis.");
                     ("details", PStr raw)])
     | Some m =>
         let json_str := group0 m in
         match json_loads json_str with
         | Decoded result => py_setitem result "status" (PStr "success")
         | Undecodable msg => Raise (JSONDecodeError msg)
         end
     end)
  with
  | Ret v => v
  | Raise (JSONDecodeError msg) =>
      PDict [("status", PStr "error");
             ("message", PStr "Invalid JSON from Gemini for analysis");
             ("details", PStr msg);
             ("gemini_response", PStr raw)]
  | Raise (ValueError msg) =>
      PDict [("status", PStr "error");
             ("message", PStr "JSON extraction/parsing failed");
             ("details", PStr msg);
             ("gemini_response", PStr raw)]
  | Raise e =>
      if match e with ConnectionError => true | _ => false end
         || contains "grpc" (lower (str_exn e))
      then PDict [("status", PStr "error");
                  ("message", PStr "Vertex AI communication error. Check project setup/quotas.");
                  ("details", PStr (str_exn e))]
      else PDict [("status", PStr "error");
                  ("message", PStr "An unexpected error occurred during analysis.");
                  ("details", PStr (str_exn e))]
  end.

End Program.

(** * Vocabulary of the specification *)

(** ** Balanced spans

    A span is balanced with one level of nesting when it is an opening
    brace, a body and a closing brace, the body being a sequence of
    characters other than braces and of groups: an opening brace, characters
    other than braces, a closing brace. *)

Fixpoint flat (s : string) : bool :=
  match s with
  | EmptyString => true
  | String c s' => not_brace c && flat s'
  end.

Inductive body1 : string -> Prop :=
| body_nil : body1 EmptyString
| body_char c b : not_brace c = true -> body1 b -> body1 (String c b)
| body_group inner b :
    flat inner = true -> body1 b ->
    body1 (String lbrace (inner ++ String rbrace b)).

Definition balanced1 (span : string) : Prop :=
  exists b, span = String lbrace (b ++ String rbrace EmptyString) /\ body1 b.

(** [raw] holds [span] after [pre] and before [post]. *)
Definition occurs_at (raw pre span post : string) : Prop :=
  raw = pre ++ span ++ post.

(** The scan the pattern amounts to once its opening brace is read: the
    text left after the closing brace, [nested] telling whether a group is
    open. *)
Fixpoint span_end (nested : bool) (s : string) : option string :=
  match s with
  | EmptyString => None
  | String c s' =>
      if Ascii.eqb c rbrace then
        if nested then span_end false s' else Some s'
      else if Ascii.eqb c lbrace then
        if nested then None else span_end true s'
      else span_end nested s'
  end.

Definition match_at (s : string) : option string :=
  match s with
  | String c s' => if Ascii.eqb c lbrace then span_end false s' else None
  | EmptyString => None
  end.

(** The repeated part of the pattern. *)
Definition item : regex :=
  Alt (Cls not_brace)
      (Cat (Chr lbrace) (Cat (Star (Cls not_brace)) (Chr rbrace))).

(** What is left after the characters other than braces. *)
Fixpoint skip_flat (s : string) : string :=
  match s with
  | String c s' => if not_brace c then skip_flat s' else s
  | EmptyString => EmptyString
  end.

Definition close_nested (s : string) : option string :=
  match skip_flat s with
  | String c rest => if Ascii.eqb c rbrace then Some rest else None
  | EmptyString => None
  end.

(** What [re.search] returns for the brace pattern: the leftmost balanced
    span, or nothing when the text holds none. *)
Definition first_balanced (raw : string) (found : option re_match) : Prop :=
  match found with
  | Some m =>
      exists pre post,
        occurs_at raw pre (group0 m) post /\
        m_start m = String.length pre /\
        balanced1 (group0 m) /\
        forall pre' span' post',
          occurs_at raw pre' span' post' -> balanced1 span' ->
          String.length pre < String.length pre' \/
          (pre' = pre /\ span' = group0 m)
  | None =>
      forall pre' span' post',
        occurs_at raw pre' span' post' -> ~ balanced1 span'
  end.

(** [span] is the first balanced span of [raw]. *)
Definition first_span (raw pre span post : string) : Prop :=
  occurs_at raw pre span post /\ balanced1 span /\
  forall pre' span' post',
    occurs_at raw pre' span' post' -> balanced1 span' ->
    String.length pre <= String.length pre'.

(** The text of the property on extraction, and its parsed object. *)
Definition sample_text : string :=
  dq "Sure! Here is the result: {'a': 1, 'b': {'c': 2}} Thanks.".

Definition sample_span : string := dq "{'a': 1, 'b': {'c': 2}}".

Definition sample_object : value :=
  PDict [("a", PInt 1); ("b", PDict [("c", PInt 2)])].

(** The error results of the two extractors. *)
Definition extraction_error (message details raw : string) : value :=
  PDict [("status", PStr "error"); ("message", PStr message);
         ("details", PStr details); ("gemini_response", PStr raw)].

(** Some entry of the result holds the text [s]. *)
Definition retains (r : value) (s : string) : Prop :=
  exists d k, r = PDict d /\ dict_get k d = Some (PStr s).

(** ** Fetch outcomes *)

Section Outcomes.
Variable json_loads : string -> decoded.
Variable requests_post : request -> result response.

(** The arguments the aggregator calls the fetcher with. *)
Definition mcp_args (user_id : value) : value :=
  PDict [("phone_number", user_id)].

(** What the fetcher returns for a tool. *)
Definition fetched (tool_name : string) (arguments : value) : result value :=
  fst (fetch_data_from_mcp json_loads requests_post tool_name arguments []).

Definition outcome (tool_name : string) (arguments : value) : value :=
  match fetched tool_name arguments with
  | Ret v => v
  | Raise _ => PNone
  end.

(** The requests for a list of tools, in order. *)
Definition requests_for (tools : list (string * string)) (arguments : value)
    : list request :=
  map (fun t => mcp_request (fst t) arguments) tools.

(** The text of an envelope [{result: {content: [{text: ...}, ...]}}]. *)
Definition inner_text (envelope : value) : option value :=
  match envelope with
  | PDict e =>
      match dict_get "result" e with
      | Some (PDict r) =>
          match dict_get "content" r with
          | Some (PList (PDict f :: _)) => dict_get "text" f
          | _ => None
          end
      | _ => None
      end
  | _ => None
  end.

(** A response that gets as far as the inner text: a status outside
    400..599 and a body that is such an envelope. *)
Definition carries (resp : response) (raw_str : value) : Prop :=
  raise_for_status resp = Ret tt /\
  exists envelope,
    resp_json resp = Ret envelope /\ inner_text envelope = Some raw_str.

(** The remote service answers the request for [tool_name] with a response
    that carries the text [raw]. *)
Definition answers (tool_name : string) (arguments : value) (raw : string)
    : Prop :=
  exists resp,
    requests_post (mcp_request tool_name arguments) = Ret resp /\
    carries resp (PStr raw).

(** The parsed object declares a login: its status is [login_required] and
    its [login_url] is true. *)
Definition declares_login (parsed : dict) : bool :=
  match dict_get "status" parsed with
  | Some status =>
      eq_str status "login_required" &&
      match dict_get "login_url" parsed with
      | Some u => truthy u
      | None => false
      end
  | None => false
  end.

(** The fetch for [tool_name] succeeds with [payload]: the inner text
    decodes to an object that declares no login and holds [payload], a
    true value, under the expected key. *)
Definition succeeds_with (tool_name : string) (arguments : value)
    (payload : value) : Prop :=
  exists raw parsed key,
    answers tool_name arguments raw /\
    json_loads raw = Decoded (PDict parsed) /\
    declares_login parsed = false /\
    expected_key tool_name = Some key /\
    dict_get key parsed = Some payload /\
    truthy payload = true.

(** What the fetcher makes of a parsed object that declares no login: the
    value under the expected key when it is there and true, the whole object
    when the tool has no expected key and the object is not empty, and
    [no_data] otherwise. *)
Definition field_or_no_data (tool_name : string) (parsed : dict) : value :=
  match expected_key tool_name with
  | Some key =>
      match dict_get key parsed with
      | Some v => if truthy v then v else no_data tool_name
      | None => no_data tool_name
      end
  | None => if truthy (PDict parsed) then PDict parsed else no_data tool_name
  end.

(** The login URL taken from a text that does not decode: group 1 of the
    first match of the pattern, the fixed URL when there is no match. *)
Definition url_from_text (raw : string) : value :=
  match re_search login_url_pattern raw with
  | Some m => match group1 m with Some u => PStr u | None => PNone end
  | None => PStr fallback_login_url
  end.

Definition has_markers (raw : string) : bool :=
  contains "login_required" raw && contains "login_url" raw.

(** The text message of a failure, and whether its kind is
    [login_required]. *)
Definition message_of (v : value) : option string :=
  match v with
  | PDict d =>
      match dict_get "message" d with
      | Some (PStr m) => Some m
      | _ => None
      end
  | _ => None
  end.

Definition kind_is_login (v : value) : bool :=
  match v with
  | PDict d =>
      match dict_get "error" d with
      | Some k => eq_str k "login_required"
      | None => false
      end
  | _ => false
  end.

(** The messages of the failures among [tools], in order, and the context
    the loop builds from them. *)
Fixpoint failure_messages (tools : list (string * string)) (arguments : value)
    : list string :=
  match tools with
  | [] => []
  | (tool_name, _) :: rest =>
      let v := outcome tool_name arguments in
      ((if is_failure v
        then match message_of v with Some m => [m] | None => [] end
        else []) ++ failure_messages rest arguments)%list
  end.

Fixpoint stored (tools : list (string * string)) (arguments : value)
    (fetched_data : dict) : dict :=
  match tools with
  | [] => fetched_data
  | (tool_name, context_key) :: rest =>
      let v := outcome tool_name arguments in
      stored rest arguments
        (dict_set context_key
           (if is_failure v then default_value context_key else v)
           fetched_data)
  end.

(** Every failure among [tools] carries a text message. *)
Definition text_messages (tools : list (string * string)) (arguments : value)
    : Prop :=
  forall tool_name context_key,
    In (tool_name, context_key) tools ->
    is_failure (outcome tool_name arguments) = true ->
    exists m, message_of (outcome tool_name arguments) = Some m.

(** No outcome among [tools] is of kind [login_required]. *)
Definition no_login (tools : list (string * string)) (arguments : value)
    : Prop :=
  forall tool_name context_key,
    In (tool_name, context_key) tools ->
    kind_is_login (outcome tool_name arguments) = false.

End Outcomes.

(** [r["status"] == "error"], and the absence of every context key. *)
Definition status_is (r : value) (status : string) : Prop :=
  exists d, r = PDict d /\ dict_get "status" d = Some (PStr status).

Definition no_payload (r : value) : Prop :=
  exists d, r = PDict d /\
    forall tool_name context_key,
      In (tool_name, context_key) tools_to_fetch ->
      dict_get context_key d = None.

(** ** A remote service to run the functions with *)

Definition tool_of (r : request) : string :=
  match req_json r with
  | PDict d =>
      match dict_get "params" d with
      | Some (PDict p) =>
          match dict_get "name" p with
          | Some (PStr n) => n
          | _ => EmptyString
          end
      | _ => EmptyString
      end
  | _ => EmptyString
  end.

Definition envelope (raw : string) : value :=
  PDict [("jsonrpc", PStr "2.0"); ("id", PInt 1);
         ("result", PDict [("content",
            PList [PDict [("type", PStr "text"); ("text", PStr raw)]])])].

(** A 200 response whose envelope carries [raw]; the body text is read only
    on an HTTP error and is left empty. *)
Definition ok (raw : string) : result response :=
  Ret (mk_response 200 EmptyString (Ret (envelope raw))).

Fixpoint serve (table : list (string * result response))
    (r : request) : result response :=
  match table with
  | [] => Raise ConnectionError
  | (tool_name, answer) :: rest =>
      if String.eqb (tool_of r) tool_name then answer else serve rest r
  end.

Definition net_worth_text : string :=
  dq "{'netWorth': {'salary': 150000, 'assets': 500000}}".

(** All six tools answer with data. *)
Definition healthy : list (string * result response) :=
  [ ("fetch_bank_transactions", ok (dq "{'bankTransactions': [{'amount': 1639}]}"));
    ("fetch_credit_report", ok (dq "{'creditReport': {'score': 750}}"));
    ("fetch_epf_details", ok (dq "{'epfDetails': {'balance': 90000}}"));
    ("fetch_mf_transactions", ok (dq "{'mfTransactions': [{'units': 12}]}"));
    ("fetch_net_worth", ok net_worth_text);
    ("fetch_stock_transactions", ok (dq "{'stockTransactions': [{'isin': 'X'}]}")) ].

Definition login_text : string :=
  dq "{'status': 'login_required', 'login_url': 'http://localhost:8080/login'}".

(** The same, with one answer replaced. *)
Definition with_answer (tool_name : string) (answer : result response)
    : list (string * result response) :=
  (tool_name, answer) :: healthy.

Definition user : value := PStr "2222222222".

(** Remote services and texts for the examples below. *)

Definition login_url_value : value := PStr "http://localhost:8080/login".

(** The third tool asks for a login. *)
Definition login_at_epf : request -> result response :=
  serve (with_answer "fetch_epf_details" (ok login_text)).

(** The first tool times out; the others answer with data. *)
Definition bank_times_out : request -> result response :=
  serve (with_answer "fetch_bank_transactions" (Raise Timeout)).

(** The first tool times out and the second asks for a login. *)
Definition timeout_then_login : request -> result response :=
  serve (("fetch_bank_transactions", Raise Timeout)
         :: with_answer "fetch_credit_report" (ok login_text)).

(** The first tool is answered with the login object. *)
Definition login_at_bank : request -> result response :=
  serve (with_answer "fetch_bank_transactions" (ok login_text)).

(** A credit report that is an object with an [error] key, with and
    without a [message]. *)
Definition frozen_report_text : string :=
  dq "{'creditReport': {'error': 'frozen', 'message': 'Report frozen by user'}}".

Definition frozen_report : value :=
  PDict [("error", PStr "frozen"); ("message", PStr "Report frozen by user")].

Definition frozen_credit_report : request -> result response :=
  serve (with_answer "fetch_credit_report" (ok frozen_report_text)).

Definition silent_report_text : string :=
  dq "{'creditReport': {'error': 'frozen'}}".

Definition silent_credit_report : request -> result response :=
  serve (with_answer "fetch_credit_report" (ok silent_report_text)).

(** A net worth that is a list, and one that is an object with an [error]
    key and no [message]. *)
Definition net_worth_list : request -> result response :=
  serve (with_answer "fetch_net_worth" (ok (dq "{'netWorth': [150000]}"))).

Definition net_worth_error : request -> result response :=
  serve (with_answer "fetch_net_worth" (ok (dq "{'netWorth': {'error': 'stale'}}"))).

(** A login answer that is not JSON: the URL is not quoted, or the object
    ends with a comma. *)
Definition unquoted_login_text : string :=
  dq "{'status': 'login_required', 'login_url': http://localhost:8080/login}".

Definition unquoted_login : request -> result response :=
  serve (with_answer "fetch_bank_transactions" (ok unquoted_login_text)).

Definition trailing_comma_login_text : string :=
  dq "{'status': 'login_required', 'login_url': 'http://localhost:8080/login',}".

Definition trailing_comma_login : request -> result response :=
  serve (with_answer "fetch_bank_transactions" (ok trailing_comma_login_text)).

(** A model answer whose span does not decode. *)
Definition broken_text : string := dq "Here you go: {'a': }".

Definition broken_span : string := dq "{'a': }".

Definition broken_message : string :=
  "Expecting value: line 1 column 7 (char 6)".

(** No opening brace in [s]. *)
Fixpoint no_lbrace (s : string) : bool :=
  match s with
  | EmptyString => true
  | String c s' => negb (Ascii.eqb c lbrace) && no_lbrace s'
  end.

(** An object in an object in an object, with text free of braces between
    the braces, and its middle object. *)
Definition three_levels (a b c d rest : string) : string :=
  String lbrace (a ++ String lbrace (b ++ String lbrace
    (c ++ String rbrace (d ++ String rbrace rest)))).

Definition middle_object (b c d : string) : string :=
  String lbrace (b ++ String lbrace
    (c ++ String rbrace (d ++ String rbrace EmptyString))).

(** * The rest of the pipeline *)

(** ** [str.strip] *)

(** Without an argument, [strip] removes the characters for which
    [str.isspace] holds, the same set as [\s]. *)
Fixpoint lstrip (s : string) : string :=
  match s with
  | String c s' => if is_space c then lstrip s' else s
  | EmptyString => EmptyString
  end.

Fixpoint rstrip (s : string) : string :=
  match s with
  | EmptyString => EmptyString
  | String c s' =>
      match rstrip s' with
      | EmptyString => if is_space c then EmptyString else String c EmptyString
      | r => String c r
      end
  end.

Definition strip (s : string) : string := lstrip (rstrip s).

(** [UnboundLocalError]: a local variable read before its assignment. *)
Definition UnboundLocalError (name : string) : exn :=
  OtherException ("cannot access local variable '" ++ name
                  ++ "' where it is not associated with a value").

(** [v == 0] for the integer literal. *)
Definition eq_zero (v : value) : bool :=
  match v with
  | PInt z => Z.eqb z 0
  | PBool b => negb b
  | PFloat f => PrimFloat.eqb f PrimFloat.zero
  | _ => false
  end.

(** [any(full_ctx.get(key) for key in keys)] *)
Fixpoint any_get (full_ctx : value) (keys : list string) : result bool :=
  match keys with
  | [] => Ret false
  | key :: rest =>
      v <- py_get full_ctx key PNone ;;
      if truthy v then Ret true else any_get full_ctx rest
  end.

(** The result of the [except Exception] clause of the two functions that
    call the model.  The text of [e.args] is taken to be that of [str(e)]. *)
Definition api_call_failed (message : string) (e : exn) : value :=
  if match e with ConnectionError => true | _ => false end
     || contains "grpc" (lower (str_exn e))
  then PDict [("status", PStr "error");
              ("message", PStr "Vertex AI communication error. Check project setup/quotas.");
              ("details", PStr (str_exn e))]
  else PDict [("status", PStr "error");
              ("message", PStr message);
              ("details", PStr (str_exn e))].

Definition model_not_available : value :=
  PDict [("status", PStr "error");
         ("message", PStr "Vertex AI model not available.");
         ("details", PStr "Model object is None or configuration is missing.")].


(** The empty analysis fields of the error results of
    [analyze_home_loan_affordability]. *)
Definition blank_analysis : dict :=
  [("affordability_score", PStr EmptyString);
   ("max_affordable_emi", PStr EmptyString);
   ("max_affordable_loan_amount", PStr EmptyString);
   ("gross_monthly_income", PStr EmptyString);
   ("home_loan_verdict", PStr EmptyString);
   ("short_summary", PStr EmptyString);
   ("brutal_advice", PList [])].

Section Pipeline.
Variable json_loads : string -> decoded.
Variable requests_post : request -> result response.

(** Whether [model], [GEN_CFG] and [Part] were set when the module was
    loaded. *)
Variable model_ready : bool.

(** The whole of [_call_gemini_and_parse_json].  [answer] is what
    [model.generate_content(...)] and [resp.text] give for the prompt: the
    text, or the exception raised.  The handlers of [JSONDecodeError] and
    [ValueError] read [raw_response_text], which is assigned only once the
    text is there. *)
Definition _call_gemini_and_parse_json_whole (answer : result string)
    : result value :=
  if negb model_ready then Ret model_not_available
  else
    match answer with
    | Ret text => Ret (_call_gemini_and_parse_json json_loads (strip text))
    | Raise (JSONDecodeError _) => Raise (UnboundLocalError "raw_response_text")
    | Raise (ValueError _) => Raise (UnboundLocalError "raw_response_text")
    | Raise e =>
        Ret (api_call_failed "An unexpected error occurred during API call." e)
    end.

(** The test of line 334, which only logs a warning. *)
Definition sparse_context (full_ctx : value) : result bool :=
  some <- any_get full_ctx
            ["bank_txns"; "mf_holdings"; "credit_rpt"; "epf"; "stocks";
             "net_worth"] ;;
  if some then Ret false
  else (salary <- py_get full_ctx "salary" (PInt 0) ;; Ret (eq_zero salary)).

(** Lines 342 to 357: what [analyze_home_loan_affordability] returns for
    the response of [_call_gemini_and_parse_json]. *)
Definition home_loan_result (response : value) : result value :=
  status <- py_getitem response "status" ;;
  if eq_str status "success" then
    parsed_data <- py_getitem response "data" ;;
    kept <- py_get parsed_data "status" (PStr "success") ;;
    py_setitem parsed_data "status" kept
  else
    message <- py_get response "message"
                 (PStr "Unknown error during AI analysis") ;;
    details <- py_get response "details" (PStr EmptyString) ;;
    gemini_response <- py_get response "gemini_response" (PStr EmptyString) ;;
    Ret (PDict
           ([("status", PStr "error"); ("message", message);
             ("details", details)]
            ++ blank_analysis
            ++ [("gemini_response", gemini_response)])%list).

(** The test of line 321:
    [isinstance(full_ctx, dict) and full_ctx.get("status") == "error"]. *)
Definition fetch_failed (full_ctx : value) : bool :=
  match full_ctx with
  | PDict ctx =>
      match dict_get "status" ctx with
      | Some status => eq_str status "error"
      | None => false
      end
  | _ => false
  end.

(** What [analyze_home_loan_affordability] does with the context.  [ask]
    stands for the prompt built from the context and the query, the call of
    the model and the reading of its text. *)
Definition home_loan_from_context
    (ask : value -> value -> result string)
    (full_ctx : value) (user_query : value) : result value :=
  if fetch_failed full_ctx then
    message <- py_get full_ctx "message" (PStr "MCP data fetch failed.") ;;
    details <- py_get full_ctx "details" (PStr EmptyString) ;;
    login_url <- py_get full_ctx "login_url" PNone ;;
    Ret (PDict
           ([("status", PStr "error"); ("message", message);
             ("details", details); ("login_url", login_url)]
            ++ blank_analysis)%list)
  else
    _ <- sparse_context full_ctx ;;
    response <- _call_gemini_and_parse_json_whole (ask full_ctx user_query) ;;
    home_loan_result response.

(** [analyze_home_loan_affordability(user_id, user_query)], with the log of
    the requests sent to the remote service. *)
Definition analyze_home_loan_affordability
    (ask : value -> value -> result string)
    (user_id user_query : value) : result value * list request :=
  match get_full_financial_context_from_mcp_shared json_loads requests_post
          user_id with
  | (Ret full_ctx, log) => (home_loan_from_context ask full_ctx user_query, log)
  | (Raise e, log) => (Raise e, log)
  end.


(** The route [/analyze_home_loan] of [app.py]: [is_json] is
    [request.is_json], [data] is [request.get_json()]; the result is the
    body given to [jsonify] and the status code. *)
Definition analyze_home_loan_route
    (ask : value -> value -> result string)
    (is_json : bool) (data : value) : result (value * Z) * list request :=
  if negb is_json then
    (Ret (PDict [("status", PStr "error");
                 ("message", PStr "Request must be JSON")], 400%Z), [])
  else
    match py_get data "user_id" PNone with
    | Raise e => (Raise e, [])
    | Ret user_id =>
        match py_get data "user_query" PNone with
        | Raise e => (Raise e, [])
        | Ret user_query =>
            if negb (truthy user_id) || negb (truthy user_query) then
              (Ret (PDict [("status", PStr "error");
                           ("message",
                            PStr "'user_id' and 'user_query' are required")],
                    400%Z), [])
            else
              match analyze_home_loan_affordability ask user_id user_query with
              | (Raise e, log) => (Raise e, log)
              | (Ret result, log) =>
                  (kind <- py_get result "error" PNone ;;
                   login <-
                     (if eq_str kind "login_required"
                      then (u <- py_get result "login_url" PNone ;; Ret (truthy u))
                      else Ret false) ;;
                   if login then
                     message <- py_get result "message" (PStr "MCP login required.") ;;
                     login_url <- py_getitem result "login_url" ;;
                     Ret (PDict [("status", PStr "login_required");
                                 ("message", message);
                                 ("login_url", login_url)], 401%Z)
                   else
                     status <- py_get result "status" PNone ;;
                     if eq_str status "error" then Ret (result, 500%Z)
                     else Ret (result, 200%Z),
                   log)
              end
        end
    end.

End Pipeline.

(** ** The category of an expense *)

(** [suggest_expense_category(description)].  [answer] is what
    [model.generate_content(prompt)] and [resp.text] give for the prompt
    built from the description: the text, or the exception raised. *)
Definition suggest_expense_category (answer : result string) : value :=
  match answer with
  | Ret text =>
      PDict [("status", PStr "success"); ("category", PStr (strip text))]
  | Raise e =>
      PDict [("status", PStr "error");
             ("message", PStr "Could not suggest category");
             ("details", PStr (str_exn e))]
  end.

(** The route [/suggest_category] of [app.py]. *)
Definition suggest_category_route (ask : value -> result string)
    (is_json : bool) (data : value) : result (value * Z) :=
  if negb is_json then
    Ret (PDict [("status", PStr "error");
                ("message", PStr "Request must be JSON")], 400%Z)
  else
    description <- py_get data "description" PNone ;;
    if negb (truthy description) then
      Ret (PDict [("status", PStr "error");
                  ("message", PStr "'description' is required")], 400%Z)
    else
      let result := suggest_expense_category (ask description) in
      status <- py_get result "status" PNone ;;
      if eq_str status "error" then Ret (result, 500%Z)
      else Ret (result, 200%Z).

(** Texts made of white space, and texts that begin or end with it. *)
Fixpoint all_space (s : string) : bool :=
  match s with
  | EmptyString => true
  | String c s' => is_space c && all_space s'
  end.

Definition starts_with_space (s : string) : bool :=
  match s with
  | String c _ => is_space c
  | EmptyString => false
  end.

Fixpoint ends_with_space (s : string) : bool :=
  match s with
  | EmptyString => false
  | String c EmptyString => is_space c
  | String _ s' => ends_with_space s'
  end.

(** ** Vocabulary for the callers *)

(** The decoder gives an object for a text that opens with a brace, as
    [json.loads] does. *)
Definition decodes_objects (json_loads : string -> decoded) : Prop :=
  forall s v, json_loads (String lbrace s) = Decoded v -> exists d, v = PDict d.

(** [r] is a dictionary with a [status] entry. *)
Definition has_status (r : value) : Prop :=
  exists d, r = PDict d /\ dict_has "status" d = true.

(** [d.get(k, dflt)] on a dictionary. *)
Definition dict_get_or (k : string) (dflt : value) (d : dict) : value :=
  match dict_get k d with
  | Some v => v
  | None => dflt
  end.

(** The error result of [analyze_home_loan_affordability] for a context
    with status [error]. *)
Definition fetch_failure_result (ctx : dict) : value :=
  PDict ([("status", PStr "error");
          ("message", dict_get_or "message" (PStr "MCP data fetch failed.") ctx);
          ("details", dict_get_or "details" (PStr EmptyString) ctx);
          ("login_url", dict_get_or "login_url" PNone ctx)]
         ++ blank_analysis)%list.

(** A model that answers every prompt with the same text, and one whose
    call raises [ValueError]. *)
Definition answers_with (text : string) : value -> value -> result string :=
  fun _ _ => Ret text.

Definition blocked_model : value -> value -> result string :=
  fun _ _ => Raise (ValueError "Content has no parts.").

Definition loan_answer : string :=
  dq "  {'affordability_score': '70/100', 'home_loan_verdict': 'Maybe'}
".

Definition loan_query : value := PStr "Can I afford a 20 lakh home loan?".

Definition loan_request : value :=
  PDict [("user_id", user); ("user_query", loan_query)].

Definition nested_answer : string := dq "{'a': {'b': {'c': 1}}}".

(** A remote service that answers 401 with a login envelope as the body,
    and one whose net worth is a JSON list. *)
Definition unauthorized : request -> result response :=
  fun _ => Ret (mk_response 401 "Unauthorized" (Ret (envelope login_text))).

Definition net_worth_is_list : request -> result response :=
  serve (with_answer "fetch_net_worth" (ok (dq "[150000]"))).

(** A model that asks for a login in its own answer. *)
Definition login_answer : string :=
  dq "{'error': 'login_required', 'login_url': 'http://localhost:8080/login'}".

(** The object of a decoded answer once [status] is set. *)
Definition with_status (obj : dict) : dict :=
  dict_set "status" (dict_get_or "status" (PStr "success") obj) obj.

(** * Properties *)

(** ** Strings *)

Lemma append_assoc (a b c : string) : (a ++ b) ++ c = a ++ (b ++ c).
Proof. induction a as [|x a IH]; simpl; [reflexivity | now rewrite IH]. Qed.

Lemma append_nil_r (a : string) : a ++ EmptyString = a.
Proof. induction a as [|x a IH]; simpl; [reflexivity | now rewrite IH]. Qed.

Lemma length_append (a b : string) :
  String.length (a ++ b) = String.length a + String.length b.
Proof. induction a as [|x a IH]; simpl; [reflexivity | now rewrite IH]. Qed.

Lemma substring_all (a : string) : substring 0 (String.length a) a = a.
Proof. induction a as [|x a IH]; simpl; [reflexivity | now rewrite IH]. Qed.

Lemma substring_prefix (a b : string) :
  substring 0 (String.length (a ++ b) - String.length b) (a ++ b) = a.
Proof.
  rewrite length_append, Nat.add_sub.
  induction a as [|x a IH]; simpl.
  - destruct b; reflexivity.
  - now rewrite IH.
Qed.

Lemma append_inj_l (a b c : string) : a ++ b = a ++ c -> b = c.
Proof. induction a as [|x a IH]; simpl; intros H; [assumption | injection H; auto]. Qed.

(** ** The brace pattern is a two-state scan *)

Lemma brace_cases (c : ascii) :
  (Ascii.eqb c rbrace = true /\ not_brace c = false /\ Ascii.eqb c lbrace = false)
  \/ (Ascii.eqb c lbrace = true /\ not_brace c = false /\ Ascii.eqb c rbrace = false)
  \/ (not_brace c = true /\ Ascii.eqb c lbrace = false /\ Ascii.eqb c rbrace = false).
Proof.
  unfold not_brace.
  destruct (Ascii.eqb c rbrace) eqn:Hr; destruct (Ascii.eqb c lbrace) eqn:Hl; simpl; auto.
  apply Ascii.eqb_eq in Hr, Hl. subst c. discriminate.
Qed.

Lemma skip_flat_length (s : string) :
  String.length (skip_flat s) <= String.length s.
Proof.
  induction s as [|c s IH]; simpl; [lia|].
  destruct (not_brace c); simpl; lia.
Qed.

Lemma close_nested_length (s rest : string) :
  close_nested s = Some rest -> String.length rest < String.length s.
Proof.
  unfold close_nested. intros H.
  pose proof (skip_flat_length s) as Hl.
  destruct (skip_flat s) as [|c r]; [discriminate|].
  destruct (Ascii.eqb c rbrace); [|discriminate].
  injection H as <-. simpl in Hl. lia.
Qed.

Lemma span_end_nested (s : string) :
  span_end true s =
  match close_nested s with
  | Some rest => span_end false rest
  | None => None
  end.
Proof.
  unfold close_nested.
  induction s as [|c s IH]; simpl; [reflexivity|].
  destruct (brace_cases c) as [(Hr & Hn & Hl) | [(Hl & Hn & Hr) | (Hn & Hl & Hr)]];
    rewrite Hr, ?Hl, Hn; simpl; rewrite ?Hr; auto.
Qed.

Lemma opt_id {A} (o : option A) :
  match o with Some x => Some x | None => None end = o.
Proof. destruct o; reflexivity. Qed.

Section Scan.
Context {R : Type}.
Implicit Types k : string -> option string -> option R.

Lemma rmatch_cat r1 r2 s g k :
  rmatch (Cat r1 r2) s g k = rmatch r1 s g (fun s' g' => rmatch r2 s' g' k).
Proof. reflexivity. Qed.

Lemma rmatch_alt r1 r2 s g k :
  rmatch (Alt r1 r2) s g k =
  match rmatch r1 s g k with
  | Some x => Some x
  | None => rmatch r2 s g k
  end.
Proof. reflexivity. Qed.

Lemma rmatch_star r s g k :
  rmatch (Star r) s g k = star_loop (rmatch r) k (String.length s) s g.
Proof. reflexivity. Qed.

Lemma rmatch_chr c a s g k :
  rmatch (Chr c) (String a s) g k = if Ascii.eqb a c then k s g else None.
Proof. reflexivity. Qed.

Lemma rmatch_cls p a s g k :
  rmatch (Cls p) (String a s) g k = if p a then k s g else None.
Proof. reflexivity. Qed.

Lemma progress_shorter (loop : string -> option string -> option R) s s' g :
  String.length s' < String.length s -> progress loop s s' g = loop s' g.
Proof.
  intros H. unfold progress.
  apply Nat.ltb_lt in H. now rewrite H.
Qed.

Lemma inner_star k (fuel : nat) : forall (s : string) (g : option string),
  String.length s <= fuel ->
  star_loop (rmatch (Cls not_brace))
    (fun s' g' => rmatch (Chr rbrace) s' g' k) fuel s g =
  match close_nested s with
  | Some rest => k rest g
  | None => None
  end.
Proof.
  unfold close_nested.
  induction fuel as [|fuel IH]; intros s g Hlen.
  - destruct s; [reflexivity | simpl in Hlen; lia].
  - destruct s as [|c s]; [reflexivity|].
    simpl in Hlen. cbn [star_loop skip_flat].
    rewrite rmatch_cls, rmatch_chr.
    destruct (brace_cases c) as [(Hr & Hn & Hl) | [(Hl & Hn & Hr) | (Hn & Hl & Hr)]];
      rewrite Hn, ?Hr; try reflexivity.
    rewrite progress_shorter by (simpl; lia).
    rewrite IH by lia. now rewrite !opt_id.
Qed.

Lemma outer_star k (fuel : nat) : forall (s : string) (g : option string),
  String.length s <= fuel ->
  star_loop (rmatch item)
    (fun s' g' => rmatch (Chr rbrace) s' g' k) fuel s g =
  match span_end false s with
  | Some rest => k rest g
  | None => None
  end.
Proof.
  induction fuel as [|fuel IH]; intros s g Hlen.
  - destruct s; [reflexivity | simpl in Hlen; lia].
  - destruct s as [|c s]; [reflexivity|].
    simpl in Hlen. cbn [star_loop span_end].
    unfold item at 1.
    rewrite rmatch_alt, rmatch_cls, rmatch_cat, !rmatch_chr, rmatch_cat, rmatch_star.
    destruct (brace_cases c) as [(Hr & Hn & Hl) | [(Hl & Hn & Hr) | (Hn & Hl & Hr)]];
      rewrite Hn, Hl, ?Hr.
    + reflexivity.
    + rewrite (inner_star _ (String.length s)) by lia.
      rewrite span_end_nested.
      destruct (close_nested s) as [rest|] eqn:Hc; [|reflexivity].
      apply close_nested_length in Hc.
      rewrite progress_shorter by (simpl; lia).
      rewrite IH by lia. now rewrite !opt_id.
    + rewrite progress_shorter by (simpl; lia).
      rewrite IH by lia. now rewrite !opt_id.
Qed.

Lemma rmatch_brace_pattern k (s : string) (g : option string) :
  rmatch brace_pattern s g k =
  match match_at s with
  | Some rest => k rest g
  | None => None
  end.
Proof.
  unfold brace_pattern, match_at. fold item.
  destruct s as [|c s]; [reflexivity|].
  rewrite rmatch_cat, rmatch_chr.
  destruct (Ascii.eqb c lbrace); [|reflexivity].
  rewrite rmatch_cat, rmatch_star.
  apply outer_star. lia.
Qed.

End Scan.

(** ** The scan finds balanced spans, and only those *)

Lemma flat_span_end (inner t : string) :
  flat inner = true ->
  span_end true (inner ++ String rbrace t) = span_end false t.
Proof.
  induction inner as [|c inner IH]; simpl; intros H.
  - reflexivity.
  - apply andb_prop in H as [Hc Hi].
    destruct (brace_cases c) as [(Hr & Hn & Hl) | [(Hl & Hn & Hr) | (Hn & Hl & Hr)]];
      try congruence.
    rewrite Hr, Hl. auto.
Qed.

Lemma span_end_complete (b : string) :
  body1 b -> forall rest, span_end false (b ++ String rbrace rest) = Some rest.
Proof.
  induction 1 as [|c b Hc _ IH|inner b Hi _ IH]; intros rest.
  - reflexivity.
  - simpl.
    destruct (brace_cases c) as [(Hr & Hn & Hl) | [(Hl & Hn & Hr) | (Hn & Hl & Hr)]];
      try congruence.
    rewrite Hr, Hl. apply IH.
  - cbn [append span_end]. change (Ascii.eqb lbrace rbrace) with false.
    change (Ascii.eqb lbrace lbrace) with true. cbn iota.
    rewrite append_assoc. cbn [append].
    rewrite flat_span_end by assumption. apply IH.
Qed.

Lemma span_end_sound (s : string) :
  (forall rest, span_end false s = Some rest ->
     exists b, s = b ++ String rbrace rest /\ body1 b) /\
  (forall rest, span_end true s = Some rest ->
     exists inner b,
       s = inner ++ String rbrace (b ++ String rbrace rest) /\
       flat inner = true /\ body1 b).
Proof.
  induction s as [|c s [IHf IHt]]; [split; discriminate|].
  destruct (brace_cases c) as [(Hr & Hn & Hl) | [(Hl & Hn & Hr) | (Hn & Hl & Hr)]];
    split; intros rest; cbn [span_end]; rewrite Hr, ?Hl; intros H.
  - apply Ascii.eqb_eq in Hr. subst c. injection H as ->.
    exists EmptyString. split; [reflexivity | constructor].
  - apply Ascii.eqb_eq in Hr. subst c.
    destruct (IHf _ H) as (b & -> & Hb).
    exists EmptyString, b. auto.
  - apply Ascii.eqb_eq in Hl. subst c.
    destruct (IHt _ H) as (inner & b & -> & Hi & Hb).
    exists (String lbrace (inner ++ String rbrace b)). split.
    + cbn [append]. now rewrite append_assoc.
    + now constructor.
  - discriminate.
  - destruct (IHf _ H) as (b & -> & Hb).
    exists (String c b). split; [reflexivity | now constructor].
  - destruct (IHt _ H) as (inner & b & -> & Hi & Hb).
    exists (String c inner), b. cbn [append flat]. rewrite Hn, Hi. auto.
Qed.

Lemma match_at_balanced (s rest : string) :
  match_at s = Some rest <-> exists span, balanced1 span /\ s = span ++ rest.
Proof.
  split.
  - destruct s as [|c s]; [discriminate|]. cbn [match_at].
    destruct (Ascii.eqb c lbrace) eqn:Hl; [|discriminate].
    apply Ascii.eqb_eq in Hl. subst c. intros H.
    destruct (proj1 (span_end_sound s) _ H) as (b & -> & Hb).
    exists (String lbrace (b ++ String rbrace EmptyString)). split.
    + now exists b.
    + cbn [append]. now rewrite append_assoc.
  - intros (span & (b & -> & Hb) & ->).
    cbn [append match_at]. change (Ascii.eqb lbrace lbrace) with true. cbn iota.
    rewrite append_assoc. now apply span_end_complete.
Qed.

Lemma balanced1_not_empty (span : string) : balanced1 span -> span <> EmptyString.
Proof. intros (b & -> & _). discriminate. Qed.

Lemma re_search_from_eq (r : regex) (pos : nat) (s : string) :
  re_search_from r pos s =
  match rmatch r s None (fun rest g => Some (rest, g)) with
  | Some (rest, g) =>
      Some (mk_match pos (substring 0 (String.length s - String.length rest) s) g)
  | None =>
      match s with
      | EmptyString => None
      | String _ s' => re_search_from r (S pos) s'
      end
  end.
Proof. destruct s; reflexivity. Qed.

Lemma search_brace_from (s : string) : forall pos,
  match re_search_from brace_pattern pos s with
  | Some m =>
      exists pre post,
        occurs_at s pre (group0 m) post /\
        m_start m = pos + String.length pre /\
        balanced1 (group0 m) /\
        forall pre' span' post',
          occurs_at s pre' span' post' -> balanced1 span' ->
          String.length pre < String.length pre' \/
          (pre' = pre /\ span' = group0 m)
  | None =>
      forall pre' span' post',
        occurs_at s pre' span' post' -> ~ balanced1 span'
  end.
Proof.
  unfold occurs_at.
  induction s as [|c s IH]; intros pos; rewrite re_search_from_eq,
    rmatch_brace_pattern.
  - cbn. intros pre' span' post' H Hb.
    destruct pre'; [|discriminate]. cbn in H.
    destruct span'; [|discriminate]. now apply balanced1_not_empty in Hb.
  - destruct (match_at (String c s)) as [rest|] eqn:Hm.
    + destruct (proj1 (match_at_balanced _ _) Hm) as (span & Hb & Hs).
      cbn [group0 m_start]. rewrite Hs, substring_prefix.
      exists EmptyString, rest. repeat split; auto.
      intros pre' span' post' H Hb'.
      destruct pre' as [|c' pre']; [right | left; simpl; lia].
      split; [reflexivity|]. cbn [append] in H.
      assert (Hm' : match_at (span ++ rest) = Some post')
        by (rewrite H; apply match_at_balanced; eauto).
      rewrite <- Hs, Hm in Hm'. injection Hm' as ->.
      rewrite <- (substring_prefix span' post'), <- H.
      now rewrite substring_prefix.
    + specialize (IH (S pos)).
      assert (Hhead : forall span' post',
                 String c s = span' ++ post' -> ~ balanced1 span').
      { intros span' post' H Hb.
        assert (match_at (String c s) = Some post')
          by (apply match_at_balanced; eauto).
        congruence. }
      destruct (re_search_from brace_pattern (S pos) s) as [m|].
      * destruct IH as (pre & post & Hocc & Hst & Hb & Hfirst).
        exists (String c pre), post. cbn [append String.length].
        repeat split; [now rewrite <- Hocc | lia | assumption |].
        intros pre' span' post' H Hb'.
        destruct pre' as [|c' pre'].
        { cbn [append] in H. exfalso. exact (Hhead _ _ H Hb'). }
        cbn [append] in H. injection H as <- H.
        destruct (Hfirst _ _ _ H Hb') as [Hlt | [-> ->]].
        -- left. simpl. lia.
        -- now right.
      * intros pre' span' post' H Hb'.
        destruct pre' as [|c' pre'].
        { cbn [append] in H. exfalso. exact (Hhead _ _ H Hb'). }
        cbn [append] in H. injection H as <- H.
        now apply (IH _ _ _ H).
Qed.

Lemma search_brace (raw : string) :
  first_balanced raw (re_search brace_pattern raw).
Proof.
  unfold first_balanced, re_search.
  pose proof (search_brace_from raw 0) as H.
  destruct (re_search_from brace_pattern 0 raw); exact H.
Qed.

(** ** The fetcher *)

Section Fetcher.
Variable json_loads : string -> decoded.
Variable requests_post : request -> result response.

(** The fetcher returns a value whatever the remote service does, and logs
    its one request. *)
Lemma fetch_data_from_mcp_eq tool_name arguments log :
  fetch_data_from_mcp json_loads requests_post tool_name arguments log =
  (Ret (outcome json_loads requests_post tool_name arguments),
   (log ++ [mcp_request tool_name arguments])%list).
Proof.
  unfold outcome, fetched, fetch_data_from_mcp. cbn [fst].
  destruct (fetch_try json_loads tool_name _) as [v|e]; [reflexivity|].
  destruct e; reflexivity.
Qed.

Lemma fetched_eq tool_name arguments :
  fetched json_loads requests_post tool_name arguments =
  Ret (outcome json_loads requests_post tool_name arguments).
Proof.
  unfold fetched. now rewrite fetch_data_from_mcp_eq.
Qed.

Lemma dict_has_get k d v : dict_get k d = Some v -> dict_has k d = true.
Proof. unfold dict_has. now intros ->. Qed.

Lemma fetch_try_carries tool_name resp raw_str :
  carries resp raw_str ->
  fetch_try json_loads tool_name (Ret resp) =
  fetch_inner json_loads tool_name raw_str.
Proof.
  intros (Hs & envelope & Hj & Ht).
  unfold inner_text in Ht.
  destruct envelope as [| | | | | |e]; try discriminate.
  destruct (dict_get "result" e) as [[| | | | | |r]|] eqn:Hr; try discriminate.
  destruct (dict_get "content" r) as [[| | | | |[|[| | | | | |f] tl]|]|] eqn:Hc;
    try discriminate.
  unfold fetch_try. cbn [bind]. rewrite Hs. cbn [bind]. rewrite Hj.
  cbn [bind and_then py_in py_getitem py_len py_first is_list].
  rewrite (dict_has_get _ _ _ Hr), Hr.
  cbn [bind and_then py_in py_getitem py_len py_first is_list].
  rewrite (dict_has_get _ _ _ Hc), Hc.
  cbn [bind and_then py_in py_getitem py_len py_first is_list].
  replace (0 <? Z.of_nat (List.length (PDict f :: tl)))%Z with true
    by (symmetry; apply Z.ltb_lt; cbn [List.length]; lia).
  cbn [bind and_then py_in py_getitem py_len py_first is_list].
  rewrite (dict_has_get _ _ _ Ht), Ht. reflexivity.
Qed.

(** What the fetcher returns when the response carries the text [raw]. *)
Lemma outcome_answers tool_name arguments raw :
  answers requests_post tool_name arguments raw ->
  outcome json_loads requests_post tool_name arguments =
  match fetch_inner json_loads tool_name (PStr raw) with
  | Ret v => v
  | Raise Timeout => timeout_error
  | Raise ConnectionError => connection_error
  | Raise (HTTPError code body) => http_error code body
  | Raise _ => unexpected_error
  end.
Proof.
  intros (resp & Hp & Hc).
  unfold outcome, fetched, fetch_data_from_mcp. cbn [fst].
  rewrite Hp, (fetch_try_carries _ _ _ Hc).
  destruct (fetch_inner json_loads tool_name (PStr raw)) as [v|e];
    [reflexivity | destruct e; reflexivity].
Qed.

(** The fetcher on an inner text that decodes to an object. *)
Lemma fetch_inner_decoded tool_name raw parsed :
  json_loads raw = Decoded (PDict parsed) ->
  fetch_inner json_loads tool_name (PStr raw) =
  if declares_login parsed then
    match dict_get "login_url" parsed with
    | Some u => Ret (login_required u)
    | None => Raise (KeyError "login_url")
    end
  else Ret (field_or_no_data tool_name parsed).
Proof.
  intros Hj. unfold fetch_inner, declares_login, field_or_no_data. rewrite Hj.
  cbn [py_get py_getitem py_in bind].
  assert (Hrest :
    match expected_key tool_name with
    | Some key =>
        present <- Ret (dict_has key parsed) ;;
        empty <-
          (if present
           then (v <- match dict_get key parsed with
                      | Some x => Ret x
                      | None => Raise (KeyError key)
                      end ;; Ret (negb (truthy v)))
           else Ret true) ;;
        if empty then Ret (no_data tool_name)
        else match dict_get key parsed with
             | Some x => Ret x
             | None => Ret (PDict [])
             end
    | None =>
        if negb (truthy (PDict parsed)) then Ret (no_data tool_name)
        else Ret (PDict parsed)
    end =
    Ret match expected_key tool_name with
        | Some key =>
            match dict_get key parsed with
            | Some v => if truthy v then v else no_data tool_name
            | None => no_data tool_name
            end
        | None =>
            if truthy (PDict parsed) then PDict parsed else no_data tool_name
        end).
  { destruct (expected_key tool_name) as [key|].
    - unfold dict_has. cbn [bind].
      destruct (dict_get key parsed) as [v|]; cbn [bind]; [|reflexivity].
      destruct (truthy v); reflexivity.
    - destruct (truthy (PDict parsed)); reflexivity. }
  destruct (dict_get "status" parsed) as [status|]; cbn [bind].
  - destruct (eq_str status "login_required"); cbn [andb bind]; [|exact Hrest].
    destruct (dict_get "login_url" parsed) as [u|]; cbn [bind].
    + destruct (truthy u); cbn [bind]; [reflexivity | exact Hrest].
    + cbn [truthy bind]. exact Hrest.
  - cbn [eq_str bind]. exact Hrest.
Qed.

(** The fetcher on an inner text that does not decode. *)
Lemma fetch_inner_undecodable tool_name raw msg :
  json_loads raw = Undecodable msg ->
  fetch_inner json_loads tool_name (PStr raw) =
  Ret (if has_markers raw then login_required (url_from_text raw)
       else invalid_json).
Proof.
  intros Hj. unfold fetch_inner, has_markers, url_from_text. rewrite Hj.
  destruct (contains "login_required" raw && contains "login_url" raw);
    reflexivity.
Qed.

Lemma succeeds_outcome tool_name arguments payload :
  succeeds_with json_loads requests_post tool_name arguments payload ->
  outcome json_loads requests_post tool_name arguments = payload.
Proof.
  intros (raw & parsed & key & Ha & Hj & Hl & Hk & Hg & Ht).
  rewrite (outcome_answers _ _ _ Ha), (fetch_inner_decoded _ _ _ Hj), Hl.
  unfold field_or_no_data. now rewrite Hk, Hg, Ht.
Qed.

(** C7 (amended). When the response carries an inner text that decodes to
    an object which does not declare a login, the fetcher returns the value
    under the expected key of the tool when that key is present with a true
    value, and [no_data] when the key is absent or its value is false in
    Python's sense (null, false, zero, an empty string, list or object); for
    a tool with no expected key it returns the whole object, and [no_data]
    when the object is empty. *)
Theorem expected_field_or_no_data tool_name arguments raw parsed :
  answers requests_post tool_name arguments raw ->
  json_loads raw = Decoded (PDict parsed) ->
  declares_login parsed = false ->
  fetched json_loads requests_post tool_name arguments =
  Ret (field_or_no_data tool_name parsed).
Proof.
  intros Ha Hj Hl.
  rewrite fetched_eq, (outcome_answers _ _ _ Ha),
    (fetch_inner_decoded _ _ _ Hj), Hl.
  reflexivity.
Qed.

(** C8 (amended). When the inner text does not decode, the fetcher returns
    [login_required] if the text holds both markers, with the URL captured
    by the pattern when the pattern matches and the fixed URL built from the
    session id when it does not, and [invalid_json] otherwise; when the
    inner text decodes to an object whose status is [login_required] and
    whose [login_url] is a true value, it returns [login_required] with that
    URL. *)
Theorem login_required_detected tool_name arguments raw :
  answers requests_post tool_name arguments raw ->
  (forall msg,
      json_loads raw = Undecodable msg ->
      fetched json_loads requests_post tool_name arguments =
      Ret (if has_markers raw then login_required (url_from_text raw)
           else invalid_json)) /\
  (forall parsed u,
      json_loads raw = Decoded (PDict parsed) ->
      dict_get "status" parsed = Some (PStr "login_required") ->
      dict_get "login_url" parsed = Some u ->
      truthy u = true ->
      fetched json_loads requests_post tool_name arguments =
      Ret (login_required u)).
Proof.
  intros Ha. split.
  - intros msg Hj.
    rewrite fetched_eq, (outcome_answers _ _ _ Ha),
      (fetch_inner_undecodable _ _ _ Hj).
    reflexivity.
  - intros parsed u Hj Hs Hu Ht.
    rewrite fetched_eq, (outcome_answers _ _ _ Ha),
      (fetch_inner_decoded _ _ _ Hj).
    unfold declares_login. rewrite Hs, Hu, Ht. reflexivity.
Qed.

End Fetcher.

(** ** The loop of the aggregator *)

Section Loop.
Variable json_loads : string -> decoded.
Variable requests_post : request -> result response.
Variable arguments : value.

Lemma fetch_loop_cons tool_name context_key rest fetched_data errors log :
  fetch_loop json_loads requests_post ((tool_name, context_key) :: rest)
    arguments fetched_data errors log =
  let data := outcome json_loads requests_post tool_name arguments in
  let log' := (log ++ [mcp_request tool_name arguments])%list in
  if is_failure data then
    match py_getitem data "message" with
    | Raise e => (Raise e, log')
    | Ret message =>
        match py_getitem data "error" with
        | Raise e => (Raise e, log')
        | Ret kind =>
            if eq_str kind "login_required" then
              match py_get data "login_url" PNone with
              | Raise e => (Raise e, log')
              | Ret url => (Ret (Returned (login_result url)), log')
              end
            else
              fetch_loop json_loads requests_post rest arguments
                (dict_set context_key (default_value context_key) fetched_data)
                (errors ++ [message])%list log'
        end
    end
  else
    fetch_loop json_loads requests_post rest arguments
      (dict_set context_key data fetched_data) errors log'.
Proof.
  cbn [fetch_loop]. now rewrite fetch_data_from_mcp_eq.
Qed.

(** The log grows by the requests of a prefix of the tools, and a fetch
    that returned [login_required] is the last one of that prefix. *)
Lemma fetch_loop_login (tools : list (string * string)) :
  forall fetched_data errors log res log',
    fetch_loop json_loads requests_post tools arguments fetched_data errors log
      = (res, log') ->
    exists n,
      n <= List.length tools /\
      log' = (log ++ requests_for (firstn n tools) arguments)%list /\
      forall i tool_name context_key url,
        nth_error tools i = Some (tool_name, context_key) ->
        i < n ->
        outcome json_loads requests_post tool_name arguments
          = login_required url ->
        res = Ret (Returned (login_result url)) /\ n = S i.
Proof.
  induction tools as [|[t k] rest IH]; intros fd errs log res log' H.
  - cbn in H. injection H as <- <-. exists 0.
    split; [lia|]. split; [now rewrite app_nil_r|].
    intros i ? ? ? _ Hi. lia.
  - rewrite fetch_loop_cons in H. cbv zeta in H.
    assert (Hstop : forall r,
              (forall url,
                  outcome json_loads requests_post t arguments
                    = login_required url ->
                  r = Ret (Returned (login_result url))) ->
              (r, (log ++ [mcp_request t arguments])%list) = (res, log') ->
              exists n,
                n <= List.length ((t, k) :: rest) /\
                log' = (log ++ requests_for (firstn n ((t, k) :: rest)) arguments)%list /\
                forall i tool_name context_key url,
                  nth_error ((t, k) :: rest) i = Some (tool_name, context_key) ->
                  i < n ->
                  outcome json_loads requests_post tool_name arguments
                    = login_required url ->
                  res = Ret (Returned (login_result url)) /\ n = S i).
    { intros r Hr Heq. injection Heq as <- <-. exists 1.
      split; [cbn; lia|]. split; [reflexivity|].
      intros i tn ck url Hnth Hi Hv.
      destruct i; [|lia]. cbn in Hnth. injection Hnth as <- <-. auto. }
    assert (Hgo : forall fd' errs',
              (forall url,
                  outcome json_loads requests_post t arguments
                    <> login_required url) ->
              fetch_loop json_loads requests_post rest arguments fd' errs'
                (log ++ [mcp_request t arguments])%list = (res, log') ->
              exists n,
                n <= List.length ((t, k) :: rest) /\
                log' = (log ++ requests_for (firstn n ((t, k) :: rest)) arguments)%list /\
                forall i tool_name context_key url,
                  nth_error ((t, k) :: rest) i = Some (tool_name, context_key) ->
                  i < n ->
                  outcome json_loads requests_post tool_name arguments
                    = login_required url ->
                  res = Ret (Returned (login_result url)) /\ n = S i).
    { intros fd' errs' Hne Heq.
      destruct (IH _ _ _ _ _ Heq) as (n & Hn & Hlog & Hi).
      exists (S n).
      split; [cbn; lia|]. split; [rewrite Hlog; cbn; now rewrite <- app_assoc|].
      intros i tn ck url Hnth Hlt Hv.
      destruct i as [|i]; cbn in Hnth.
      - injection Hnth as <- <-. now apply Hne in Hv.
      - destruct (Hi _ _ _ _ Hnth ltac:(lia) Hv) as [-> ->]. auto. }
    destruct (is_failure (outcome json_loads requests_post t arguments)) eqn:Hf.
    + destruct (py_getitem _ "message") as [message|e] eqn:Hm.
      * destruct (py_getitem _ "error") as [kind|e] eqn:He.
        -- destruct (eq_str kind "login_required") eqn:Hk.
           ++ destruct (py_get _ "login_url" PNone) as [u|e] eqn:Hu;
                (eapply Hstop; [|exact H]); intros url Hv;
                rewrite Hv in Hu; cbn in Hu; congruence.
           ++ eapply Hgo; [|exact H]. intros url Hv.
              rewrite Hv in He. cbn in He. injection He as <-. discriminate.
        -- eapply Hstop; [|exact H]. intros url Hv.
           rewrite Hv in He. discriminate.
      * eapply Hstop; [|exact H]. intros url Hv.
        rewrite Hv in Hm. discriminate.
    + eapply Hgo; [|exact H]. intros url Hv.
      rewrite Hv in Hf. discriminate.
Qed.

End Loop.

(** ** The aggregator *)

Section Aggregator.
Variable json_loads : string -> decoded.
Variable requests_post : request -> result response.

Lemma mcp_request_inj t t' arguments :
  mcp_request t arguments = mcp_request t' arguments -> t = t'.
Proof. unfold mcp_request. intros H. now injection H. Qed.

(** The log of [get_full_financial_context_from_mcp_shared] is the log of
    its loop. *)
Lemma get_full_log user_id :
  truthy user_id = true ->
  snd (get_full_financial_context_from_mcp_shared json_loads requests_post
         user_id) =
  snd (fetch_loop json_loads requests_post tools_to_fetch (mcp_args user_id)
         [] [] []).
Proof.
  intros Hu. unfold get_full_financial_context_from_mcp_shared.
  rewrite Hu. cbn [negb]. fold (mcp_args user_id).
  destruct (fetch_loop _ _ _ _ _ _ _) as [[[v|fd [|e errs]]|e] log]; reflexivity.
Qed.

(** C1. Whenever the fetch of some category returns [LoginRequired], the
    aggregator returns at once with status [error] and the login URL of that
    category, and the requests it sent are those of the categories up to
    that one, in order: no category after it is fetched. *)
Theorem login_required_short_circuits user_id tool_name url :
  In (mcp_request tool_name (mcp_args user_id))
     (snd (get_full_financial_context_from_mcp_shared json_loads requests_post
             user_id)) ->
  fetched json_loads requests_post tool_name (mcp_args user_id)
    = Ret (login_required url) ->
  exists i context_key,
    nth_error tools_to_fetch i = Some (tool_name, context_key) /\
    get_full_financial_context_from_mcp_shared json_loads requests_post user_id
    = (Ret (login_result url),
       requests_for (firstn (S i) tools_to_fetch) (mcp_args user_id)) /\
    status_is (login_result url) "error" /\
    py_getitem (login_result url) "login_url" = Ret url.
Proof.
  intros Hin Hlogin.
  rewrite fetched_eq in Hlogin. injection Hlogin as Hlogin.
  destruct (truthy user_id) eqn:Hu.
  2:{ unfold get_full_financial_context_from_mcp_shared in Hin.
      rewrite Hu in Hin. destruct Hin. }
  rewrite get_full_log in Hin by assumption.
  unfold get_full_financial_context_from_mcp_shared. rewrite Hu. cbn [negb].
  fold (mcp_args user_id).
  destruct (fetch_loop _ _ _ _ _ _ _) as [res log] eqn:Hloop.
  destruct (fetch_loop_login _ _ _ _ _ _ _ _ _ Hloop) as (n & Hn & Hlog & Hi).
  cbn [snd app] in Hin, Hlog. subst log.
  apply in_map_iff in Hin as ([t k] & Heq & Hin).
  apply mcp_request_inj in Heq. cbn [fst] in Heq. subst t.
  apply In_nth_error in Hin as (i & Hnth).
  rewrite nth_error_firstn in Hnth.
  destruct (Nat.ltb i n) eqn:Hlt; [|discriminate].
  apply Nat.ltb_lt in Hlt.
  destruct (Hi _ _ _ _ Hnth Hlt Hlogin) as [-> ->].
  exists i, k. split; [assumption|]. split; [reflexivity|].
  split; [|reflexivity].
  eexists. split; reflexivity.
Qed.

End Aggregator.

(** ** Runs of the loop to completion *)

Lemma dict_get_set_same k v d : dict_get k (dict_set k v d) = Some v.
Proof.
  induction d as [|[k' v'] d IH]; cbn.
  - now rewrite String.eqb_refl.
  - destruct (String.eqb k k') eqn:E; cbn; rewrite E; [reflexivity | exact IH].
Qed.

Lemma strings_of_map (msgs : list string) (i : nat) :
  strings_of (map PStr msgs) i = Ret msgs.
Proof.
  revert i. induction msgs as [|m msgs IH]; intros i; cbn; [reflexivity|].
  now rewrite IH.
Qed.

Lemma join_values_map (sep : string) (msgs : list string) :
  join_values sep (map PStr msgs) = Ret (join sep msgs).
Proof. unfold join_values. now rewrite strings_of_map. Qed.

Lemma failure_parts (v : value) :
  is_failure v = true ->
  exists d kind, v = PDict d /\ dict_get "error" d = Some kind.
Proof.
  destruct v as [| | | | | |d]; try discriminate.
  unfold is_failure, dict_has.
  destruct (dict_get "error" d) as [kind|] eqn:E; [|discriminate].
  intros _. now exists d, kind.
Qed.

Section Completion.
Variable json_loads : string -> decoded.
Variable requests_post : request -> result response.
Variable arguments : value.

Lemma text_messages_tail t rest :
  text_messages json_loads requests_post (t :: rest) arguments ->
  text_messages json_loads requests_post rest arguments.
Proof. intros H tn ck Hin. apply (H tn ck). now right. Qed.

Lemma no_login_tail t rest :
  no_login json_loads requests_post (t :: rest) arguments ->
  no_login json_loads requests_post rest arguments.
Proof. intros H tn ck Hin. apply (H tn ck). now right. Qed.

(** One iteration on a failure that is not a login and has a text
    message. *)
Lemma fetch_loop_failure tool_name context_key rest fetched_data errors log m :
  is_failure (outcome json_loads requests_post tool_name arguments) = true ->
  kind_is_login (outcome json_loads requests_post tool_name arguments) = false ->
  py_getitem (outcome json_loads requests_post tool_name arguments) "message"
    = Ret m ->
  fetch_loop json_loads requests_post ((tool_name, context_key) :: rest)
    arguments fetched_data errors log =
  fetch_loop json_loads requests_post rest arguments
    (dict_set context_key (default_value context_key) fetched_data)
    (errors ++ [m])%list
    (log ++ [mcp_request tool_name arguments])%list.
Proof.
  intros Hf Hk Hm. rewrite fetch_loop_cons. cbv zeta. rewrite Hf, Hm.
  destruct (failure_parts _ Hf) as (d & kind & Hv & He).
  rewrite Hv in *. cbn [py_getitem kind_is_login] in *.
  rewrite He in *. now rewrite Hk.
Qed.

Lemma fetch_loop_success tool_name context_key rest fetched_data errors log :
  is_failure (outcome json_loads requests_post tool_name arguments) = false ->
  fetch_loop json_loads requests_post ((tool_name, context_key) :: rest)
    arguments fetched_data errors log =
  fetch_loop json_loads requests_post rest arguments
    (dict_set context_key
       (outcome json_loads requests_post tool_name arguments) fetched_data)
    errors (log ++ [mcp_request tool_name arguments])%list.
Proof.
  intros Hf. rewrite fetch_loop_cons. cbv zeta. now rewrite Hf.
Qed.

Lemma message_of_getitem v m :
  message_of v = Some m -> py_getitem v "message" = Ret (PStr m).
Proof.
  destruct v as [| | | | | |d]; try discriminate. cbn.
  destruct (dict_get "message" d) as [[| | | |s| |]|]; try discriminate.
  now intros [= ->].
Qed.

(** With no login among the outcomes and a text message on every failure,
    the loop fetches every tool and ends with the stored context and the
    messages of the failures. *)
Lemma fetch_loop_completes (tools : list (string * string)) :
  no_login json_loads requests_post tools arguments ->
  text_messages json_loads requests_post tools arguments ->
  forall fetched_data errors log,
    fetch_loop json_loads requests_post tools arguments fetched_data errors log
    = (Ret (Completed
              (stored json_loads requests_post tools arguments fetched_data)
              (errors ++ map PStr
                 (failure_messages json_loads requests_post tools arguments))%list),
       (log ++ requests_for tools arguments)%list).
Proof.
  induction tools as [|[t k] rest IH]; intros Hnl Htm fd errs log.
  - cbn. now rewrite !app_nil_r.
  - specialize (IH (no_login_tail _ _ Hnl) (text_messages_tail _ _ Htm)).
    cbn [stored failure_messages requests_for map fst].
    destruct (is_failure (outcome json_loads requests_post t arguments)) eqn:Hf.
    + destruct (Htm t k (or_introl eq_refl) Hf) as (m & Hm).
      rewrite (fetch_loop_failure _ _ _ _ _ _ (PStr m) Hf
                 (Hnl t k (or_introl eq_refl)) (message_of_getitem _ _ Hm)).
      rewrite IH, Hm. cbn [app map]. now rewrite <- !app_assoc.
    + rewrite (fetch_loop_success _ _ _ _ _ _ Hf), IH.
      cbn [app]. now rewrite <- !app_assoc.
Qed.

Lemma failure_messages_nonempty (tools : list (string * string)) :
  text_messages json_loads requests_post tools arguments ->
  (exists tool_name context_key,
      In (tool_name, context_key) tools /\
      is_failure (outcome json_loads requests_post tool_name arguments) = true) ->
  failure_messages json_loads requests_post tools arguments <> [].
Proof.
  induction tools as [|[t k] rest IH]; intros Htm (tn & ck & Hin & Hf).
  - destruct Hin.
  - cbn [failure_messages].
    destruct (is_failure (outcome json_loads requests_post t arguments)) eqn:Hft.
    + destruct (Htm t k (or_introl eq_refl) Hft) as (m & ->). discriminate.
    + cbn [app]. apply IH; [now apply text_messages_tail in Htm|].
      destruct Hin as [[= <- <-]|Hin]; [congruence|]. eauto.
Qed.

(** A [return] from inside the loop is the login result. *)
Lemma fetch_loop_returned (tools : list (string * string)) :
  forall fetched_data errors log v log',
    fetch_loop json_loads requests_post tools arguments fetched_data errors log
      = (Ret (Returned v), log') ->
    exists url, v = login_result url.
Proof.
  induction tools as [|[t k] rest IH]; intros fd errs log v log' H.
  - discriminate.
  - rewrite fetch_loop_cons in H. cbv zeta in H.
    destruct (is_failure _); [|now apply IH in H].
    destruct (py_getitem _ "message"); [|discriminate].
    destruct (py_getitem _ "error"); [|discriminate].
    destruct (eq_str _ _); [|now apply IH in H].
    destruct (py_get _ "login_url" PNone) as [u|]; [|discriminate].
    injection H as <- _. now exists u.
Qed.

(** With a text message on every failure the loop raises nothing; it
    returns the login result, or completes with text messages, at least one
    if it started with one or met a failure. *)
Lemma fetch_loop_no_raise (tools : list (string * string)) :
  text_messages json_loads requests_post tools arguments ->
  forall fetched_data (msgs : list string) log,
  exists ex log',
    fetch_loop json_loads requests_post tools arguments fetched_data
      (map PStr msgs) log = (Ret ex, log') /\
    ((exists url, ex = Returned (login_result url)) \/
     (exists fd' msgs',
         ex = Completed fd' (map PStr msgs') /\
         ((msgs <> [] \/
           exists tool_name context_key,
             In (tool_name, context_key) tools /\
             is_failure (outcome json_loads requests_post tool_name arguments)
               = true) ->
          msgs' <> []))).
Proof.
  induction tools as [|[t k] rest IH]; intros Htm fd msgs log.
  - cbn. do 2 eexists. split; [reflexivity|]. right.
    exists fd, msgs. split; [reflexivity|].
    intros [H|(tn & ck & [] & _)]. exact H.
  - specialize (IH (text_messages_tail _ _ Htm)).
    destruct (is_failure (outcome json_loads requests_post t arguments)) eqn:Hf.
    + destruct (Htm t k (or_introl eq_refl) Hf) as (m & Hm).
      destruct (kind_is_login (outcome json_loads requests_post t arguments))
        eqn:Hk.
      * rewrite fetch_loop_cons. cbv zeta.
        rewrite Hf, (message_of_getitem _ _ Hm).
        destruct (failure_parts _ Hf) as (d & kind & Hv & He).
        rewrite Hv in *. cbn [py_getitem kind_is_login py_get] in *.
        rewrite He in *. rewrite Hk.
        destruct (dict_get "login_url" d) as [u|];
          do 2 eexists; (split; [reflexivity|]); left; eexists; reflexivity.
      * rewrite (fetch_loop_failure _ _ _ _ _ _ (PStr m) Hf Hk
                   (message_of_getitem _ _ Hm)).
        change (map PStr msgs ++ [PStr m])%list
          with (map PStr msgs ++ map PStr [m])%list.
        rewrite <- map_app.
        destruct (IH (dict_set k (default_value k) fd) (msgs ++ [m])%list
                    (log ++ [mcp_request t arguments])%list)
          as (ex & log' & Heq & Hex).
        exists ex, log'. split; [exact Heq|].
        destruct Hex as [Hex|(fd' & msgs' & Hc & Hne)]; [now left|right].
        exists fd', msgs'. split; [exact Hc|]. intros _. apply Hne. left.
        now destruct msgs.
    + rewrite (fetch_loop_success _ _ _ _ _ _ Hf).
      destruct (IH (dict_set k (outcome json_loads requests_post t arguments) fd)
                  msgs (log ++ [mcp_request t arguments])%list)
        as (ex & log' & Heq & Hex).
      exists ex, log'. split; [exact Heq|].
      destruct Hex as [Hex|(fd' & msgs' & Hc & Hne)]; [now left|right].
      exists fd', msgs'. split; [exact Hc|]. intros H. apply Hne.
      destruct H as [H|(tn & ck & [[= <- <-]|Hin] & Hft)];
        [now left | congruence | right; eauto].
Qed.

End Completion.

(** ** Results of the aggregator *)

Lemma not_failure_not_login (v : value) :
  is_failure v = false -> kind_is_login v = false.
Proof.
  destruct v as [| | | | | |d]; try reflexivity.
  unfold is_failure, dict_has, kind_is_login.
  now destruct (dict_get "error" d).
Qed.

Lemma login_result_no_payload url : no_payload (login_result url).
Proof.
  eexists. split; [reflexivity|]. intros tn ck Hin.
  cbn in Hin. repeat destruct Hin as [[= <- <-]|Hin]; try reflexivity.
  destruct Hin.
Qed.

Lemma fetch_errors_no_payload msg : no_payload (fetch_errors msg).
Proof.
  eexists. split; [reflexivity|]. intros tn ck Hin.
  cbn in Hin. repeat destruct Hin as [[= <- <-]|Hin]; try reflexivity.
  destruct Hin.
Qed.

Section Context.
Variable json_loads : string -> decoded.
Variable requests_post : request -> result response.

(** C2 (amended). When no fetch returns a login, every failure carries a
    text message and at least one category fails, the aggregator fetches all
    six categories and returns status [error] with the messages of the
    failures joined in the order of the categories, and no category payload.
    Besides, whatever the outcomes, a result with status [error] holds no
    category payload. *)
Theorem fetch_errors_joined user_id :
  (truthy user_id = true ->
   no_login json_loads requests_post tools_to_fetch (mcp_args user_id) ->
   text_messages json_loads requests_post tools_to_fetch (mcp_args user_id) ->
   (exists tool_name context_key,
       In (tool_name, context_key) tools_to_fetch /\
       is_failure (outcome json_loads requests_post tool_name
                     (mcp_args user_id)) = true) ->
   let msgs := failure_messages json_loads requests_post tools_to_fetch
                 (mcp_args user_id) in
   let r := fetch_errors ("MCP Data Fetch Errors: " ++ join "; " msgs) in
   msgs <> [] /\
   get_full_financial_context_from_mcp_shared json_loads requests_post user_id
     = (Ret r, requests_for tools_to_fetch (mcp_args user_id)) /\
   status_is r "error" /\ no_payload r)
  /\
  (forall r log,
      get_full_financial_context_from_mcp_shared json_loads requests_post
        user_id = (Ret r, log) ->
      status_is r "error" -> no_payload r).
Proof.
  split.
  - intros Hu Hnl Htm Hfail msgs r.
    assert (Hne : msgs <> []) by now apply failure_messages_nonempty.
    split; [exact Hne|]. split.
    + unfold get_full_financial_context_from_mcp_shared.
      rewrite Hu. cbn [negb]. fold (mcp_args user_id).
      rewrite (fetch_loop_completes _ _ _ _ Hnl Htm).
      fold msgs. cbn [app]. destruct msgs as [|m ms] eqn:E; [congruence|].
      change (map PStr (m :: ms)) with (PStr m :: map PStr ms).
      cbv iota beta.
      change (PStr m :: map PStr ms) with (map PStr (m :: ms)).
      now rewrite join_values_map.
    + split; [|apply fetch_errors_no_payload].
      eexists. split; reflexivity.
  - intros r log H (d & -> & Hs).
    unfold get_full_financial_context_from_mcp_shared in H.
    destruct (truthy user_id); cbn [negb] in H.
    2:{ unfold missing_user_id in H. inversion H; subst. discriminate. }
    destruct (fetch_loop _ _ _ _ _ _ _) as [[[v|fd [|e errs]]|e] log0] eqn:Hl.
    + injection H as -> _.
      apply fetch_loop_returned in Hl as [url ->]. apply login_result_no_payload.
    + destruct (py_get (PDict fd) "net_worth" (PDict [])) as [nw|];
        [|discriminate]. cbn [bind] in H.
      destruct (py_get nw "salary" (PInt 0)) as [salary|]; [|discriminate].
      cbn [bind] in H. injection H as <- _.
      rewrite dict_get_set_same in Hs. discriminate.
    + destruct (join_values "; " (e :: errs)) as [joined|]; [|discriminate].
      cbn [bind] in H. injection H as H _. rewrite <- H.
      apply fetch_errors_no_payload.
    + discriminate.
Qed.

(** C3. An empty or absent user id is answered without a single request;
    the dictionary returned has an [error] entry and no [status] entry, so
    the test [full_ctx.get("status") == "error"] of
    [analyze_home_loan_affordability] does not recognise it. *)
Theorem missing_user_id_has_no_status user_id :
  truthy user_id = false ->
  get_full_financial_context_from_mcp_shared json_loads requests_post user_id
    = (Ret missing_user_id, []) /\
  py_get missing_user_id "status" PNone = Ret PNone /\
  ~ status_is missing_user_id "error".
Proof.
  intros Hu. unfold get_full_financial_context_from_mcp_shared. rewrite Hu.
  split; [reflexivity|]. split; [reflexivity|].
  intros (d & [= <-] & H). discriminate.
Qed.

(** C4 (amended). When all six fetches succeed with payloads that are not
    dictionaries with an [error] key and the net-worth payload is a
    dictionary, the aggregator returns the six payloads under their context
    keys, the salary of the net-worth payload (0 when it has none) and
    status [success]. *)
Theorem all_succeed_gives_context user_id (payload : string -> value) nw :
  truthy user_id = true ->
  (forall tool_name context_key,
      In (tool_name, context_key) tools_to_fetch ->
      succeeds_with json_loads requests_post tool_name (mcp_args user_id)
        (payload tool_name) /\
      is_failure (payload tool_name) = false) ->
  payload "fetch_net_worth" = PDict nw ->
  get_full_financial_context_from_mcp_shared json_loads requests_post user_id
  = (Ret (PDict
       [ ("bank_txns", payload "fetch_bank_transactions");
         ("credit_rpt", payload "fetch_credit_report");
         ("epf", payload "fetch_epf_details");
         ("mf_txns", payload "fetch_mf_transactions");
         ("net_worth", payload "fetch_net_worth");
         ("stocks", payload "fetch_stock_transactions");
         ("salary", match dict_get "salary" nw with
                    | Some salary => salary
                    | None => PInt 0
                    end);
         ("status", PStr "success") ]),
     requests_for tools_to_fetch (mcp_args user_id)).
Proof.
  intros Hu Hall Hnw.
  assert (Hout : forall tool_name context_key,
             In (tool_name, context_key) tools_to_fetch ->
             outcome json_loads requests_post tool_name (mcp_args user_id)
               = payload tool_name /\
             is_failure (payload tool_name) = false).
  { intros tn ck Hin. destruct (Hall tn ck Hin) as [Hs Hf].
    split; [now apply succeeds_outcome | exact Hf]. }
  assert (Hst :
    stored json_loads requests_post tools_to_fetch (mcp_args user_id) [] =
    [ ("bank_txns", payload "fetch_bank_transactions");
      ("credit_rpt", payload "fetch_credit_report");
      ("epf", payload "fetch_epf_details");
      ("mf_txns", payload "fetch_mf_transactions");
      ("net_worth", payload "fetch_net_worth");
      ("stocks", payload "fetch_stock_transactions") ] /\
    failure_messages json_loads requests_post tools_to_fetch (mcp_args user_id)
    = []).
  { unfold tools_to_fetch. cbn [stored failure_messages].
    destruct (Hout "fetch_bank_transactions" "bank_txns") as [-> ->];
      [cbn; tauto|].
    destruct (Hout "fetch_credit_report" "credit_rpt") as [-> ->];
      [cbn; tauto|].
    destruct (Hout "fetch_epf_details" "epf") as [-> ->]; [cbn; tauto|].
    destruct (Hout "fetch_mf_transactions" "mf_txns") as [-> ->];
      [cbn; tauto|].
    destruct (Hout "fetch_net_worth" "net_worth") as [-> ->]; [cbn; tauto|].
    destruct (Hout "fetch_stock_transactions" "stocks") as [-> ->];
      [cbn; tauto|].
    split; reflexivity. }
  destruct Hst as [Hst Hfm].
  unfold get_full_financial_context_from_mcp_shared.
  rewrite Hu. cbn [negb]. fold (mcp_args user_id).
  rewrite fetch_loop_completes.
  - rewrite Hst, Hfm. cbn [app map py_get dict_get String.eqb Ascii.eqb Bool.eqb bind].
    rewrite Hnw. cbn [py_get bind].
    destruct (dict_get "salary" nw); reflexivity.
  - intros tn ck Hin. apply not_failure_not_login.
    destruct (Hout tn ck Hin) as [-> Hf]. exact Hf.
  - intros tn ck Hin Hf.
    destruct (Hout tn ck Hin) as [Ho Hnf]. rewrite Ho in Hf. congruence.
Qed.

(** C10 (amended). When the fetch of a category succeeds with a payload
    that is a dictionary with an [error] key other than [login_required], and
    every failure carries a text message, this payload included, the
    iteration for that category stores the default empty value in its slot
    and appends the message of the payload to the errors, and the aggregator
    returns status [error]. *)
Theorem error_key_payload_is_failure user_id tool_name context_key p :
  truthy user_id = true ->
  In (tool_name, context_key) tools_to_fetch ->
  succeeds_with json_loads requests_post tool_name (mcp_args user_id) (PDict p) ->
  dict_has "error" p = true ->
  kind_is_login (PDict p) = false ->
  text_messages json_loads requests_post tools_to_fetch (mcp_args user_id) ->
  exists m,
    dict_get "message" p = Some (PStr m) /\
    (forall rest fetched_data errors log,
        fetch_loop json_loads requests_post ((tool_name, context_key) :: rest)
          (mcp_args user_id) fetched_data errors log =
        fetch_loop json_loads requests_post rest (mcp_args user_id)
          (dict_set context_key (default_value context_key) fetched_data)
          (errors ++ [PStr m])%list
          (log ++ [mcp_request tool_name (mcp_args user_id)])%list) /\
    exists r log,
      get_full_financial_context_from_mcp_shared json_loads requests_post
        user_id = (Ret r, log) /\
      status_is r "error".
Proof.
  intros Hu Hin Hs He Hk Htm.
  pose proof (succeeds_outcome _ _ _ _ _ Hs) as Ho.
  assert (Hf : is_failure (outcome json_loads requests_post tool_name
                             (mcp_args user_id)) = true)
    by (rewrite Ho; exact He).
  destruct (Htm _ _ Hin Hf) as (m & Hm).
  exists m. split; [|split].
  - rewrite Ho in Hm. cbn in Hm.
    destruct (dict_get "message" p) as [[| | | |s| |]|]; try discriminate.
    now injection Hm as ->.
  - intros rest fd errs log.
    apply fetch_loop_failure;
      [exact Hf | now rewrite Ho | now apply message_of_getitem].
  - unfold get_full_financial_context_from_mcp_shared.
    rewrite Hu. cbn [negb]. fold (mcp_args user_id).
    destruct (fetch_loop_no_raise _ _ _ _ Htm [] [] [])
      as (ex & log & Heq & [(url & ->)|(fd & msgs & -> & Hne)]).
    + cbn [map] in Heq. rewrite Heq. do 2 eexists. split; [reflexivity|].
      eexists. split; reflexivity.
    + cbn [map] in Heq. rewrite Heq.
      destruct msgs as [|m0 ms]; [exfalso; apply Hne; eauto|].
      change (map PStr (m0 :: ms)) with (PStr m0 :: map PStr ms).
      cbv iota beta.
      change (PStr m0 :: map PStr ms) with (map PStr (m0 :: ms)).
      rewrite join_values_map. cbn [bind].
      do 2 eexists. split; [reflexivity|]. eexists. split; reflexivity.
Qed.

End Context.

(** ** The extractor *)

Section Extractor.
Variable json_loads : string -> decoded.

Lemma search_first_span raw pre span post :
  first_span raw pre span post ->
  exists m,
    re_search brace_pattern raw = Some m /\
    group0 m = span /\ m_start m = String.length pre.
Proof.
  intros (Hocc & Hb & Hfirst).
  pose proof (search_brace raw) as H. unfold first_balanced in H.
  destruct (re_search brace_pattern raw) as [m|].
  - destruct H as (pre0 & post0 & Hocc0 & Hst & Hb0 & Hfirst0).
    exists m. split; [reflexivity|].
    destruct (Hfirst0 _ _ _ Hocc Hb) as [Hlt | [-> ->]].
    + specialize (Hfirst _ _ _ Hocc0 Hb0). lia.
    + auto.
  - now apply H in Hocc.
Qed.

Lemma search_no_span raw :
  (forall pre span post, occurs_at raw pre span post -> ~ balanced1 span) ->
  re_search brace_pattern raw = None.
Proof.
  intros Hno.
  pose proof (search_brace raw) as H. unfold first_balanced in H.
  destruct (re_search brace_pattern raw) as [m|]; [|reflexivity].
  destruct H as (pre0 & post0 & Hocc0 & _ & Hb0 & _).
  now apply Hno in Hocc0.
Qed.

(** C5. For every text, the search of the extractor returns the leftmost
    span that is balanced with one level of nesting, and nothing when the
    text holds none; the extractor decodes that span, and what it returns is
    the decoded object: under [data] in [_call_gemini_and_parse_json], with
    [status] set in [analyze_financial_data].  On the sample text, when the
    decoder reads the span as Python does, the result is the object of the
    span and nothing of the text around it. *)
Theorem extractor_parses_first_balanced_span raw :
  first_balanced raw (re_search brace_pattern raw) /\
  (forall pre span post obj,
      first_span raw pre span post ->
      json_loads span = Decoded obj ->
      parse_first_object json_loads raw = Ret obj /\
      _call_gemini_and_parse_json json_loads raw
        = PDict [("status", PStr "success"); ("data", obj)] /\
      forall d, obj = PDict d ->
        analyze_financial_data json_loads raw
          = PDict (dict_set "status" (PStr "success") d)) /\
  (json_loads sample_span = Decoded sample_object ->
   re_search brace_pattern sample_text = Some (mk_match 26 sample_span None) /\
   _call_gemini_and_parse_json json_loads sample_text
     = PDict [("status", PStr "success"); ("data", sample_object)] /\
   analyze_financial_data json_loads sample_text
     = PDict [("a", PInt 1); ("b", PDict [("c", PInt 2)]);
              ("status", PStr "success")]).
Proof.
  split; [apply search_brace|]. split.
  - intros pre span post obj Hfirst Hj.
    destruct (search_first_span _ _ _ _ Hfirst) as (m & Hm & Hg & _).
    unfold _call_gemini_and_parse_json, analyze_financial_data,
      parse_first_object.
    rewrite Hm, Hg, Hj. split; [reflexivity|]. split; [reflexivity|].
    now intros d ->.
  - intros Hj.
    assert (Hm : re_search brace_pattern sample_text
                 = Some (mk_match 26 sample_span None))
      by (vm_compute; reflexivity).
    split; [exact Hm|].
    unfold _call_gemini_and_parse_json, analyze_financial_data,
      parse_first_object.
    rewrite Hm. cbn [group0]. rewrite Hj. split; reflexivity.
Qed.

(** C6 (amended). When the text holds no balanced span, both extractors
    return status [error] with the whole text, under [gemini_response] and
    inside [details] in [_call_gemini_and_parse_json], under [details] in
    [analyze_financial_data].  When the first balanced span does not decode,
    both return status [error] with the whole text under [gemini_response]
    and the message of the decoder under [details]. *)
Theorem extraction_failures raw :
  ((forall pre span post, occurs_at raw pre span post -> ~ balanced1 span) ->
   _call_gemini_and_parse_json json_loads raw
     = extraction_error "JSON extraction/parsing failed"
         ("No valid JSON object found in Gemini's response. Raw: " ++ raw) raw /\
   analyze_financial_data json_loads raw
     = PDict [("status", PStr "error");
              ("message", PStr "Gemini returned invalid JSON for analysis.");
              ("details", PStr raw)]) /\
  (forall pre span post msg,
      first_span raw pre span post ->
      json_loads span = Undecodable msg ->
      _call_gemini_and_parse_json json_loads raw
        = extraction_error "Invalid JSON from Gemini" msg raw /\
      analyze_financial_data json_loads raw
        = extraction_error "Invalid JSON from Gemini for analysis" msg raw).
Proof.
  split.
  - intros Hno. apply search_no_span in Hno.
    unfold _call_gemini_and_parse_json, analyze_financial_data,
      parse_first_object.
    rewrite Hno. split; reflexivity.
  - intros pre span post msg Hfirst Hj.
    destruct (search_first_span _ _ _ _ Hfirst) as (m & Hm & Hg & _).
    unfold _call_gemini_and_parse_json, analyze_financial_data,
      parse_first_object.
    rewrite Hm, Hg, Hj. split; reflexivity.
Qed.

End Extractor.

(** A match of the search is the first balanced span, and no match means
    no balanced span. *)
Lemma search_is_first_span raw m :
  re_search brace_pattern raw = Some m ->
  exists pre post, first_span raw pre (group0 m) post.
Proof.
  intros Hm. pose proof (search_brace raw) as H. rewrite Hm in H.
  destruct H as (pre & post & Hocc & _ & Hb & Hfirst).
  exists pre, post. split; [exact Hocc|]. split; [exact Hb|].
  intros pre' span' post' Hocc' Hb'.
  destruct (Hfirst _ _ _ Hocc' Hb') as [Hlt | [-> _]]; lia.
Qed.

Lemma no_span_of_search raw :
  re_search brace_pattern raw = None ->
  forall pre span post, occurs_at raw pre span post -> ~ balanced1 span.
Proof.
  intros Hm. pose proof (search_brace raw) as H. now rewrite Hm in H.
Qed.

(** * Runs on concrete inputs *)

Ltac each_tool :=
  let tn := fresh "tn" in
  let ck := fresh "ck" in
  let Hin := fresh "Hin" in
  intros tn ck Hin; cbn in Hin;
  repeat destruct Hin as [[= <- <-]|Hin]; try destruct Hin.

Ltac run_answers :=
  eexists; split;
  [ reflexivity
  | split; [reflexivity | eexists; split; reflexivity] ].

Ltac run_succeeds :=
  do 3 eexists; split; [run_answers|];
  split; [vm_compute; reflexivity|];
  split; [vm_compute; reflexivity|];
  split; [vm_compute; reflexivity|];
  split; vm_compute; reflexivity.


(** The hypotheses of C1 hold when the third tool asks for a login: the
    aggregator stops after three requests. *)
Lemma login_required_short_circuits_witness :
  exists i context_key,
    nth_error tools_to_fetch i = Some ("fetch_epf_details", context_key) /\
    get_full_financial_context_from_mcp_shared Json.loads login_at_epf user
    = (Ret (login_result login_url_value),
       requests_for (firstn (S i) tools_to_fetch) (mcp_args user)) /\
    status_is (login_result login_url_value) "error" /\
    py_getitem (login_result login_url_value) "login_url" = Ret login_url_value.
Proof.
  apply (login_required_short_circuits Json.loads login_at_epf user
           "fetch_epf_details" login_url_value).
  - vm_compute. right. right. left. reflexivity.
  - vm_compute. reflexivity.
Defined.

(** C2 as stated fails: the first fetch fails with a timeout, the second
    asks for a login, and the result carries the login message, not the
    joined messages of the failures. *)
Lemma later_login_hides_errors :
  fetched Json.loads timeout_then_login "fetch_bank_transactions"
    (mcp_args user) = Ret timeout_error /\
  is_failure timeout_error = true /\
  kind_is_login timeout_error = false /\
  get_full_financial_context_from_mcp_shared Json.loads timeout_then_login user
  = (Ret (login_result login_url_value),
     requests_for (firstn 2 tools_to_fetch) (mcp_args user)) /\
  py_getitem (login_result login_url_value) "message"
  = Ret (PStr login_message) /\
  login_message
  <> "MCP Data Fetch Errors: " ++ join "; " ["MCP request timed out."].
Proof.
  repeat split; try (vm_compute; reflexivity). vm_compute. discriminate.
Qed.

(** The hypotheses of C2 (amended) hold when the first tool times out and
    the others answer with data. *)
Lemma fetch_errors_joined_witness :
  get_full_financial_context_from_mcp_shared Json.loads bank_times_out user
  = (Ret (fetch_errors "MCP Data Fetch Errors: MCP request timed out."),
     requests_for tools_to_fetch (mcp_args user)).
Proof.
  refine (proj1 (proj2 (proj1 (fetch_errors_joined Json.loads bank_times_out user)
                          _ _ _ _))).
  - reflexivity.
  - each_tool; vm_compute; reflexivity.
  - each_tool; intros Hf; vm_compute in Hf; try discriminate;
      eexists; vm_compute; reflexivity.
  - exists "fetch_bank_transactions", "bank_txns".
    split; [cbn; tauto | vm_compute; reflexivity].
Defined.

(** The empty string is such a user id. *)
Lemma missing_user_id_has_no_status_witness :
  get_full_financial_context_from_mcp_shared Json.loads (serve healthy)
    (PStr EmptyString) = (Ret missing_user_id, []) /\
  py_get missing_user_id "status" PNone = Ret PNone /\
  ~ status_is missing_user_id "error".
Proof.
  apply (missing_user_id_has_no_status Json.loads (serve healthy)
           (PStr EmptyString)).
  reflexivity.
Defined.

(** C4 as stated fails: all six fetches succeed, the credit report being an
    object with an [error] key, and the result has status [error]. *)
Lemma error_key_payload_breaks_success :
  (forall tool_name context_key,
      In (tool_name, context_key) tools_to_fetch ->
      exists payload,
        succeeds_with Json.loads frozen_credit_report tool_name
          (mcp_args user) payload) /\
  succeeds_with Json.loads frozen_credit_report "fetch_credit_report"
    (mcp_args user) frozen_report /\
  fst (get_full_financial_context_from_mcp_shared Json.loads
         frozen_credit_report user)
  = Ret (fetch_errors "MCP Data Fetch Errors: Report frozen by user") /\
  ~ status_is (fetch_errors "MCP Data Fetch Errors: Report frozen by user")
      "success".
Proof.
  split; [each_tool; eexists; run_succeeds|].
  split; [run_succeeds|].
  split; [vm_compute; reflexivity|].
  intros (d & [= <-] & H). discriminate.
Qed.

(** The hypotheses of C4 (amended) hold when all six tools answer with
    data; the salary is the one of the net worth. *)
Lemma all_succeed_gives_context_witness :
  get_full_financial_context_from_mcp_shared Json.loads (serve healthy) user
  = (Ret (PDict
       [ ("bank_txns", PList [PDict [("amount", PInt 1639)]]);
         ("credit_rpt", PDict [("score", PInt 750)]);
         ("epf", PDict [("balance", PInt 90000)]);
         ("mf_txns", PList [PDict [("units", PInt 12)]]);
         ("net_worth", PDict [("salary", PInt 150000); ("assets", PInt 500000)]);
         ("stocks", PList [PDict [("isin", PStr "X")]]);
         ("salary", PInt 150000);
         ("status", PStr "success") ]),
     requests_for tools_to_fetch (mcp_args user)).
Proof.
  refine (all_succeed_gives_context Json.loads (serve healthy) user
            (fun t => outcome Json.loads (serve healthy) t (mcp_args user))
            [("salary", PInt 150000); ("assets", PInt 500000)] _ _ _).
  - reflexivity.
  - each_tool; (split; [run_succeeds | vm_compute; reflexivity]).
  - vm_compute. reflexivity.
Defined.

(** The decoder [Json.loads] reads the span of the sample text as Python
    does. *)
Lemma extractor_parses_first_balanced_span_witness :
  (exists pre post, first_span sample_text pre sample_span post) /\
  re_search brace_pattern sample_text = Some (mk_match 26 sample_span None) /\
  _call_gemini_and_parse_json Json.loads sample_text
    = PDict [("status", PStr "success"); ("data", sample_object)] /\
  analyze_financial_data Json.loads sample_text
    = PDict [("a", PInt 1); ("b", PDict [("c", PInt 2)]);
             ("status", PStr "success")].
Proof.
  split.
  - apply (search_is_first_span sample_text (mk_match 26 sample_span None)).
    vm_compute. reflexivity.
  - apply (proj2 (proj2 (extractor_parses_first_balanced_span Json.loads
                           sample_text))).
    vm_compute. reflexivity.
Defined.

(** C6 as stated fails: the span that does not decode is no entry of the
    result, which holds the whole text and the message of the decoder. *)
Lemma failed_span_not_retained :
  re_search brace_pattern broken_text = Some (mk_match 13 broken_span None) /\
  Json.loads broken_span = Undecodable broken_message /\
  _call_gemini_and_parse_json Json.loads broken_text
    = extraction_error "Invalid JSON from Gemini" broken_message broken_text /\
  analyze_financial_data Json.loads broken_text
    = extraction_error "Invalid JSON from Gemini for analysis" broken_message
        broken_text /\
  retains (_call_gemini_and_parse_json Json.loads broken_text) broken_text /\
  ~ retains (_call_gemini_and_parse_json Json.loads broken_text) broken_span /\
  ~ retains (analyze_financial_data Json.loads broken_text) broken_span.
Proof.
  assert (Hno : forall message d k,
             extraction_error message broken_message broken_text = PDict d ->
             message <> broken_span ->
             dict_get k d <> Some (PStr broken_span)).
  { intros message d k [= <-] Hm. cbn [dict_get].
    repeat match goal with
           | |- context [String.eqb k ?x] => destruct (String.eqb k x)
           end; try discriminate.
    intros [= H]. now apply Hm. }
  split; [vm_compute; reflexivity|].
  split; [vm_compute; reflexivity|].
  assert (H1 : _call_gemini_and_parse_json Json.loads broken_text
               = extraction_error "Invalid JSON from Gemini" broken_message
                   broken_text) by (vm_compute; reflexivity).
  assert (H2 : analyze_financial_data Json.loads broken_text
               = extraction_error "Invalid JSON from Gemini for analysis"
                   broken_message broken_text) by (vm_compute; reflexivity).
  split; [exact H1|]. split; [exact H2|]. rewrite H1, H2.
  split; [|split].
  - eexists _, "gemini_response". split; reflexivity.
  - intros (d & k & Hd & Hk). revert Hk. now apply (Hno _ _ _ Hd).
  - intros (d & k & Hd & Hk). revert Hk. now apply (Hno _ _ _ Hd).
Qed.

(** A text with no brace holds no balanced span, and the span of
    [broken_text] does not decode. *)
Lemma extraction_failures_witness :
  (_call_gemini_and_parse_json Json.loads "no braces here"
   = extraction_error "JSON extraction/parsing failed"
       "No valid JSON object found in Gemini's response. Raw: no braces here"
       "no braces here" /\
   analyze_financial_data Json.loads "no braces here"
   = PDict [("status", PStr "error");
            ("message", PStr "Gemini returned invalid JSON for analysis.");
            ("details", PStr "no braces here")]) /\
  (_call_gemini_and_parse_json Json.loads broken_text
   = extraction_error "Invalid JSON from Gemini" broken_message broken_text /\
   analyze_financial_data Json.loads broken_text
   = extraction_error "Invalid JSON from Gemini for analysis" broken_message
       broken_text).
Proof.
  split.
  - apply (proj1 (extraction_failures Json.loads "no braces here")).
    apply no_span_of_search. vm_compute. reflexivity.
  - destruct (search_is_first_span broken_text (mk_match 13 broken_span None))
      as (pre & post & Hfirst); [vm_compute; reflexivity|].
    apply (proj2 (extraction_failures Json.loads broken_text)
             pre broken_span post broken_message Hfirst).
    vm_compute. reflexivity.
Defined.

(** C7 as stated fails: the inner text decodes, the expected key is absent
    from the object, and the fetcher returns [login_required], not
    [no_data]. *)
Lemma absent_field_of_login_object :
  answers login_at_bank "fetch_bank_transactions" (mcp_args user) login_text /\
  Json.loads login_text
  = Decoded (PDict [("status", PStr "login_required");
                    ("login_url", login_url_value)]) /\
  expected_key "fetch_bank_transactions" = Some "bankTransactions" /\
  dict_get "bankTransactions"
    [("status", PStr "login_required"); ("login_url", login_url_value)] = None /\
  fetched Json.loads login_at_bank "fetch_bank_transactions" (mcp_args user)
  = Ret (login_required login_url_value) /\
  login_required login_url_value <> no_data "fetch_bank_transactions".
Proof.
  split; [run_answers|].
  repeat split; try (vm_compute; reflexivity). discriminate.
Qed.

(** The net worth is returned as it is under its key. *)
Lemma expected_field_or_no_data_witness :
  fetched Json.loads (serve healthy) "fetch_net_worth" (mcp_args user)
  = Ret (PDict [("salary", PInt 150000); ("assets", PInt 500000)]).
Proof.
  refine (expected_field_or_no_data Json.loads (serve healthy)
            "fetch_net_worth" (mcp_args user) net_worth_text
            [("netWorth", PDict [("salary", PInt 150000);
                                 ("assets", PInt 500000)])] _ _ _).
  - run_answers.
  - vm_compute. reflexivity.
  - reflexivity.
Defined.

(** C8 as stated fails: the inner text does not decode and holds both
    markers, the pattern matches nowhere in it, and the URL returned is the
    fixed one, not one taken from the text. *)
Lemma unquoted_url_gets_fallback :
  answers unquoted_login "fetch_bank_transactions" (mcp_args user)
    unquoted_login_text /\
  (exists msg, Json.loads unquoted_login_text = Undecodable msg) /\
  has_markers unquoted_login_text = true /\
  re_search login_url_pattern unquoted_login_text = None /\
  fetched Json.loads unquoted_login "fetch_bank_transactions" (mcp_args user)
  = Ret (login_required (PStr fallback_login_url)) /\
  contains fallback_login_url unquoted_login_text = false.
Proof.
  split; [run_answers|].
  split; [eexists; vm_compute; reflexivity|].
  repeat split; vm_compute; reflexivity.
Qed.

(** A login answer that ends with a comma does not decode and its URL is
    captured by the pattern; a well-formed one gives its [login_url]. *)
Lemma login_required_detected_witness :
  fetched Json.loads trailing_comma_login "fetch_bank_transactions"
    (mcp_args user) = Ret (login_required login_url_value) /\
  fetched Json.loads login_at_bank "fetch_bank_transactions" (mcp_args user)
  = Ret (login_required login_url_value).
Proof.
  split.
  - refine (proj1 (login_required_detected Json.loads trailing_comma_login
                     "fetch_bank_transactions" (mcp_args user)
                     trailing_comma_login_text _)
              (Json.errmsg "Expecting property name enclosed in double quotes"
                 trailing_comma_login_text 72)
              _).
    + run_answers.
    + vm_compute. reflexivity.
  - refine (proj2 (login_required_detected Json.loads login_at_bank
                     "fetch_bank_transactions" (mcp_args user) login_text _)
              [("status", PStr "login_required"); ("login_url", login_url_value)]
              login_url_value _ _ _ _).
    + run_answers.
    + vm_compute. reflexivity.
    + reflexivity.
    + reflexivity.
    + reflexivity.
Defined.

(** C9. The fetcher never raises, whatever the remote service does; the
    aggregator does: on a net worth that is an object with an [error] key
    and no [message], and on a net worth that is a list, it raises
    [KeyError] and [AttributeError]; and the result for a missing user id has
    no [status] entry. *)
Theorem aggregator_raises :
  (forall json_loads requests_post tool_name arguments log,
      exists v,
        fetch_data_from_mcp json_loads requests_post tool_name arguments log
        = (Ret v, (log ++ [mcp_request tool_name arguments])%list)) /\
  fst (get_full_financial_context_from_mcp_shared Json.loads net_worth_error
         user) = Raise (KeyError "message") /\
  fst (get_full_financial_context_from_mcp_shared Json.loads net_worth_list
         user)
  = Raise (AttributeError "'list' object has no attribute 'get'") /\
  fst (get_full_financial_context_from_mcp_shared Json.loads (serve healthy)
         PNone) = Ret missing_user_id /\
  py_in "status" missing_user_id = Ret false.
Proof.
  split.
  - intros. eexists. apply fetch_data_from_mcp_eq.
  - repeat split; vm_compute; reflexivity.
Qed.

(** C10 as stated fails: the credit report is an object with an [error] key
    and no [message]; the aggregator raises [KeyError] instead of returning
    status [error]. *)
Lemma error_key_without_message_raises :
  succeeds_with Json.loads silent_credit_report "fetch_credit_report"
    (mcp_args user) (PDict [("error", PStr "frozen")]) /\
  fst (get_full_financial_context_from_mcp_shared Json.loads
         silent_credit_report user) = Raise (KeyError "message").
Proof.
  split; [run_succeeds | vm_compute; reflexivity].
Qed.

(** The hypotheses of C10 (amended) hold for a credit report with an
    [error] and a [message]. *)
Lemma error_key_payload_is_failure_witness :
  exists m,
    dict_get "message"
      [("error", PStr "frozen"); ("message", PStr "Report frozen by user")]
    = Some (PStr m) /\
    (forall rest fetched_data errors log,
        fetch_loop Json.loads frozen_credit_report
          (("fetch_credit_report", "credit_rpt") :: rest)
          (mcp_args user) fetched_data errors log =
        fetch_loop Json.loads frozen_credit_report rest (mcp_args user)
          (dict_set "credit_rpt" (default_value "credit_rpt") fetched_data)
          (errors ++ [PStr m])%list
          (log ++ [mcp_request "fetch_credit_report" (mcp_args user)])%list) /\
    exists r log,
      get_full_financial_context_from_mcp_shared Json.loads
        frozen_credit_report user = (Ret r, log) /\
      status_is r "error".
Proof.
  refine (error_key_payload_is_failure Json.loads frozen_credit_report user
            "fetch_credit_report" "credit_rpt"
            [("error", PStr "frozen"); ("message", PStr "Report frozen by user")]
            _ _ _ _ _ _).
  - reflexivity.
  - cbn. tauto.
  - run_succeeds.
  - reflexivity.
  - reflexivity.
  - each_tool; intros Hf; vm_compute in Hf; try discriminate;
      eexists; vm_compute; reflexivity.
Defined.

(** * Further properties of the fetcher *)

Lemma failure_is_truthy (v : value) : is_failure v = true -> truthy v = true.
Proof.
  intros H. destruct (failure_parts _ H) as (d & kind & -> & Hk).
  destruct d; [discriminate | reflexivity].
Qed.

Section FetcherCases.
Variable json_loads : string -> decoded.
Variable requests_post : request -> result response.

(** A value returned by the [try] block is [empty_response] or comes from
    an envelope that carries an inner text. *)
Lemma fetch_try_ret tool_name posted v :
  fetch_try json_loads tool_name posted = Ret v ->
  v = empty_response tool_name \/
  exists resp raw_str,
    posted = Ret resp /\ carries resp raw_str /\
    fetch_inner json_loads tool_name raw_str = Ret v.
Proof.
  unfold fetch_try. intros H.
  destruct posted as [resp|e]; [|discriminate]. cbn [bind] in H.
  destruct (raise_for_status resp) as [[]|e] eqn:Hs; [|discriminate].
  cbn [bind] in H.
  destruct (resp_json resp) as [envelope|e] eqn:Hj; [|discriminate].
  cbn [bind] in H.
  assert (Hgoal : forall raw_str,
             inner_text envelope = Some raw_str ->
             fetch_inner json_loads tool_name raw_str = Ret v ->
             v = empty_response tool_name \/
             exists resp0 raw_str0,
               Ret resp = Ret resp0 /\ carries resp0 raw_str0 /\
               fetch_inner json_loads tool_name raw_str0 = Ret v).
  { intros raw_str Ht Hi. right. exists resp, raw_str.
    split; [reflexivity|]. split; [|exact Hi].
    split; [exact Hs|]. now exists envelope. }
  unfold and_then, inner_text in *.
  destruct envelope as [| | | |s|l|e]; cbn in H; try discriminate.
  - destruct (contains "result" s); cbn in H; [discriminate|].
    left. congruence.
  - destruct (existsb _ l); cbn in H; [discriminate|]. left. congruence.
  - unfold dict_has in H.
    destruct (dict_get "result" e) as [r|] eqn:Hr; cbn in H;
      [|left; congruence].
    destruct r as [| | | |s|l|r]; cbn in H; try discriminate.
    + destruct (contains "content" s); cbn in H; [discriminate|].
      left. congruence.
    + destruct (existsb _ l); cbn in H; [discriminate|]. left. congruence.
    + unfold dict_has in H.
      destruct (dict_get "content" r) as [c|] eqn:Hc; cbn in H;
        [|left; congruence].
      destruct c as [| | | | |l|]; cbn in H; try (left; congruence).
      destruct l as [|first tl]; cbn in H; [left; congruence|].
      destruct first as [| | | |s|l|f]; cbn in H; try discriminate.
      * destruct (contains "text" s); cbn in H; [discriminate|].
        left. congruence.
      * destruct (existsb _ l); cbn in H; [discriminate|]. left. congruence.
      * unfold dict_has in H.
        destruct (dict_get "text" f) as [raw_str|] eqn:Ht; cbn in H;
          [|left; congruence].
        now apply (Hgoal raw_str).
Qed.

Lemma fetch_inner_ret tool_name raw_str v :
  fetch_inner json_loads tool_name raw_str = Ret v ->
  is_failure v = true \/
  exists raw parsed,
    raw_str = PStr raw /\
    json_loads raw = Decoded (PDict parsed) /\
    declares_login parsed = false /\
    v = field_or_no_data tool_name parsed.
Proof.
  intros H.
  destruct raw_str as [| | | |raw| |]; try discriminate.
  destruct (json_loads raw) as [parsed|msg] eqn:Hj.
  - destruct parsed as [| | | | | |parsed];
      try (unfold fetch_inner in H; rewrite Hj in H; discriminate).
    rewrite (fetch_inner_decoded _ _ _ _ Hj) in H.
    destruct (declares_login parsed) eqn:Hl.
    + destruct (dict_get "login_url" parsed); [|discriminate].
      injection H as <-. now left.
    + injection H as <-. right. now exists raw, parsed.
  - rewrite (fetch_inner_undecodable _ _ _ _ Hj) in H. injection H as <-.
    left. now destruct (has_markers raw).
Qed.

Lemma field_or_no_data_cases tool_name parsed :
  is_failure (field_or_no_data tool_name parsed) = true \/
  truthy (field_or_no_data tool_name parsed) = true /\
  match expected_key tool_name with
  | Some key => dict_get key parsed = Some (field_or_no_data tool_name parsed)
  | None => field_or_no_data tool_name parsed = PDict parsed
  end.
Proof.
  unfold field_or_no_data.
  destruct (expected_key tool_name) as [key|].
  - destruct (dict_get key parsed) as [v|]; [|now left].
    destruct (truthy v) eqn:Ht; [now right | now left].
  - destruct (truthy (PDict parsed)) eqn:Ht; [now right | now left].
Qed.

(** The value of the fetcher: what each handler returns. *)
Lemma outcome_cases tool_name arguments :
  let v := outcome json_loads requests_post tool_name arguments in
  is_failure v = true \/
  exists resp raw parsed,
    requests_post (mcp_request tool_name arguments) = Ret resp /\
    carries resp (PStr raw) /\
    json_loads raw = Decoded (PDict parsed) /\
    declares_login parsed = false /\
    v = field_or_no_data tool_name parsed.
Proof.
  unfold outcome, fetched, fetch_data_from_mcp. cbn [fst].
  destruct (fetch_try json_loads tool_name _) as [v|e] eqn:Ht.
  - destruct (fetch_try_ret _ _ _ Ht) as [->|(resp & raw_str & Hp & Hc & Hi)];
      [now left|].
    destruct (fetch_inner_ret _ _ _ Hi)
      as [Hf|(raw & parsed & -> & Hj & Hl & ->)]; [now left|].
    right. now exists resp, raw, parsed.
  - left. destruct e; reflexivity.
Qed.

(** A value that is not an error dictionary was found under the expected
    key of a decoded object that declares no login. *)
Lemma outcome_payload tool_name arguments key :
  expected_key tool_name = Some key ->
  is_failure (outcome json_loads requests_post tool_name arguments) = false ->
  succeeds_with json_loads requests_post tool_name arguments
    (outcome json_loads requests_post tool_name arguments).
Proof.
  intros Hk Hnf.
  pose proof (outcome_cases tool_name arguments) as H. cbv zeta in H.
  destruct H as [Hf|(resp & raw & parsed & Hp & Hc & Hj & Hl & Hv)];
    [congruence|].
  rewrite Hv in *.
  destruct (field_or_no_data_cases tool_name parsed) as [Hf|[Ht Hg]];
    [congruence|].
  rewrite Hk in Hg.
  exists raw, parsed, key.
  split; [now exists resp|]. auto.
Qed.

(** X2. The fetcher never returns an empty value, and for a tool of the
    table a value that is not an error dictionary is a payload fetched with
    success: a true value found under the expected key of a decoded object
    that declares no login. *)
Theorem fetcher_returns_failure_or_payload tool_name arguments :
  let v := outcome json_loads requests_post tool_name arguments in
  fetched json_loads requests_post tool_name arguments = Ret v /\
  truthy v = true /\
  (forall key,
      expected_key tool_name = Some key ->
      is_failure v = false ->
      succeeds_with json_loads requests_post tool_name arguments v).
Proof.
  cbv zeta. split; [apply fetched_eq|].
  pose proof (outcome_cases tool_name arguments) as H. cbv zeta in H.
  split.
  - destruct H as [Hf|(resp & raw & parsed & _ & _ & _ & _ & ->)];
      [now apply failure_is_truthy|].
    destruct (field_or_no_data_cases tool_name parsed) as [Hf|[Ht _]];
      [now apply failure_is_truthy | exact Ht].
  - intros key Hk Hnf. now apply (outcome_payload _ _ key).
Qed.

(** X3. An inner text that decodes to something else than an object (a
    list, a number, a string, [null]) is reported as [unexpected_error]:
    [parsed_data.get] raises and the last handler catches it. *)
Theorem non_object_is_unexpected tool_name arguments raw parsed :
  answers requests_post tool_name arguments raw ->
  json_loads raw = Decoded parsed ->
  (forall d, parsed <> PDict d) ->
  fetched json_loads requests_post tool_name arguments = Ret unexpected_error.
Proof.
  intros Ha Hj Hn.
  rewrite fetched_eq, (outcome_answers _ _ _ _ _ Ha).
  unfold fetch_inner. rewrite Hj.
  destruct parsed as [| | | | | |d]; try reflexivity.
  now destruct (Hn d).
Qed.

(** X4. A response with a status from 400 to 599 is reported as
    [http_error] with the status and the text of the body; the body is not
    decoded, whatever it holds. *)
Theorem http_status_comes_first tool_name arguments resp :
  requests_post (mcp_request tool_name arguments) = Ret resp ->
  (400 <= resp_status_code resp < 600)%Z ->
  fetched json_loads requests_post tool_name arguments
  = Ret (http_error (resp_status_code resp) (resp_text resp)).
Proof.
  intros Hp [Hlo Hhi].
  unfold fetched, fetch_data_from_mcp, fetch_try, raise_for_status. cbn [fst].
  rewrite Hp. cbn [bind].
  apply Z.leb_le in Hlo. apply Z.ltb_lt in Hhi. rewrite Hlo, Hhi.
  reflexivity.
Qed.

End FetcherCases.

(** * Further properties of the aggregator *)

Lemma tool_names_distinct : NoDup (map fst tools_to_fetch).
Proof.
  unfold tools_to_fetch. cbn [map fst].
  repeat (constructor; [cbn; intuition discriminate|]). constructor.
Qed.

Lemma NoDup_firstn {A} (n : nat) (l : list A) : NoDup l -> NoDup (firstn n l).
Proof.
  revert n. induction l as [|x l IH]; intros n H.
  - destruct n; constructor.
  - destruct n; [constructor|]. cbn [firstn].
    inversion H as [|? ? Hx Hl]; subst. constructor; [|now apply IH].
    intros Hin. apply Hx. revert Hin. clear.
    revert n. induction l as [|y l IH]; intros n Hin.
    + destruct n; destruct Hin.
    + destruct n; [destruct Hin|]. cbn in Hin.
      destruct Hin as [<-|Hin]; [now left | right; eauto].
Qed.

Section AggregatorCases.
Variable json_loads : string -> decoded.
Variable requests_post : request -> result response.

Lemma requests_for_NoDup (n : nat) (arguments : value) :
  NoDup (requests_for (firstn n tools_to_fetch) arguments).
Proof.
  unfold requests_for.
  rewrite <- (map_map fst (fun name => mcp_request name arguments)).
  apply Injective_map_NoDup.
  - intros t t' H. now apply mcp_request_inj in H.
  - rewrite <- firstn_map. apply NoDup_firstn, tool_names_distinct.
Qed.

(** X1. Whatever the remote service answers, the requests of one call of
    the aggregator are those of the first tools of the fixed order, one
    each, for the user id given: never more than six, none out of order and
    none sent twice. *)
Theorem requests_are_a_prefix user_id :
  let log := snd (get_full_financial_context_from_mcp_shared json_loads
                    requests_post user_id) in
  exists n,
    n <= 6 /\
    log = requests_for (firstn n tools_to_fetch) (mcp_args user_id) /\
    List.length log = n /\
    NoDup log /\
    (truthy user_id = false -> n = 0).
Proof.
  cbv zeta.
  destruct (truthy user_id) eqn:Hu.
  - rewrite get_full_log by assumption.
    destruct (fetch_loop _ _ _ _ _ _ _) as [res log] eqn:Hloop.
    destruct (fetch_loop_login _ _ _ _ _ _ _ _ _ Hloop) as (n & Hn & Hlog & _).
    cbn [snd app] in *. subst log. exists n.
    split; [exact Hn|]. split; [reflexivity|].
    split; [|split; [apply requests_for_NoDup | discriminate]].
    unfold requests_for. rewrite length_map, length_firstn.
    cbn [List.length tools_to_fetch] in *. lia.
  - unfold get_full_financial_context_from_mcp_shared. rewrite Hu.
    exists 0. cbn. repeat split; try lia. constructor.
Qed.

(** The loop run to its end: the log, the context stored, and no message
    added only if no outcome is a failure. *)
Lemma fetch_loop_completed_inv arguments (tools : list (string * string)) :
  forall fetched_data errors log fetched_data' errors' log',
    fetch_loop json_loads requests_post tools arguments fetched_data errors log
    = (Ret (Completed fetched_data' errors'), log') ->
    log' = (log ++ requests_for tools arguments)%list /\
    fetched_data' = stored json_loads requests_post tools arguments fetched_data /\
    List.length errors <= List.length errors' /\
    (List.length errors' = List.length errors ->
     forall tool_name context_key,
       In (tool_name, context_key) tools ->
       is_failure (outcome json_loads requests_post tool_name arguments) = false).
Proof.
  induction tools as [|[t k] rest IH]; intros fd errs log fd' errs' log' H.
  - cbn in H. injection H as <- <- <-.
    rewrite app_nil_r. repeat split; [lia | intros _ ? ? []].
  - rewrite fetch_loop_cons in H. cbv zeta in H.
    cbn [stored requests_for map fst].
    destruct (is_failure (outcome json_loads requests_post t arguments)) eqn:Hf.
    + destruct (py_getitem _ "message") as [m|]; [|discriminate].
      destruct (py_getitem _ "error") as [kind|]; [|discriminate].
      destruct (eq_str kind "login_required").
      { destruct (py_get _ "login_url" PNone); discriminate. }
      destruct (IH _ _ _ _ _ _ H) as (Hlog & Hfd & Hlen & _).
      rewrite length_app in Hlen. cbn in Hlen.
      split; [rewrite Hlog; now rewrite <- app_assoc|].
      split; [exact Hfd|]. split; [lia|]. intros Heq. lia.
    + destruct (IH _ _ _ _ _ _ H) as (Hlog & Hfd & Hlen & Hall).
      split; [rewrite Hlog; now rewrite <- app_assoc|].
      split; [exact Hfd|]. split; [exact Hlen|].
      intros Heq tn ck [[= <- <-]|Hin]; [exact Hf | now apply (Hall Heq tn ck)].
Qed.

(** X5. A result with status [success] is returned only after all six
    requests, when every fetch succeeded with a payload that is not an error
    dictionary; it holds these payloads under their context keys, then the
    salary of the net worth (0 when it has none) and the status. *)
Theorem success_means_all_fetched user_id r log :
  get_full_financial_context_from_mcp_shared json_loads requests_post user_id
    = (Ret r, log) ->
  status_is r "success" ->
  let got := fun tool_name =>
    outcome json_loads requests_post tool_name (mcp_args user_id) in
  truthy user_id = true /\
  log = requests_for tools_to_fetch (mcp_args user_id) /\
  (forall tool_name context_key,
      In (tool_name, context_key) tools_to_fetch ->
      is_failure (got tool_name) = false /\
      succeeds_with json_loads requests_post tool_name (mcp_args user_id)
        (got tool_name)) /\
  exists nw,
    got "fetch_net_worth" = PDict nw /\
    r = PDict
          [ ("bank_txns", got "fetch_bank_transactions");
            ("credit_rpt", got "fetch_credit_report");
            ("epf", got "fetch_epf_details");
            ("mf_txns", got "fetch_mf_transactions");
            ("net_worth", got "fetch_net_worth");
            ("stocks", got "fetch_stock_transactions");
            ("salary", match dict_get "salary" nw with
                       | Some salary => salary
                       | None => PInt 0
                       end);
            ("status", PStr "success") ].
Proof.
  intros H (d & -> & Hs). cbv zeta.
  unfold get_full_financial_context_from_mcp_shared in H.
  destruct (truthy user_id) eqn:Hu; cbn [negb] in H.
  2:{ unfold missing_user_id in H. inversion H; subst. discriminate. }
  fold (mcp_args user_id) in H.
  destruct (fetch_loop _ _ _ _ _ _ _) as [[[v|fd [|e errs]]|e] log0] eqn:Hl.
  - apply fetch_loop_returned in Hl as [url ->]. unfold login_result in H.
    injection H as <- _. discriminate.
  - destruct (fetch_loop_completed_inv _ _ _ _ _ _ _ _ Hl)
      as (Hlog & Hfd & _ & Hall).
    specialize (Hall eq_refl).
    unfold tools_to_fetch in Hfd. cbn [stored] in Hfd.
    rewrite (Hall "fetch_bank_transactions" "bank_txns") in Hfd by (cbn; tauto).
    rewrite (Hall "fetch_credit_report" "credit_rpt") in Hfd by (cbn; tauto).
    rewrite (Hall "fetch_epf_details" "epf") in Hfd by (cbn; tauto).
    rewrite (Hall "fetch_mf_transactions" "mf_txns") in Hfd by (cbn; tauto).
    rewrite (Hall "fetch_net_worth" "net_worth") in Hfd by (cbn; tauto).
    rewrite (Hall "fetch_stock_transactions" "stocks") in Hfd by (cbn; tauto).
    cbn [dict_set String.eqb Ascii.eqb Bool.eqb] in Hfd. subst fd.
    cbn [py_get dict_get String.eqb Ascii.eqb Bool.eqb bind] in H.
    destruct (outcome json_loads requests_post "fetch_net_worth"
                (mcp_args user_id)) as [| | | | | |nw] eqn:Hnw;
      try discriminate.
    cbn [py_get bind] in H.
    split; [reflexivity|]. split; [now injection H as _ <-|].
    split.
    + intros tn ck Hin. split; [exact (Hall tn ck Hin)|].
      assert (Hk : exists key, expected_key tn = Some key).
      { cbn in Hin.
        repeat destruct Hin as [[= <- <-]|Hin]; try (eexists; reflexivity).
        destruct Hin. }
      destruct Hk as [key Hk].
      exact (outcome_payload json_loads requests_post tn (mcp_args user_id)
               key Hk (Hall tn ck Hin)).
    + exists nw. split; [reflexivity|].
      destruct (dict_get "salary" nw); injection H as <- _; reflexivity.
  - destruct (join_values "; " (e :: errs)) as [joined|]; [|discriminate].
    cbn [bind] in H. unfold fetch_errors in H. inversion H; subst.
    discriminate.
  - discriminate.
Qed.

(** X6. With a text message on every failure and a net worth that is a
    dictionary, the aggregator raises nothing: for a user id that is not
    empty it returns a dictionary whose status is [error] or [success]. *)
Theorem aggregator_returns_status user_id nw :
  truthy user_id = true ->
  text_messages json_loads requests_post tools_to_fetch (mcp_args user_id) ->
  outcome json_loads requests_post "fetch_net_worth" (mcp_args user_id)
    = PDict nw ->
  exists r log,
    get_full_financial_context_from_mcp_shared json_loads requests_post user_id
      = (Ret r, log) /\
    (status_is r "error" \/ status_is r "success").
Proof.
  intros Hu Htm Hnw.
  unfold get_full_financial_context_from_mcp_shared.
  rewrite Hu. cbn [negb]. fold (mcp_args user_id).
  destruct (fetch_loop_no_raise _ _ _ _ Htm [] [] [])
    as (ex & log & Heq & [(url & ->)|(fd & msgs & -> & _)]);
    cbn [map] in Heq; rewrite Heq.
  - do 2 eexists. split; [reflexivity|]. left. eexists. split; reflexivity.
  - destruct msgs as [|m ms].
    + destruct (fetch_loop_completed_inv _ _ _ _ _ _ _ _ Heq) as (_ & Hfd & _).
      assert (Hg : exists d, dict_get "net_worth" fd = Some (PDict d)).
      { rewrite Hfd. unfold tools_to_fetch. cbn [stored]. rewrite Hnw.
        cbn [dict_set dict_get String.eqb Ascii.eqb Bool.eqb].
        destruct (is_failure (PDict nw)); eexists; reflexivity. }
      destruct Hg as [d Hg]. cbn [map py_get]. rewrite Hg. cbn [py_get bind].
      destruct (dict_get "salary" d); cbn [bind];
        do 2 eexists; (split; [reflexivity|]); right;
        eexists; (split; [reflexivity|]); apply dict_get_set_same.
    + change (map PStr (m :: ms)) with (PStr m :: map PStr ms).
      cbv iota beta.
      change (PStr m :: map PStr ms) with (map PStr (m :: ms)).
      rewrite join_values_map. cbn [bind].
      do 2 eexists. split; [reflexivity|]. left. eexists. split; reflexivity.
Qed.

End AggregatorCases.

(** * Further properties of the extractor *)

Lemma flat_no_lbrace (s : string) : flat s = true -> no_lbrace s = true.
Proof.
  induction s as [|c s IH]; cbn; [reflexivity|]. intros H.
  apply andb_prop in H as [Hc Hs]. rewrite (IH Hs).
  destruct (brace_cases c) as [(Hr & Hn & Hl) | [(Hl & Hn & Hr) | (Hn & Hl & Hr)]];
    try congruence.
  now rewrite Hl.
Qed.

Lemma body1_flat (s : string) : flat s = true -> body1 s.
Proof.
  induction s as [|c s IH]; cbn; intros H; [constructor|].
  apply andb_prop in H as [Hc Hs]. constructor; auto.
Qed.

Lemma body1_flat_app (a b : string) : flat a = true -> body1 b -> body1 (a ++ b).
Proof.
  induction a as [|c a IH]; cbn; intros H Hb; [exact Hb|].
  apply andb_prop in H as [Hc Ha]. constructor; auto.
Qed.

Lemma flat_then_open (nested : bool) (a t : string) :
  flat a = true ->
  span_end nested (a ++ String lbrace t) =
  if nested then None else span_end true t.
Proof.
  induction a as [|c a IH]; cbn [append flat span_end]; intros H.
  - change (Ascii.eqb lbrace rbrace) with false.
    change (Ascii.eqb lbrace lbrace) with true. reflexivity.
  - apply andb_prop in H as [Hc Ha].
    destruct (brace_cases c) as [(Hr & Hn & Hl) | [(Hl & Hn & Hr) | (Hn & Hl & Hr)]];
      try congruence.
    rewrite Hr, Hl. now apply IH.
Qed.

(** The search goes over a text with no opening brace. *)
Lemma search_from_skip (pre t : string) : forall pos,
  no_lbrace pre = true ->
  re_search_from brace_pattern pos (pre ++ t) =
  re_search_from brace_pattern (pos + String.length pre) t.
Proof.
  induction pre as [|c pre IH]; intros pos H.
  - cbn. now rewrite Nat.add_0_r.
  - cbn [no_lbrace] in H. apply andb_prop in H as [Hc Hp].
    cbn [append String.length].
    rewrite re_search_from_eq, rmatch_brace_pattern. cbn [match_at].
    destruct (Ascii.eqb c lbrace); [discriminate|].
    rewrite IH by assumption. f_equal. lia.
Qed.

Lemma search_from_span (span rest : string) (pos : nat) :
  balanced1 span ->
  re_search_from brace_pattern pos (span ++ rest)
  = Some (mk_match pos span None).
Proof.
  intros Hb.
  assert (Hm : match_at (span ++ rest) = Some rest)
    by (apply match_at_balanced; eauto).
  rewrite re_search_from_eq, rmatch_brace_pattern, Hm.
  now rewrite substring_prefix.
Qed.

Section ExtractorCases.
Variable json_loads : string -> decoded.

(** X7. When no opening brace comes before a balanced span, the search
    returns that span whatever follows it, and both extractors return the
    object the span decodes to. *)
Theorem object_after_braceless_text pre span post :
  no_lbrace pre = true ->
  balanced1 span ->
  re_search brace_pattern (pre ++ span ++ post)
  = Some (mk_match (String.length pre) span None) /\
  forall obj,
    json_loads span = Decoded obj ->
    _call_gemini_and_parse_json json_loads (pre ++ span ++ post)
    = PDict [("status", PStr "success"); ("data", obj)] /\
    forall d, obj = PDict d ->
      analyze_financial_data json_loads (pre ++ span ++ post)
      = PDict (dict_set "status" (PStr "success") d).
Proof.
  intros Hp Hb.
  assert (Hm : re_search brace_pattern (pre ++ span ++ post)
               = Some (mk_match (String.length pre) span None)).
  { unfold re_search. rewrite search_from_skip by assumption.
    now apply search_from_span. }
  split; [exact Hm|]. intros obj Hj.
  unfold _call_gemini_and_parse_json, analyze_financial_data,
    parse_first_object.
  rewrite Hm. cbn [group0]. rewrite Hj. split; [reflexivity|].
  now intros d ->.
Qed.

(** X8. An object nested in an object nested in an object is not returned
    whole: with no other brace in the text between the braces, the span the
    search returns is the middle object, which starts after the first
    opening brace. *)
Theorem middle_object_is_extracted a b c d rest :
  flat a = true -> flat b = true -> flat c = true -> flat d = true ->
  re_search brace_pattern (three_levels a b c d rest)
  = Some (mk_match (S (String.length a)) (middle_object b c d) None) /\
  forall obj,
    json_loads (middle_object b c d) = Decoded obj ->
    _call_gemini_and_parse_json json_loads (three_levels a b c d rest)
    = PDict [("status", PStr "success"); ("data", obj)].
Proof.
  intros Ha Hb Hc Hd.
  assert (Hm : re_search brace_pattern (three_levels a b c d rest)
               = Some (mk_match (S (String.length a)) (middle_object b c d)
                         None));
    [|split; [exact Hm|]; intros obj Hj;
      unfold _call_gemini_and_parse_json, parse_first_object;
      rewrite Hm; cbn [group0]; now rewrite Hj].
  unfold re_search, three_levels.
  rewrite re_search_from_eq, rmatch_brace_pattern. cbn [match_at].
  change (Ascii.eqb lbrace lbrace) with true. cbv iota.
  rewrite (flat_then_open false) by assumption.
  rewrite (flat_then_open true) by assumption.
  rewrite search_from_skip by now apply flat_no_lbrace.
  assert (Hs : String lbrace (b ++ String lbrace
                 (c ++ String rbrace (d ++ String rbrace rest)))
               = middle_object b c d ++ rest).
  { unfold middle_object. cbn [append].
    rewrite !append_assoc. cbn [append]. rewrite !append_assoc. cbn [append].
    rewrite !append_assoc. reflexivity. }
  rewrite Hs. apply search_from_span.
  exists (b ++ String lbrace (c ++ String rbrace d)). split.
  - unfold middle_object. rewrite !append_assoc. cbn [append].
    rewrite !append_assoc. reflexivity.
  - apply body1_flat_app; [assumption|].
    apply body_group; [assumption | now apply body1_flat].
Qed.

End ExtractorCases.

(** * Properties of the callers *)

(** The decoder [Json.loads] gives an object for a text that opens with a
    brace. *)
Lemma members_object (fuel : nat) : forall s pos acc v rest p,
  Json.members fuel s pos acc = Json.Ok v rest p -> exists d, v = PDict d.
Proof.
  induction fuel as [|fuel IH]; intros s pos acc v rest p H; [discriminate|].
  cbn [Json.members] in H.
  destruct (Json.scanstring s pos (pos - 1) EmptyString)
    as [key s1 p1| |]; try discriminate.
  destruct (Json.skip_ws s1 p1) as [s2 p2].
  destruct s2 as [|c2 s3]; [discriminate|].
  destruct c2 as [[] [] [] [] [] [] [] []]; try discriminate.
  destruct (Json.skip_ws s3 (S p2)) as [s4 p4].
  destruct (Json.expect_value (Json.scan_once fuel s4 p4))
    as [x s5 p5| |]; try discriminate.
  destruct (Json.skip_ws s5 p5) as [s6 p6].
  destruct s6 as [|c s7]; [discriminate|].
  destruct (Ascii.eqb c rbrace).
  - injection H as <- _ _. eauto.
  - destruct (Ascii.eqb c ","%char); [|discriminate].
    destruct (Json.skip_ws s7 (S p6)) as [s8 p8].
    destruct s8 as [|c8 s9]; [discriminate|].
    destruct (Ascii.eqb c8 dquote); [|discriminate].
    now apply IH in H.
Qed.

Lemma Json_loads_objects : decodes_objects Json.loads.
Proof.
  intros s v H. unfold Json.loads in H.
  change (Json.skip_ws (String lbrace s) 0) with (String lbrace s, 0) in H.
  cbv iota beta in H.
  cbn [Json.scan_once] in H.
  change (Ascii.eqb lbrace dquote) with false in H.
  change (Ascii.eqb lbrace lbrace) with true in H. cbv iota in H.
  destruct (Json.skip_ws s 1) as [s1 p1].
  assert (Hobj : forall r : Json.scan value,
             (forall x rest p, r = Json.Ok x rest p -> exists d, x = PDict d) ->
             match Json.expect_value r with
             | Json.Ok v0 rest p =>
                 let '(rest', p') := Json.skip_ws rest p in
                 match rest' with
                 | EmptyString => Decoded v0
                 | String _ _ =>
                     Undecodable (Json.errmsg "Extra data" (String lbrace s) p')
                 end
             | Json.Err m p => Undecodable (Json.errmsg m (String lbrace s) p)
             | Json.Stop p =>
                 Undecodable (Json.errmsg "Expecting value" (String lbrace s) p)
             end = Decoded v -> exists d, v = PDict d).
  { intros r Hr Hd. destruct r as [x rest p| |]; cbn in Hd; try discriminate.
    destruct (Json.skip_ws rest p) as [rest' p'].
    destruct rest'; [|discriminate]. injection Hd as <-. eauto. }
  destruct s1 as [|c1 s2]; [discriminate|].
  destruct (Ascii.eqb c1 rbrace).
  - revert H. apply Hobj. intros x rest p [= <- _ _]. eauto.
  - destruct (Ascii.eqb c1 dquote); [|discriminate].
    revert H. apply Hobj. intros x rest p Hm. now apply members_object in Hm.
Qed.

Lemma any_get_dict (d : dict) (keys : list string) :
  exists b, any_get (PDict d) keys = Ret b.
Proof.
  induction keys as [|k keys [b IH]]; cbn; [eauto|].
  destruct (dict_get k d) as [v|]; cbn.
  - destruct (truthy v); eauto.
  - eauto.
Qed.

Section Callers.
Variable json_loads : string -> decoded.
Variable requests_post : request -> result response.
Variable model_ready : bool.
Variable ask : value -> value -> result string.

(** The results of the aggregator. *)
Lemma get_full_results user_id r log :
  get_full_financial_context_from_mcp_shared json_loads requests_post user_id
    = (Ret r, log) ->
  r = missing_user_id \/
  (exists url, r = login_result url) \/
  (exists msg, r = fetch_errors msg) \/
  status_is r "success".
Proof.
  intros H.
  unfold get_full_financial_context_from_mcp_shared in H.
  destruct (truthy user_id); cbn [negb] in H.
  2:{ injection H as <- _. now left. }
  destruct (fetch_loop _ _ _ _ _ _ _) as [[[v|fd [|e errs]]|e] log0] eqn:Hl.
  - injection H as <- _. apply fetch_loop_returned in Hl. auto.
  - destruct (py_get (PDict fd) "net_worth" (PDict [])) as [nw|];
      [|discriminate]. cbn [bind] in H.
    destruct (py_get nw "salary" (PInt 0)) as [salary|]; [|discriminate].
    cbn [bind] in H. injection H as <- _.
    right. right. right. eexists. split; [reflexivity|].
    apply dict_get_set_same.
  - destruct (join_values "; " (e :: errs)) as [joined|]; [|discriminate].
    cbn [bind] in H. injection H as <- _. eauto.
  - discriminate.
Qed.

Lemma get_full_is_dict user_id r log :
  get_full_financial_context_from_mcp_shared json_loads requests_post user_id
    = (Ret r, log) ->
  exists d, r = PDict d.
Proof.
  intros H.
  destruct (get_full_results _ _ _ H)
    as [->|[(url & ->)|[(msg & ->)|(d & -> & _)]]]; eexists; reflexivity.
Qed.

(** The response of the parsing half: a success with the decoded span, or
    a dictionary with status [error]. *)
Lemma parsing_response raw :
  (exists m obj,
      re_search brace_pattern raw = Some m /\
      json_loads (group0 m) = Decoded obj /\
      _call_gemini_and_parse_json json_loads raw
      = PDict [("status", PStr "success"); ("data", obj)]) \/
  (exists d,
      _call_gemini_and_parse_json json_loads raw = PDict d /\
      dict_get "status" d = Some (PStr "error")).
Proof.
  unfold _call_gemini_and_parse_json, parse_first_object.
  destruct (re_search brace_pattern raw) as [m|] eqn:Hm.
  - destruct (json_loads (group0 m)) as [obj|msg] eqn:Hj.
    + left. now exists m, obj.
    + right. eexists. split; reflexivity.
  - right. eexists. split; reflexivity.
Qed.

Lemma found_span_opens raw m :
  re_search brace_pattern raw = Some m -> exists s, group0 m = String lbrace s.
Proof.
  intros Hm. pose proof (search_brace raw) as H. rewrite Hm in H.
  destruct H as (_ & _ & _ & _ & (b & -> & _) & _). eauto.
Qed.

Lemma api_call_failed_status message e :
  exists d,
    api_call_failed message e = PDict d /\
    dict_get "status" d = Some (PStr "error").
Proof.
  unfold api_call_failed.
  destruct (_ || _); eexists; split; reflexivity.
Qed.

(** What [home_loan_result] makes of an error response. *)
Lemma home_loan_result_error d :
  dict_get "status" d = Some (PStr "error") ->
  exists r, home_loan_result (PDict d) = Ret r /\ has_status r.
Proof.
  intros Hs. unfold home_loan_result. cbn [py_getitem py_get bind].
  rewrite Hs. cbn [bind eq_str String.eqb Ascii.eqb Bool.eqb].
  destruct (dict_get "message" d), (dict_get "details" d),
    (dict_get "gemini_response" d); cbn [bind];
    eexists; (split; [reflexivity|]); eexists; split; reflexivity.
Qed.

(** X9. When the decoder gives objects for texts that open with a brace,
    [analyze_home_loan_affordability] either returns a dictionary with a
    [status] entry or raises; and it raises only an exception of the
    aggregator, or [UnboundLocalError] when the call of the model raised
    [ValueError] or [JSONDecodeError], whose handlers read
    [raw_response_text] before it is assigned. *)
Theorem home_loan_status_or_raise user_id user_query :
  decodes_objects json_loads ->
  match fst (analyze_home_loan_affordability json_loads requests_post
               model_ready ask user_id user_query) with
  | Ret r => has_status r
  | Raise e =>
      fst (get_full_financial_context_from_mcp_shared json_loads requests_post
             user_id) = Raise e \/
      exists full_ctx msg,
        fst (get_full_financial_context_from_mcp_shared json_loads
               requests_post user_id) = Ret full_ctx /\
        model_ready = true /\
        (ask full_ctx user_query = Raise (ValueError msg) \/
         ask full_ctx user_query = Raise (JSONDecodeError msg)) /\
        e = UnboundLocalError "raw_response_text"
  end.
Proof.
  intros Hobj. unfold analyze_home_loan_affordability.
  destruct (get_full_financial_context_from_mcp_shared _ _ user_id)
    as [[full_ctx|e] log] eqn:Hg; cbn [fst]; [|now left].
  destruct (get_full_is_dict _ _ _ Hg) as [ctx ->].
  unfold home_loan_from_context.
  destruct (fetch_failed (PDict ctx)).
  { cbn [py_get bind].
    destruct (dict_get "message" ctx), (dict_get "details" ctx),
      (dict_get "login_url" ctx); cbn [bind]; eexists; split; reflexivity. }
  unfold sparse_context.
  destruct (any_get_dict ctx
              ["bank_txns"; "mf_holdings"; "credit_rpt"; "epf"; "stocks";
               "net_worth"]) as [some ->].
  cbn [bind py_get].
  assert (Hstep :
    match (response <- _call_gemini_and_parse_json_whole json_loads
                         model_ready (ask (PDict ctx) user_query) ;;
           home_loan_result response) with
    | Ret r => has_status r
    | Raise e =>
        Ret (PDict ctx) = Raise e \/
        exists full_ctx msg,
          Ret (PDict ctx) = Ret full_ctx /\ model_ready = true /\
          (ask full_ctx user_query = Raise (ValueError msg) \/
           ask full_ctx user_query = Raise (JSONDecodeError msg)) /\
          e = UnboundLocalError "raw_response_text"
    end).
  { unfold _call_gemini_and_parse_json_whole.
    destruct model_ready; cbn [negb bind].
    2:{ destruct (home_loan_result_error
                    [("status", PStr "error");
                     ("message", PStr "Vertex AI model not available.");
                     ("details",
                      PStr "Model object is None or configuration is missing.")]
                    eq_refl) as (r & Hr & Hs).
        unfold model_not_available. now rewrite Hr. }
    destruct (ask (PDict ctx) user_query) as [text|e] eqn:Ha; cbn [bind].
    - destruct (parsing_response (strip text))
        as [(m & obj & Hm & Hj & ->)|(d & -> & Hs)].
      + destruct (found_span_opens _ _ Hm) as [s Hs]. rewrite Hs in Hj.
        destruct (Hobj _ _ Hj) as [d ->].
        unfold home_loan_result.
        cbn [py_getitem py_get py_setitem dict_get String.eqb Ascii.eqb
             Bool.eqb bind eq_str].
        destruct (dict_get "status" d); cbn [bind];
          eexists; (split; [reflexivity|]); unfold dict_has;
          now rewrite dict_get_set_same.
      + destruct (home_loan_result_error d Hs) as (r & -> & Hr). exact Hr.
    - assert (Hgen : forall message,
                 match (response <- Ret (api_call_failed message e) ;;
                        home_loan_result response) with
                 | Ret r => has_status r
                 | Raise _ => False
                 end).
      { intros message. cbn [bind].
        destruct (api_call_failed_status message e) as (d & -> & Hs).
        destruct (home_loan_result_error d Hs) as (r & -> & Hr). exact Hr. }
      destruct e;
        try (specialize (Hgen "An unexpected error occurred during API call.");
             destruct (bind _ _); [exact Hgen | destruct Hgen]).
      + right. exists (PDict ctx), msg. auto.
      + right. exists (PDict ctx), msg. auto. }
  destruct some; cbn [bind]; [exact Hstep|].
  destruct (dict_get "salary" ctx); cbn [bind]; exact Hstep.
Qed.

Lemma sparse_context_dict (ctx : dict) :
  exists b, sparse_context (PDict ctx) = Ret b.
Proof.
  unfold sparse_context.
  destruct (any_get_dict ctx
              ["bank_txns"; "mf_holdings"; "credit_rpt"; "epf"; "stocks";
               "net_worth"]) as [some ->].
  cbn [bind]. destruct some; [eauto|].
  cbn [py_get]. destruct (dict_get "salary" ctx); cbn [bind]; eauto.
Qed.

(** A context that is not a failure and an answer with an object: the
    object is returned, with its status set. *)
Lemma home_loan_from_object ctx user_query text m obj :
  model_ready = true ->
  fetch_failed (PDict ctx) = false ->
  ask (PDict ctx) user_query = Ret text ->
  re_search brace_pattern (strip text) = Some m ->
  json_loads (group0 m) = Decoded (PDict obj) ->
  home_loan_from_context json_loads model_ready ask (PDict ctx) user_query
  = Ret (PDict (with_status obj)).
Proof.
  intros Hr Hff Ha Hm Hj. unfold home_loan_from_context. rewrite Hff.
  destruct (sparse_context_dict ctx) as [b ->]. cbn [bind].
  unfold _call_gemini_and_parse_json_whole. rewrite Hr, Ha. cbn [negb bind].
  unfold _call_gemini_and_parse_json, parse_first_object. rewrite Hm.
  cbv zeta. rewrite Hj. unfold home_loan_result, with_status, dict_get_or.
  cbn [py_getitem py_get dict_get bind eq_str String.eqb Ascii.eqb Bool.eqb].
  destruct (dict_get "status" obj); reflexivity.
Qed.

(** X10. An empty or absent user id does not stop
    [analyze_home_loan_affordability]: the dictionary returned by the
    aggregator has no [status] entry, so the model is asked with that
    dictionary as the context, and when its answer holds an object this
    object is returned with status [success] (or its own status), no
    request having been sent to the remote service. *)
Theorem home_loan_asks_model_without_user user_id user_query text m obj :
  truthy user_id = false ->
  model_ready = true ->
  ask missing_user_id user_query = Ret text ->
  re_search brace_pattern (strip text) = Some m ->
  json_loads (group0 m) = Decoded (PDict obj) ->
  analyze_home_loan_affordability json_loads requests_post model_ready ask
    user_id user_query
  = (Ret (PDict (with_status obj)), []).
Proof.
  intros Hu Hr Ha Hm Hj.
  unfold analyze_home_loan_affordability,
    get_full_financial_context_from_mcp_shared.
  rewrite Hu. cbn [negb]. unfold missing_user_id in *.
  erewrite home_loan_from_object; [reflexivity | exact Hr | reflexivity
                                  | exact Ha | exact Hm | exact Hj].
Qed.

(** X11. When the aggregator returns a context with status [error] (a login
    or fetch errors), the route [/analyze_home_loan] answers 500 with the
    message, the details and the login URL of the context and empty analysis
    fields: the model is not asked, and the 401 of the route is not
    returned, since the result has no [error] entry. *)
Theorem fetch_failure_is_answered_500 data user_id user_query ctx log :
  py_get data "user_id" PNone = Ret user_id ->
  py_get data "user_query" PNone = Ret user_query ->
  truthy user_id = true ->
  truthy user_query = true ->
  get_full_financial_context_from_mcp_shared json_loads requests_post user_id
    = (Ret (PDict ctx), log) ->
  dict_get "status" ctx = Some (PStr "error") ->
  analyze_home_loan_affordability json_loads requests_post model_ready ask
    user_id user_query = (Ret (fetch_failure_result ctx), log) /\
  analyze_home_loan_route json_loads requests_post model_ready ask true data
    = (Ret (fetch_failure_result ctx, 500%Z), log).
Proof.
  intros Hid Hq Hu Hqt Hg Hs.
  assert (Ha : analyze_home_loan_affordability json_loads requests_post
                 model_ready ask user_id user_query
               = (Ret (fetch_failure_result ctx), log)).
  { unfold analyze_home_loan_affordability. rewrite Hg.
    unfold home_loan_from_context, fetch_failed. rewrite Hs.
    cbn [eq_str String.eqb Ascii.eqb Bool.eqb py_get bind].
    unfold fetch_failure_result, dict_get_or.
    destruct (dict_get "message" ctx), (dict_get "details" ctx),
      (dict_get "login_url" ctx); reflexivity. }
  split; [exact Ha|].
  unfold analyze_home_loan_route. cbn [negb].
  rewrite Hid, Hq, Hu, Hqt, Ha. cbn [negb orb].
  reflexivity.
Qed.


End Callers.

(** * [strip] and the search *)

Lemma space_not_brace (c : ascii) : is_space c = true -> not_brace c = true.
Proof.
  intros H.
  destruct (brace_cases c) as [(Hr & _) | [(Hl & _) | (Hn & _)]];
    [| |exact Hn].
  - apply Ascii.eqb_eq in Hr. subst c. discriminate.
  - apply Ascii.eqb_eq in Hl. subst c. discriminate.
Qed.

(** What [lstrip] and [rstrip] remove is text free of braces. *)
Lemma lstrip_split (s : string) :
  exists ws, s = ws ++ lstrip s /\ flat ws = true.
Proof.
  induction s as [|c s (ws & Hs & Hf)]; [now exists EmptyString|].
  cbn [lstrip]. destruct (is_space c) eqn:Hc.
  - exists (String c ws). split.
    + cbn [append]. now rewrite <- Hs.
    + cbn [flat]. now rewrite Hf, (space_not_brace _ Hc).
  - now exists EmptyString.
Qed.

Lemma rstrip_split (s : string) :
  exists ws, s = rstrip s ++ ws /\ flat ws = true.
Proof.
  induction s as [|c s (ws & Hs & Hf)]; [now exists EmptyString|].
  cbn [rstrip]. destruct (rstrip s) as [|c' r] eqn:Hr.
  - destruct (is_space c) eqn:Hc.
    + exists (String c ws). cbn [append] in *. split.
      * congruence.
      * cbn [flat]. now rewrite Hf, (space_not_brace _ Hc).
    + exists ws. cbn [append] in *. split; [congruence | exact Hf].
  - exists ws. cbn [append] in *. split; [congruence | exact Hf].
Qed.

Lemma span_end_flat (nested : bool) (ws : string) :
  flat ws = true -> span_end nested ws = None.
Proof.
  induction ws as [|c ws IH]; cbn; intros H; [reflexivity|].
  apply andb_prop in H as [Hc Hw].
  destruct (brace_cases c) as [(Hr & Hn & Hl) | [(Hl & Hn & Hr) | (Hn & Hl & Hr)]];
    try congruence.
  rewrite Hr, Hl. auto.
Qed.

Lemma span_end_app_flat (ws : string) : flat ws = true ->
  forall (t : string) (nested : bool),
    span_end nested (t ++ ws) =
    match span_end nested t with
    | Some rest => Some (rest ++ ws)
    | None => None
    end.
Proof.
  intros Hw. induction t as [|c t IH]; intros nested.
  - cbn. now apply span_end_flat.
  - cbn [append span_end].
    destruct (Ascii.eqb c rbrace); [destruct nested; [apply IH | reflexivity]|].
    destruct (Ascii.eqb c lbrace); [destruct nested; [reflexivity | apply IH]|].
    apply IH.
Qed.

Lemma match_at_app_flat (ws t : string) : flat ws = true ->
  match_at (t ++ ws) =
  match match_at t with
  | Some rest => Some (rest ++ ws)
  | None => None
  end.
Proof.
  intros Hw. destruct t as [|c t].
  - cbn. destruct ws as [|c ws]; [reflexivity|]. cbn in *.
    apply andb_prop in Hw as [Hc Hw'].
    destruct (brace_cases c) as [(Hr & Hn & Hl) | [(Hl & Hn & Hr) | (Hn & Hl & Hr)]];
      try congruence.
    now rewrite Hl.
  - cbn [append match_at]. destruct (Ascii.eqb c lbrace); [|reflexivity].
    now apply span_end_app_flat.
Qed.

(** The span found does not depend on the position the search counts
    from, nor on text free of braces after or before the text. *)
Lemma found_span_pos (r : regex) (s : string) : forall pos pos',
  option_map group0 (re_search_from r pos s)
  = option_map group0 (re_search_from r pos' s).
Proof.
  induction s as [|c s IH]; intros pos pos'.
  - rewrite (re_search_from_eq r pos EmptyString),
      (re_search_from_eq r pos' EmptyString).
    destruct (rmatch r EmptyString None _) as [[rest g]|]; reflexivity.
  - rewrite (re_search_from_eq r pos (String c s)),
      (re_search_from_eq r pos' (String c s)).
    destruct (rmatch r (String c s) None _) as [[rest g]|]; [reflexivity|].
    apply IH.
Qed.

Lemma found_span_app_flat (ws : string) : flat ws = true ->
  forall (t : string) (pos : nat),
    option_map group0 (re_search_from brace_pattern pos (t ++ ws))
    = option_map group0 (re_search_from brace_pattern pos t).
Proof.
  intros Hw. induction t as [|c t IH]; intros pos.
  - cbn [append]. rewrite <- (append_nil_r ws) at 1.
    rewrite search_from_skip by now apply flat_no_lbrace. reflexivity.
  - rewrite (re_search_from_eq _ _ (String c t ++ ws)),
      (re_search_from_eq _ _ (String c t)), !rmatch_brace_pattern.
    rewrite match_at_app_flat by assumption.
    destruct (match_at (String c t)) as [rest|] eqn:Hm.
    + cbn [option_map group0].
      destruct (proj1 (match_at_balanced _ _) Hm) as (span & _ & Hs).
      rewrite Hs, append_assoc, !substring_prefix. reflexivity.
    + cbn [append]. apply IH.
Qed.

(** X13. The [strip] applied to the answer of the model before the search
    changes nothing to the span found, hence nothing to the object decoded:
    only text free of braces is removed. *)
Theorem strip_keeps_the_span (json_loads : string -> decoded) (text : string) :
  option_map group0 (re_search brace_pattern (strip text))
  = option_map group0 (re_search brace_pattern text) /\
  forall obj,
    parse_first_object json_loads (strip text) = Ret obj <->
    parse_first_object json_loads text = Ret obj.
Proof.
  assert (H : option_map group0 (re_search brace_pattern (strip text))
              = option_map group0 (re_search brace_pattern text)).
  { unfold strip, re_search.
    destruct (rstrip_split text) as (wr & Hr & Hfr).
    destruct (lstrip_split (rstrip text)) as (wl & Hl & Hfl).
    rewrite Hr at 2. rewrite found_span_app_flat by assumption.
    rewrite Hl at 2. rewrite search_from_skip by now apply flat_no_lbrace.
    apply found_span_pos. }
  split; [exact H|]. intros obj. unfold parse_first_object.
  destruct (re_search brace_pattern (strip text)) as [m|],
    (re_search brace_pattern text) as [m'|]; cbn in H; try discriminate.
  - injection H as ->. reflexivity.
  - split; discriminate.
Qed.

(** * The status codes of the routes *)

Lemma dict_get_set_other k k' v d :
  String.eqb k k' = false -> dict_get k (dict_set k' v d) = dict_get k d.
Proof.
  intros Hk. induction d as [|[k0 v0] d IH]; cbn [dict_set dict_get].
  - now rewrite Hk.
  - destruct (String.eqb k' k0) eqn:H0; cbn [dict_get].
    + apply String.eqb_eq in H0. subst k0. now rewrite Hk.
    + now rewrite IH.
Qed.

(** An error response gives a result without an [error] entry. *)
Lemma home_loan_result_no_error d :
  dict_get "status" d = Some (PStr "error") ->
  exists rd, home_loan_result (PDict d) = Ret (PDict rd) /\
             dict_get "error" rd = None.
Proof.
  intros Hs. unfold home_loan_result. cbn [py_getitem py_get bind].
  rewrite Hs. cbn [bind eq_str String.eqb Ascii.eqb Bool.eqb].
  destruct (dict_get "message" d), (dict_get "details" d),
    (dict_get "gemini_response" d); cbn [bind];
    eexists; split; reflexivity.
Qed.

Section RouteCodes.
Variable json_loads : string -> decoded.
Variable requests_post : request -> result response.
Variable model_ready : bool.
Variable ask : value -> value -> result string.

(** A result with an [error] entry is the object of the model's answer. *)
Lemma home_loan_error_entry full_ctx user_query rd kind :
  home_loan_from_context json_loads model_ready ask full_ctx user_query
    = Ret (PDict rd) ->
  dict_get "error" rd = Some kind ->
  model_ready = true /\ fetch_failed full_ctx = false /\
  exists text m obj,
    ask full_ctx user_query = Ret text /\
    re_search brace_pattern (strip text) = Some m /\
    json_loads (group0 m) = Decoded (PDict obj) /\
    rd = with_status obj.
Proof.
  intros H He. unfold home_loan_from_context in H.
  destruct (fetch_failed full_ctx) eqn:Hff.
  { destruct full_ctx as [| | | | | |ctx]; try discriminate Hff.
    cbn [py_get bind] in H.
    destruct (dict_get "message" ctx), (dict_get "details" ctx),
      (dict_get "login_url" ctx); cbn [bind] in H;
      injection H as <-; discriminate He. }
  destruct (sparse_context full_ctx) as [b|e]; [|discriminate].
  cbn [bind] in H. unfold _call_gemini_and_parse_json_whole in H.
  destruct model_ready; cbn [negb] in H.
  2:{ cbn in H. injection H as <-. discriminate He. }
  assert (Hno : forall d, dict_get "status" d = Some (PStr "error") ->
                          home_loan_result (PDict d) = Ret (PDict rd) -> False).
  { intros d Hs Hd. destruct (home_loan_result_no_error d Hs) as (rd' & Hr & Hn).
    rewrite Hr in Hd. injection Hd as <-. congruence. }
  destruct (ask full_ctx user_query) as [text|e] eqn:Ha.
  - cbn [bind] in H.
    destruct (parsing_response json_loads (strip text))
      as [(m & obj & Hm & Hj & Heq)|(d & Heq & Hs)]; rewrite Heq in H.
    + unfold home_loan_result in H.
      cbn [py_getitem dict_get bind eq_str String.eqb Ascii.eqb Bool.eqb] in H.
      destruct obj as [| | | | | |obj]; try discriminate H.
      split; [reflexivity|]. split; [reflexivity|].
      exists text, m, obj. repeat (split; [assumption|]).
      unfold with_status, dict_get_or. cbn [py_get py_setitem bind] in H.
      destruct (dict_get "status" obj); cbn [bind py_setitem] in H;
        now injection H as <-.
    + destruct (Hno d Hs H).
  - destruct (api_call_failed_status
                "An unexpected error occurred during API call." e)
      as (d & Heq & Hs).
    destruct e; try discriminate H; cbn [bind] in H; rewrite Heq in H;
      destruct (Hno d Hs H).
Qed.

(** X14. The route [/analyze_home_loan] answers 401 only when the model was
    asked and the object of its answer holds [error] equal to
    [login_required] and a true [login_url]: the context was fetched without
    a failure, so a login asked by the remote service never gives the 401. *)
Theorem login_status_comes_from_the_model is_json data body log :
  analyze_home_loan_route json_loads requests_post model_ready ask is_json data
    = (Ret (body, 401%Z), log) ->
  exists user_id user_query full_ctx text m obj url,
    py_get data "user_id" PNone = Ret user_id /\
    py_get data "user_query" PNone = Ret user_query /\
    get_full_financial_context_from_mcp_shared json_loads requests_post user_id
      = (Ret full_ctx, log) /\
    fetch_failed full_ctx = false /\
    ask full_ctx user_query = Ret text /\
    re_search brace_pattern (strip text) = Some m /\
    json_loads (group0 m) = Decoded (PDict obj) /\
    dict_get "error" obj = Some (PStr "login_required") /\
    dict_get "login_url" obj = Some url /\ truthy url = true /\
    body = PDict [("status", PStr "login_required");
                  ("message",
                   dict_get_or "message" (PStr "MCP login required.") obj);
                  ("login_url", url)].
Proof.
  intros H. unfold analyze_home_loan_route in H.
  destruct is_json; cbn [negb] in H; [|discriminate].
  destruct (py_get data "user_id" PNone) as [user_id|] eqn:Hid;
    [|discriminate].
  destruct (py_get data "user_query" PNone) as [user_query|] eqn:Hq;
    [|discriminate].
  destruct (negb (truthy user_id) || negb (truthy user_query));
    [discriminate|].
  destruct (analyze_home_loan_affordability _ _ _ _ _ _)
    as [[r|e] log0] eqn:Ha; [|discriminate].
  injection H as H <-.
  unfold analyze_home_loan_affordability in Ha.
  destruct (get_full_financial_context_from_mcp_shared _ _ _)
    as [[full_ctx|e] lg] eqn:Hg; [|discriminate].
  injection Ha as Hr <-.
  destruct r as [| | | | | |rd]; try discriminate H.
  cbn [py_get py_getitem bind] in H.
  destruct (dict_get "error" rd) as [kind|] eqn:Hk.
  2:{ cbn [bind eq_str] in H.
      destruct (dict_get "status" rd) as [st|]; cbn [bind eq_str] in H;
        [destruct (eq_str st "error")|]; discriminate. }
  cbn [bind] in H. destruct (eq_str kind "login_required") eqn:Hkind.
  2:{ cbn [bind] in H.
      destruct (dict_get "status" rd) as [st|]; cbn [bind eq_str] in H;
        [destruct (eq_str st "error")|]; discriminate. }
  destruct (dict_get "login_url" rd) as [url|] eqn:Hu; cbn [bind truthy] in H.
  2:{ destruct (dict_get "status" rd) as [st|]; cbn [bind eq_str] in H;
        [destruct (eq_str st "error")|]; discriminate. }
  destruct (truthy url) eqn:Ht.
  2:{ destruct (dict_get "status" rd) as [st|]; cbn [bind eq_str] in H;
        [destruct (eq_str st "error")|]; discriminate. }
  destruct kind as [| | | |kind| |]; try discriminate Hkind.
  cbn [eq_str] in Hkind. apply String.eqb_eq in Hkind. subst kind.
  destruct (home_loan_error_entry _ _ _ _ Hr Hk)
    as (_ & Hff & text & m & obj & Hask & Hm & Hj & ->).
  unfold with_status in Hk, Hu, H.
  rewrite dict_get_set_other in Hk, Hu by reflexivity.
  rewrite dict_get_set_other in H by reflexivity.
  exists user_id, user_query, full_ctx, text, m, obj, url.
  repeat (split; [first [assumption | reflexivity]|]).
  unfold dict_get_or.
  destruct (dict_get "message" obj); cbn [bind] in H;
    injection H as <-; reflexivity.
Qed.

End RouteCodes.

(** * The category of an expense *)

Lemma lstrip_spec (s : string) :
  exists ws,
    s = ws ++ lstrip s /\ all_space ws = true /\
    starts_with_space (lstrip s) = false.
Proof.
  induction s as [|c s (ws & Hs & Hw & Hst)]; [now exists EmptyString|].
  cbn [lstrip]. destruct (is_space c) eqn:Hc.
  - exists (String c ws). cbn [append all_space]. rewrite Hc, Hw, <- Hs. auto.
  - exists EmptyString. cbn [append all_space starts_with_space]. auto.
Qed.

Lemma rstrip_spec (s : string) :
  exists ws,
    s = rstrip s ++ ws /\ all_space ws = true /\
    ends_with_space (rstrip s) = false.
Proof.
  induction s as [|c s (ws & Hs & Hw & He)]; [now exists EmptyString|].
  cbn [rstrip]. destruct (rstrip s) as [|c' r] eqn:Hr.
  - cbn [append] in Hs. subst ws. destruct (is_space c) eqn:Hc.
    + exists (String c s). cbn [append all_space]. rewrite Hc, Hw. auto.
    + exists s. cbn [append ends_with_space]. auto.
  - exists ws. cbn [append ends_with_space] in *. rewrite <- Hs. auto.
Qed.

Lemma lstrip_keeps_end (s : string) :
  ends_with_space s = false -> ends_with_space (lstrip s) = false.
Proof.
  induction s as [|c s IH]; [reflexivity|]. intros H.
  cbn [lstrip]. destruct (is_space c); [|exact H].
  destruct s as [|c' s]; [reflexivity|]. apply IH. exact H.
Qed.

(** What [strip] returns: the text without the white space around it. *)
Lemma strip_spec (s : string) :
  exists pre post,
    s = pre ++ strip s ++ post /\
    all_space pre = true /\ all_space post = true /\
    starts_with_space (strip s) = false /\ ends_with_space (strip s) = false.
Proof.
  destruct (rstrip_spec s) as (post & Hs & Hpost & He).
  destruct (lstrip_spec (rstrip s)) as (pre & Hr & Hpre & Hst).
  exists pre, post. unfold strip.
  rewrite <- append_assoc, <- Hr, <- Hs.
  repeat (split; [first [assumption | reflexivity]|]).
  now apply lstrip_keeps_end.
Qed.

(** X15. For a body that is an object, the route [/suggest_category] raises
    nothing and answers 400, 200 or 500: 400 when the request is not JSON or
    has no true [description]; 200 when the model answered, the category
    being its text without the white space around it; 500 with the text of
    the exception when the call of the model raised. *)
Theorem category_is_the_trimmed_answer
    (ask : value -> result string) (is_json : bool) (d : dict) :
  exists body code,
    suggest_category_route ask is_json (PDict d) = Ret (body, code) /\
    ((code = 400%Z /\
      (is_json = false \/
       forall description,
         dict_get "description" d = Some description ->
         truthy description = false)) \/
     (code = 200%Z /\ is_json = true /\
      exists description text pre post,
        dict_get "description" d = Some description /\
        truthy description = true /\
        ask description = Ret text /\
        body = PDict [("status", PStr "success");
                      ("category", PStr (strip text))] /\
        text = pre ++ strip text ++ post /\
        all_space pre = true /\ all_space post = true /\
        starts_with_space (strip text) = false /\
        ends_with_space (strip text) = false) \/
     (code = 500%Z /\ is_json = true /\
      exists description e,
        dict_get "description" d = Some description /\
        truthy description = true /\
        ask description = Raise e /\
        body = PDict [("status", PStr "error");
                      ("message", PStr "Could not suggest category");
                      ("details", PStr (str_exn e))])).
Proof.
  unfold suggest_category_route.
  destruct is_json; cbn [negb]; [|do 2 eexists; split; [reflexivity|]; auto].
  cbn [py_get]. destruct (dict_get "description" d) as [description|] eqn:Hd;
    cbn [bind].
  2:{ do 2 eexists. split; [reflexivity|]. left. split; [reflexivity|].
      right. discriminate. }
  destruct (truthy description) eqn:Ht; cbn [negb].
  2:{ do 2 eexists. split; [reflexivity|]. left. split; [reflexivity|].
      right. now intros ? [= <-]. }
  destruct (ask description) as [text|e] eqn:Ha; cbv zeta;
    cbn [suggest_expense_category py_get dict_get bind eq_str
         String.eqb Ascii.eqb Bool.eqb];
    do 2 eexists; (split; [reflexivity|]); right.
  - left. split; [reflexivity|]. split; [reflexivity|].
    destruct (strip_spec text) as (pre & post & Hs & Hpre & Hpost & Hst & He).
    exists description, text, pre, post. auto 10.
  - right. split; [reflexivity|]. split; [reflexivity|].
    exists description, e. auto.
Qed.

(** * Further runs on concrete inputs *)

(** The net worth of the healthy service is a payload fetched with
    success. *)
Lemma fetcher_returns_failure_or_payload_witness :
  succeeds_with Json.loads (serve healthy) "fetch_net_worth" (mcp_args user)
    (PDict [("salary", PInt 150000); ("assets", PInt 500000)]).
Proof.
  exact (proj2 (proj2 (fetcher_returns_failure_or_payload Json.loads
                         (serve healthy) "fetch_net_worth" (mcp_args user)))
           "netWorth" eq_refl eq_refl).
Defined.

(** An inner text that is a JSON list. *)
Lemma non_object_is_unexpected_witness :
  fetched Json.loads net_worth_is_list "fetch_net_worth" (mcp_args user)
  = Ret unexpected_error.
Proof.
  refine (non_object_is_unexpected Json.loads net_worth_is_list
            "fetch_net_worth" (mcp_args user) (dq "[150000]")
            (PList [PInt 150000]) _ _ _).
  - run_answers.
  - vm_compute. reflexivity.
  - discriminate.
Defined.

(** A 401 whose body is a login envelope is an HTTP error, not a login. *)
Lemma http_status_comes_first_witness :
  fetched Json.loads unauthorized "fetch_bank_transactions" (mcp_args user)
  = Ret (http_error 401 "Unauthorized").
Proof.
  refine (http_status_comes_first Json.loads unauthorized
            "fetch_bank_transactions" (mcp_args user)
            (mk_response 401 "Unauthorized" (Ret (envelope login_text))) _ _).
  - reflexivity.
  - cbn. lia.
Defined.

(** The healthy service gives a context with status [success]. *)
Lemma success_means_all_fetched_witness :
  snd (get_full_financial_context_from_mcp_shared Json.loads (serve healthy)
         user) = requests_for tools_to_fetch (mcp_args user) /\
  forall tool_name context_key,
    In (tool_name, context_key) tools_to_fetch ->
    is_failure (outcome Json.loads (serve healthy) tool_name (mcp_args user))
    = false.
Proof.
  destruct (get_full_financial_context_from_mcp_shared Json.loads
              (serve healthy) user) as [[r|e] log] eqn:Hrun;
    [|vm_compute in Hrun; discriminate].
  destruct (success_means_all_fetched Json.loads (serve healthy) user r log
              Hrun) as (_ & Hlog & Hall & _).
  - vm_compute in Hrun. injection Hrun as <- _.
    eexists. split; reflexivity.
  - split; [exact Hlog|]. intros tn ck Hin. exact (proj1 (Hall tn ck Hin)).
Defined.

(** With a timeout on the first tool the aggregator returns status
    [error]. *)
Lemma aggregator_returns_status_witness :
  exists r log,
    get_full_financial_context_from_mcp_shared Json.loads bank_times_out user
      = (Ret r, log) /\
    (status_is r "error" \/ status_is r "success").
Proof.
  refine (aggregator_returns_status Json.loads bank_times_out user
            [("salary", PInt 150000); ("assets", PInt 500000)] _ _ _).
  - reflexivity.
  - each_tool; intros Hf; vm_compute in Hf; try discriminate;
      eexists; vm_compute; reflexivity.
  - vm_compute. reflexivity.
Defined.

(** The sample text: no brace before the object. *)
Lemma object_after_braceless_text_witness :
  re_search brace_pattern sample_text
  = Some (mk_match 26 sample_span None) /\
  _call_gemini_and_parse_json Json.loads sample_text
  = PDict [("status", PStr "success"); ("data", sample_object)].
Proof.
  assert (Hb : balanced1 sample_span).
  { destruct (search_is_first_span sample_span (mk_match 0 sample_span None))
      as (pre & post & _ & Hb & _); [vm_compute; reflexivity | exact Hb]. }
  destruct (object_after_braceless_text Json.loads
              "Sure! Here is the result: " sample_span " Thanks." eq_refl Hb)
    as [Hm Hobj].
  split; [exact Hm|].
  apply (Hobj sample_object). vm_compute. reflexivity.
Defined.

(** The answer [{"a": {"b": {"c": 1}}}] gives the object under ["a"]. *)
Lemma middle_object_is_extracted_witness :
  re_search brace_pattern nested_answer
  = Some (mk_match 6 (dq "{'b': {'c': 1}}") None) /\
  _call_gemini_and_parse_json Json.loads nested_answer
  = PDict [("status", PStr "success");
           ("data", PDict [("b", PDict [("c", PInt 1)])])].
Proof.
  destruct (middle_object_is_extracted Json.loads
              (dq "'a': ") (dq "'b': ") (dq "'c': 1") EmptyString "}"
              eq_refl eq_refl eq_refl eq_refl) as [Hm Hobj].
  split; [exact Hm|].
  apply (Hobj (PDict [("b", PDict [("c", PInt 1)])])). vm_compute. reflexivity.
Defined.

(** With the healthy service: an answer with an object is returned with
    its status, and a model whose call raises [ValueError] makes the
    function raise. *)
Lemma home_loan_status_or_raise_witness :
  has_status
    (PDict [("affordability_score", PStr "70/100");
            ("home_loan_verdict", PStr "Maybe");
            ("status", PStr "success")]) /\
  fst (analyze_home_loan_affordability Json.loads (serve healthy) true
         (answers_with loan_answer) user loan_query)
  = Ret (PDict [("affordability_score", PStr "70/100");
                ("home_loan_verdict", PStr "Maybe");
                ("status", PStr "success")]) /\
  fst (analyze_home_loan_affordability Json.loads (serve healthy) true
         blocked_model user loan_query)
  = Raise (UnboundLocalError "raw_response_text").
Proof.
  assert (Hrun :
    fst (analyze_home_loan_affordability Json.loads (serve healthy) true
           (answers_with loan_answer) user loan_query)
    = Ret (PDict [("affordability_score", PStr "70/100");
                  ("home_loan_verdict", PStr "Maybe");
                  ("status", PStr "success")]))
    by (vm_compute; reflexivity).
  pose proof (home_loan_status_or_raise Json.loads (serve healthy) true
                (answers_with loan_answer) user loan_query
                Json_loads_objects) as H.
  rewrite Hrun in H.
  split; [exact H|]. split; [exact Hrun|]. vm_compute. reflexivity.
Defined.

(** The empty string as the user id. *)
Lemma home_loan_asks_model_without_user_witness :
  analyze_home_loan_affordability Json.loads (serve healthy) true
    (answers_with loan_answer) (PStr EmptyString) loan_query
  = (Ret (PDict [("affordability_score", PStr "70/100");
                 ("home_loan_verdict", PStr "Maybe");
                 ("status", PStr "success")]),
     []).
Proof.
  refine (home_loan_asks_model_without_user Json.loads (serve healthy) true
            (answers_with loan_answer) (PStr EmptyString) loan_query
            loan_answer
            (mk_match 0
               (dq "{'affordability_score': '70/100', 'home_loan_verdict': 'Maybe'}")
               None)
            [("affordability_score", PStr "70/100");
             ("home_loan_verdict", PStr "Maybe")]
            _ _ _ _ _); vm_compute; reflexivity.
Defined.

(** A login at the third tool: the route answers 500 and the body holds
    the login URL. *)
Lemma fetch_failure_is_answered_500_witness :
  analyze_home_loan_route Json.loads login_at_epf true
    (answers_with loan_answer) true loan_request
  = (Ret (PDict ([("status", PStr "error");
                  ("message", PStr login_message);
                  ("details", PStr "Visit the provided URL and try again.");
                  ("login_url", login_url_value)]
                 ++ blank_analysis)%list,
          500%Z),
     requests_for (firstn 3 tools_to_fetch) (mcp_args user)).
Proof.
  refine (proj2 (fetch_failure_is_answered_500 Json.loads login_at_epf true
                   (answers_with loan_answer) loan_request user loan_query
                   [("status", PStr "error");
                    ("message", PStr login_message);
                    ("login_url", login_url_value);
                    ("details", PStr "Visit the provided URL and try again.")]
                   (requests_for (firstn 3 tools_to_fetch) (mcp_args user))
                   _ _ _ _ _ _)); reflexivity.
Defined.


(** The model answers an object that asks for a login: the route answers
    401 although the remote service gave all the data. *)
Lemma login_status_comes_from_the_model_witness :
  analyze_home_loan_route Json.loads (serve healthy) true
    (answers_with login_answer) true loan_request
  = (Ret (PDict [("status", PStr "login_required");
                 ("message", PStr "MCP login required.");
                 ("login_url", PStr "http://localhost:8080/login")],
          401%Z),
     requests_for tools_to_fetch (mcp_args user)) /\
  exists full_ctx,
    get_full_financial_context_from_mcp_shared Json.loads (serve healthy) user
      = (Ret full_ctx, requests_for tools_to_fetch (mcp_args user)) /\
    fetch_failed full_ctx = false.
Proof.
  assert (Hrun :
    analyze_home_loan_route Json.loads (serve healthy) true
      (answers_with login_answer) true loan_request
    = (Ret (PDict [("status", PStr "login_required");
                   ("message", PStr "MCP login required.");
                   ("login_url", PStr "http://localhost:8080/login")],
            401%Z),
       requests_for tools_to_fetch (mcp_args user)))
    by (vm_compute; reflexivity).
  split; [exact Hrun|].
  destruct (login_status_comes_from_the_model Json.loads (serve healthy) true
              (answers_with login_answer) true loan_request _ _ Hrun)
    as (user_id & user_query & full_ctx & text & m & obj & url
        & Hid & _ & Hg & Hff & _).
  injection Hid as <-. now exists full_ctx.
Defined.
